(** * public-weather: harmonised weather tables

    A shallow embedding of [weather/api/functions.py],
    [weather/api/extractor.py] and [weather/api/weather_api.py].

    Conventions.
    - A pandas cell is [option V]: [None] is NaN (a missing value).
    - Numbers are rationals ([Q]) wherever the code only adds, subtracts,
      divides and compares; the solar geometry needs [cos] and is carried
      out over the reals ([R]).  Rounding of binary floating point is not
      modelled.
    - A timestamp is an absolute instant, in minutes since the epoch.
    - A Python exception is a [Raise] result. *)

From Stdlib Require Import ZArith QArith Qabs List String Sorted Lia Reals Psatz.
From stdpp Require Import base option gmap strings pretty.

Import ListNotations.
Local Open Scope string_scope.
Local Open Scope Z_scope.

(** ** Exceptions and fallible computations *)

Inductive exn : Type :=
| KeyError (key : string)
| ValueError
| InvalidIndexError
| AttributeError (attr : string).

Inductive result (A : Type) : Type :=
| Ok (a : A)
| Raise (e : exn).
Arguments Ok {A} a.
Arguments Raise {A} e.

Global Instance result_ret : MRet result := fun _ a => Ok a.
Global Instance result_bind : MBind result := fun _ _ f m =>
  match m with
  | Ok a => f a
  | Raise e => Raise e
  end.

(** ** Tables *)

Module Frame.

Record DataFrame (V : Type) : Type := mkDataFrame {
  index_name : option string;
  columns : list string;
  rows : list (Z * list (option V))
}.
Arguments mkDataFrame {V} _ _ _.
Arguments index_name {V} _.
Arguments columns {V} _.
Arguments rows {V} _.

Section Generic.
Context {V : Type}.

Definition index (df : DataFrame V) : list Z := map fst (rows df).

(** [pd.DataFrame(columns=cols)] *)
Definition empty_frame (cols : list string) : DataFrame V :=
  mkDataFrame None cols [].

Definition with_rows (df : DataFrame V) (rs : list (Z * list (option V)))
  : DataFrame V :=
  mkDataFrame (index_name df) (columns df) rs.

(** [df.columns = names] raises on a length mismatch. *)
Definition set_columns (df : DataFrame V) (names : list string)
  : result (DataFrame V) :=
  if (length (columns df) =? length names)%nat
  then Ok (mkDataFrame (index_name df) names (rows df))
  else Raise ValueError.

Definition set_index_name (df : DataFrame V) (name : string) : DataFrame V :=
  mkDataFrame (Some name) (columns df) (rows df).

(** Position of a column label. *)
Fixpoint column_position (name : string) (cols : list string) : option nat :=
  match cols with
  | [] => None
  | c :: cols' =>
      if String.eqb c name then Some 0%nat
      else option_map S (column_position name cols')
  end.

Fixpoint update_nth (n : nat) (f : option V -> option V)
         (r : list (option V)) : list (option V) :=
  match r, n with
  | [], _ => []
  | c :: r', O => f c :: r'
  | c :: r', S n' => c :: update_nth n' f r'
  end.

(** [df[name] = f(df[name])] *)
Definition map_column (name : string) (f : option V -> option V)
           (df : DataFrame V) : result (DataFrame V) :=
  match column_position name (columns df) with
  | Some n =>
      Ok (with_rows df (map (fun r => (fst r, update_nth n f (snd r))) (rows df)))
  | None => Raise (KeyError name)
  end.

(** The values of one column, top to bottom. *)
Definition column_values (name : string) (df : DataFrame V)
  : option (list (option V)) :=
  match column_position name (columns df) with
  | Some n => Some (map (fun r => nth n (snd r) None) (rows df))
  | None => None
  end.

(** Every cell through [f]. *)
Definition map_cells (f : option V -> option V) (df : DataFrame V)
  : DataFrame V :=
  with_rows df (map (fun r => (fst r, map f (snd r))) (rows df)).

(** [df.shift()]: each row receives the values of the row above it, the
    first row becomes all-NaN; the index stays. *)
Fixpoint shift_from (prev : list (option V)) (rs : list (Z * list (option V)))
  : list (Z * list (option V)) :=
  match rs with
  | [] => []
  | (t, r) :: rs' => (t, prev) :: shift_from r rs'
  end.

Definition shift (df : DataFrame V) : DataFrame V :=
  match rows df with
  | [] => df
  | (_, r) :: _ => with_rows df (shift_from (map (fun _ => None) r) (rows df))
  end.

(** A binary cell operation applied position by position (both operands
    carry the same index and columns). *)
Fixpoint zip_cells (f : option V -> option V -> option V)
         (a b : list (option V)) : list (option V) :=
  match a, b with
  | x :: a', y :: b' => f x y :: zip_cells f a' b'
  | _, _ => []
  end.

Fixpoint zip_rows (f : option V -> option V -> option V)
         (a b : list (Z * list (option V))) : list (Z * list (option V)) :=
  match a, b with
  | (t, x) :: a', (_, y) :: b' => (t, zip_cells f x y) :: zip_rows f a' b'
  | _, _ => []
  end.

(** First row carrying label [t]. *)
Fixpoint row_at (t : Z) (rs : list (Z * list (option V)))
  : option (list (option V)) :=
  match rs with
  | [] => None
  | (t', r) :: rs' => if t' =? t then Some r else row_at t rs'
  end.

End Generic.

(** *** Sorted union of two indexes *)

Fixpoint insert_sorted (x : Z) (l : list Z) : list Z :=
  match l with
  | [] => [x]
  | y :: l' =>
      if x <? y then x :: l
      else if x =? y then l
      else y :: insert_sorted x l'
  end.

Definition sort_unique (l : list Z) : list Z :=
  fold_right insert_sorted [] l.

Definition index_union (a b : list Z) : list Z := sort_unique (a ++ b).

Fixpoint has_duplicates (l : list Z) : bool :=
  match l with
  | [] => false
  | x :: l' => existsb (Z.eqb x) l' || has_duplicates l'
  end.

Definition index_equal (a b : list Z) : bool :=
  bool_decide (a = b).

End Frame.

Import Frame.

(** ** weather/structure/enums.py and schema.py *)

Module Enums.

Inductive WeatherDataSource : Type := TMY | PVLIB_CLEARSKY | ERA5 | PVGISSARAH2.

(** A [StrEnum] member made with [auto()] is the lower-cased member name. *)
Definition source_value (s : WeatherDataSource) : string :=
  match s with
  | TMY => "tmy"
  | PVLIB_CLEARSKY => "pvlib_clearsky"
  | ERA5 => "era5"
  | PVGISSARAH2 => "pvgissarah2"
  end.

Definition source_name (s : WeatherDataSource) : string :=
  match s with
  | TMY => "TMY"
  | PVLIB_CLEARSKY => "PVLIB_CLEARSKY"
  | ERA5 => "ERA5"
  | PVGISSARAH2 => "PVGISSARAH2"
  end.

Inductive ExtractFile : Type := TEMPERATURE | SOLARRADIATION.

Definition filename_key (v : ExtractFile) : string :=
  match v with
  | TEMPERATURE => "2m_temperature"
  | SOLARRADIATION => "surface_net_solar_radiation"
  end.

Definition column_name (v : ExtractFile) : string :=
  match v with
  | TEMPERATURE => "t2m"
  | SOLARRADIATION => "ssr"
  end.

End Enums.

Module WeatherDataSchema.
Definition DATEINDEX : string := "Time".
Definition SOLARIRRADIANCE : string := "Global irradiance (W/m2)".
Definition OAT : string := "Air temperature (deg C)".
End WeatherDataSchema.

Module POAWeatherDataSchema.
Definition INDEX : string := "utc_time".
Definition POA_GLOBAL : string := "poa_global".
Definition POA_DIFFUSE : string := "poa_diffuse".
Definition POA_DIRECT : string := "poa_direct".
Definition POA_SKY_DIFFUSE : string := "poa_sky_diffuse".
Definition POA_GROUND_DIFFUSE : string := "poa_ground_diffuse".
Definition OUTDOOR_AIR_TEMPERATURE : string := "temp_air".
End POAWeatherDataSchema.

(** ** weather/api/functions.py *)

Module Functions.
Import Enums.

(** What [xr.open_dataset(path).to_dataframe().reset_index()] yields: the
    data variable [var] sampled at instants, and, when the file carries the
    [expver] coordinate, the experiment version of every sample. *)
Inductive Dataset : Type :=
| Plain (var : string) (samples : list (Z * option Q))
| Versioned (var : string) (samples : list (Z * Z * option Q)).

(** The files on disk, by path. *)
Abbreviation FileSystem := (gmap string Dataset).

Definition Qlt_bool (x y : Q) : bool := negb (Qle_bool y x).

Definition cell_sub (a b : option Q) : option Q :=
  match a, b with
  | Some x, Some y => Some (x - y)%Q
  | _, _ => None
  end.

(** [fillna(0)] on a cell. *)
Definition fillna0 (c : option Q) : option Q :=
  match c with
  | Some x => Some x
  | None => Some 0%Q
  end.

(** [df[df < 0] = 0] on a cell; NaN compares false and stays. *)
Definition clamp_negative (c : option Q) : option Q :=
  match c with
  | Some x => if Qlt_bool x 0 then Some 0%Q else Some x
  | None => None
  end.

Definition cell_div (d : Q) (c : option Q) : option Q :=
  option_map (fun x => (x / d)%Q) c.

Definition cell_minus (d : Q) (c : option Q) : option Q :=
  option_map (fun x => (x - d)%Q) c.

Definition apply_outputdataschema (dataf : DataFrame Q)
           (target_variable : ExtractFile) : result (DataFrame Q) :=
  match target_variable with
  | TEMPERATURE =>
      set_columns (set_index_name dataf WeatherDataSchema.DATEINDEX)
                  [WeatherDataSchema.OAT]
  | SOLARRADIATION =>
      set_columns (set_index_name dataf WeatherDataSchema.DATEINDEX)
                  [WeatherDataSchema.SOLARIRRADIANCE]
  end.

(** [a.combine_first(b)] on a cell: keep [a] unless it is missing. *)
Definition first_present (a b : option Q) : option Q :=
  match a with
  | Some x => Some x
  | None => b
  end.

Definition nan_row (width : nat) : list (option Q) := repeat None width.

(** The rows of a frame that carry label [t], top to bottom. *)
Definition rows_labelled (t : Z) (rs : list (Z * list (option Q)))
  : list (list (option Q)) :=
  map snd (List.filter (fun r => fst r =? t) rs).

(** The outer join of two frames on one label: every row of the left
    frame under that label against every row of the right one, a frame
    without the label standing as one all-NaN row. *)
Definition join_label (width : nat) (t : Z)
           (left right : list (Z * list (option Q))) : list (list (option Q)) :=
  let side rs :=
    match rows_labelled t rs with
    | [] => [nan_row width]
    | found => found
    end in
  flat_map (fun x => map (fun y => zip_cells first_present x y) (side right))
           (side left).

(** [df1.combine_first(df2)] for two frames with the same columns.  When
    one side has no rows the other is returned; identical indexes combine
    position by position; otherwise the frames are aligned by an outer
    join on the sorted labels ([DataFrame.align] accepts repeated
    labels). *)
Definition combine_first (df1 df2 : DataFrame Q) : DataFrame Q :=
  match rows df1, rows df2 with
  | _, [] => df1
  | [], _ => df2
  | _, _ =>
      if index_equal (index df1) (index df2)
      then with_rows df1 (zip_rows first_present (rows df1) (rows df2))
      else
        let width := length (columns df1) in
        with_rows df1
          (flat_map (fun t =>
                       map (fun r => (t, r))
                           (join_label width t (rows df1) (rows df2)))
                    (index_union (index df1) (index df2)))
  end.

(** [temp_dataf.loc[temp_dataf['expver'] == v, ['time', col]].set_index('time')] *)
Definition version_frame (col : string) (v : Z)
           (samples : list (Z * Z * option Q)) : DataFrame Q :=
  mkDataFrame (Some "time") [col]
    (map (fun s => (fst (fst s), [snd s]))
         (List.filter (fun s => snd (fst s) =? v) samples)).

Definition load_single_netcdf_file (ds : Dataset)
           (target_variable : ExtractFile) : result (DataFrame Q) :=
  let col := column_name target_variable in
  match ds with
  | Versioned var samples =>
      if String.eqb var col then
        let df1 := version_frame col 1 samples in
        let df2 := version_frame col 5 samples in
        Ok (combine_first df1 df2)
      else Raise (KeyError col)
  | Plain var samples =>
      if String.eqb var col then
        Ok (mkDataFrame (Some "time") [col]
              (map (fun s => (fst s, [snd s])) samples))
      else Raise (KeyError col)
  end.

(** [radiation_data - radiation_data.shift()] *)
Definition diff_with_shift (df : DataFrame Q) : DataFrame Q :=
  with_rows df (zip_rows cell_sub (rows df) (rows (shift df))).

Definition get_radiation_data (fs : FileSystem) (path_netcdf_file : string)
  : result (DataFrame Q) :=
  let target_variable := SOLARRADIATION in
  radiation_data ←
    match fs !! path_netcdf_file with
    | Some ds =>
        radiation_data ← load_single_netcdf_file ds target_variable;
        let radiation_data := diff_with_shift radiation_data in
        let radiation_data := map_cells fillna0 radiation_data in
        let radiation_data := map_cells clamp_negative radiation_data in
        map_column (column_name target_variable) (cell_div 3600) radiation_data
    | None => Ok (empty_frame [column_name target_variable])
    end;
  apply_outputdataschema radiation_data target_variable.

Definition get_temperature_data (fs : FileSystem) (path_netcdf_file : string)
  : result (DataFrame Q) :=
  let target_variable := TEMPERATURE in
  temperature_data ←
    match fs !! path_netcdf_file with
    | Some ds =>
        temperature_data ← load_single_netcdf_file ds target_variable;
        map_column (column_name target_variable) (cell_minus (27315 # 100))
                   temperature_data
    | None => Ok (empty_frame [column_name target_variable])
    end;
  apply_outputdataschema temperature_data target_variable.

End Functions.

(** ** weather/structure/protocols.py *)

Record Location : Type := mkLocation {
  name : string;
  latitude : Q;
  longitude : Q;
  altitude : Q;
  timezone : string
}.

(** ** weather/api/extractor.py *)

Module Extractor.
Import Enums Functions.

(** The request handed to [api_client.retrieve], with its target path. *)
Record Request : Type := mkRequest {
  req_dataset : string;
  req_format : string;
  req_variable : string;
  req_year : string;
  req_month : list string;
  req_day : list string;
  req_time : list string;
  req_area : list Q;
  req_target : string
}.

(** The archive client: given the calls made so far and a request,
    [retrieve] writes the file at the target, returns without leaving one,
    or raises. *)
Definition Client : Type := list Request -> Request -> result (option Dataset).

(** The world the extractor acts on: files on disk and the retrieve calls
    made so far, oldest first. *)
Record World : Type := mkWorld {
  files : FileSystem;
  calls : list Request
}.

Record Era5DataExtractor : Type := mkExtractor {
  location : Location;
  api_client : option Client;
  saving_path : string;
  variables_to_extract : list string
}.

(** [p / q] for a relative [q]. *)
Definition path_join (p q : string) : string := p +:+ "/" +:+ q.

(** [create_saving_path] with no argument: the directory the files go to. *)
Definition create_saving_path (self : Era5DataExtractor) : Era5DataExtractor :=
  mkExtractor (location self) (api_client self)
    (path_join (saving_path self)
       ("weather_data/" +:+ name (location self) +:+ "_netcdf_data"))
    (variables_to_extract self).

(** The extractor that the dataclass constructor and [__post_init__]
    return.  [created] is what [create_api_client] left behind when it
    returned: a client, or nothing when [cdsapi.Client] failed an
    assertion, which is caught and only printed. *)
Definition new_extractor (loc : Location) (client created : option Client)
           (path : string) : Era5DataExtractor :=
  let client :=
    match client with
    | Some c => Some c
    | None => created
    end in
  create_saving_path
    (mkExtractor loc client path
       [filename_key SOLARRADIATION; filename_key TEMPERATURE]).

(** The constructor call [Era5DataExtractor(loc, client, path)] with its
    [__post_init__].  When no client is given, [create_api_client] calls
    [cdsapi.Client(...)], whose outcome is [attempt]: a client, no client
    (an [AssertionError], the only exception caught), or any other
    exception, which leaves the constructor before anything else is
    done. *)
Definition post_init (loc : Location) (client : option Client)
           (attempt : result (option Client)) (path : string)
  : result Era5DataExtractor :=
  match client with
  | Some _ => Ok (new_extractor loc client None path)
  | None => created ← attempt; Ok (new_extractor loc None created path)
  end.

Definition variable_filename (self : Era5DataExtractor) (variable : string)
           (year : Z) : string :=
  name (location self) +:+ "_" +:+ variable +:+ "_" +:+ pretty year +:+ ".nc".

Definition get_variable_file_path (self : Era5DataExtractor)
           (variable : ExtractFile) (year : Z) : string :=
  path_join (saving_path self)
            (variable_filename self (filename_key variable) year).

Definition get_ghi_data (self : Era5DataExtractor) (w : World) (sim_year : Z)
  : result (DataFrame Q) :=
  get_radiation_data (files w) (get_variable_file_path self SOLARRADIATION sim_year).

Definition get_temperature_data (self : Era5DataExtractor) (w : World)
           (sim_year : Z) : result (DataFrame Q) :=
  Functions.get_temperature_data (files w)
    (get_variable_file_path self TEMPERATURE sim_year).

(** [f'{x:02d}'] *)
Definition two_digits (x : nat) : string :=
  if (x <? 10)%nat then "0" +:+ pretty x else pretty x.

Definition all_monhts : list string := map two_digits (seq 1 12).

Definition all_days : list string := map two_digits (seq 1 31).

Definition all_times : list string :=
  map (fun h => two_digits h +:+ ":00") (seq 0 24).

(** [x - 0.01 if x > 0 else x + 0.01] *)
Definition buffer (x : Q) : Q :=
  if Qlt_bool 0 x then (x - (1 # 100))%Q else (x + (1 # 100))%Q.

Definition get_box_coordinates (self : Era5DataExtractor) : list Q :=
  let box_coordinates := [latitude (location self); longitude (location self)] in
  (box_coordinates ++ map buffer box_coordinates)%list.

Definition retrieve_request (self : Era5DataExtractor) (variable : string)
           (year : Z) (months : list string) (target : string) : Request :=
  mkRequest "reanalysis-era5-land" "netcdf" variable (pretty year) months
            all_days all_times (get_box_coordinates self) target.

(** The body of the [for variable in self.variables_to_extract] loop. *)
Fixpoint download_variables (self : Era5DataExtractor) (year : Z)
         (months : list string) (variables : list string) (w : World)
  : World * result unit :=
  match variables with
  | [] => (w, Ok tt)
  | variable :: rest =>
      let temp_full_path :=
        path_join (saving_path self) (variable_filename self variable year) in
      match files w !! temp_full_path with
      | Some _ => download_variables self year months rest w
      | None =>
          match api_client self with
          | None => (w, Raise (AttributeError "retrieve"))
          | Some client =>
              let request :=
                retrieve_request self variable year months temp_full_path in
              let called := (calls w ++ [request])%list in
              match client (calls w) request with
              | Ok (Some ds) =>
                  download_variables self year months rest
                    (mkWorld (<[temp_full_path := ds]> (files w)) called)
              | Ok None =>
                  download_variables self year months rest
                    (mkWorld (files w) called)
              | Raise e => (mkWorld (files w) called, Raise e)
              end
          end
      end
  end.

Definition download_data (self : Era5DataExtractor) (year : Z)
           (months : option (list string)) (w : World) : World * result unit :=
  let months := default all_monhts months in
  download_variables self year months (variables_to_extract self) w.

(** Retrieve calls in a log that target [path]. *)
Definition calls_for (path : string) (log : list Request) : list Request :=
  List.filter (fun r => String.eqb (req_target r) path) log.

End Extractor.

(** ** weather/api/weather_api.py *)

Module WeatherApi.
Import Enums Functions.

(** *** Calendar *)

(** Days from 1970-01-01 to the civil date [y]-[m]-[d]. *)
Definition days_from_civil (y m d : Z) : Z :=
  let y' := if m <=? 2 then y - 1 else y in
  let era := y' / 400 in
  let yoe := y' - era * 400 in
  let doy := (153 * (if m >? 2 then m - 3 else m + 9) + 2) / 5 + d - 1 in
  let doe := yoe * 365 + yoe / 4 - yoe / 100 + doy in
  era * 146097 + doe - 719468.

(** A wall-clock time, in minutes since 1970-01-01 00:00 on that clock. *)
Definition wall_clock (y m d hh mm : Z) : Z :=
  days_from_civil y m d * 1440 + hh * 60 + mm.

(** [pd.date_range(start, end, freq)] on instants: [start], [start + freq],
    ... up to [end] included. *)
Definition date_range (start stop freq : Z) : list Z :=
  if stop <? start then []
  else map (fun k => start + freq * Z.of_nat k)
           (seq 0 (S (Z.to_nat ((stop - start) / freq)))).

(** *** Values a source tag can take at run time.  The field is annotated
    [enums.WeatherDataSource] but nothing checks it: a member of the enum,
    a plain string, or some other hashable object, which may or may not
    have a [name]. *)
Inductive PyTag : Type :=
| Member (s : WeatherDataSource)
| PyStr (s : string)
| PyOther (name_attr : option string).

(** The string a tag hashes and compares as, when it is one: a [StrEnum]
    member is a [str]. *)
Definition tag_key (t : PyTag) : option string :=
  match t with
  | Member s => Some (source_value s)
  | PyStr s => Some s
  | PyOther _ => None
  end.

(** [tag.name] *)
Definition tag_name (t : PyTag) : result string :=
  match t with
  | Member s => Ok (source_name s)
  | PyStr _ => Raise (AttributeError "name")
  | PyOther (Some n) => Ok n
  | PyOther None => Raise (AttributeError "name")
  end.

Record WeatherData : Type := mkWeatherData {
  geolocation : Location;
  simulation_year : Z;
  weather_data_source : PyTag;
  saving_path : string
}.

(** The four bound methods held by [weather_func_dict]. *)
Inductive Strategy : Type :=
| F_clearsky_solar_data
| F_weather_data_from_era5
| F_sarah2_weather_data
| F_tmy_weather_data.

Definition weather_func_dict : gmap string Strategy :=
  <[source_value PVLIB_CLEARSKY := F_clearsky_solar_data]>
  (<[source_value ERA5 := F_weather_data_from_era5]>
  (<[source_value PVGISSARAH2 := F_sarah2_weather_data]>
  (<[source_value TMY := F_tmy_weather_data]> ∅))).

(** [weather_func_dict.get(tag, self.get_tmy_weather_data)] *)
Definition dict_get (tag : PyTag) : Strategy :=
  default F_tmy_weather_data (tag_key tag ≫= (weather_func_dict !!.)).

(** The strategy [get_weather_data] calls. *)
Definition select_weather_func (self : WeatherData) (passed : option PyTag)
  : Strategy :=
  let weather_data_source := default (weather_data_source self) passed in
  dict_get weather_data_source.

Definition lower_ascii (c : Ascii.ascii) : Ascii.ascii :=
  let n := Ascii.nat_of_ascii c in
  if ((65 <=? n) && (n <=? 90))%nat then Ascii.ascii_of_nat (n + 32) else c.

Fixpoint lower (s : string) : string :=
  match s with
  | EmptyString => EmptyString
  | String c s' => String (lower_ascii c) (lower s')
  end.

Section Processing.
(** The table's number type plays no part below. *)
Context {V : Type}.

(** The timezone database: for a zone name and a wall-clock time, the
    offset from UTC in minutes. *)
Variable utc_offset : string -> Z -> Z.

(** e2slib's [resample_and_fill_missing_data(dataf, freq)] and
    [fill_missing_data(dataf)], with [freq] in minutes. *)
Variable resample_and_fill_missing_data : DataFrame V -> Z -> DataFrame V.
Variable fill_missing_data : DataFrame V -> DataFrame V.

Definition start_date (self : WeatherData) : Z :=
  wall_clock (simulation_year self) 1 1 0 0.

Definition end_date (self : WeatherData) : Z :=
  wall_clock (simulation_year self) 12 31 23 30.

(** [tz_localize]: the instant at which the zone's clock shows [t]. *)
Definition localize (tz : string) (t : Z) : Z := t - utc_offset tz t.

Definition get_date_range (self : WeatherData) : list Z :=
  let tz := timezone (geolocation self) in
  date_range (localize tz (start_date self)) (localize tz (end_date self)) 30.

(** [pd.concat([pd.DataFrame(index=date_range), dataf], axis=1)]: an
    outer join on the labels.  Identical indexes need no reindexing;
    otherwise [dataf] is reindexed on the sorted union of the labels,
    which pandas refuses for a table that repeats a label (a resampled
    table does not). *)
Definition concat_on_index (labels : list Z) (dataf : DataFrame V)
  : result (DataFrame V) :=
  if index_equal labels (index dataf)
  then Ok (mkDataFrame None (columns dataf) (rows dataf))
  else if has_duplicates (index dataf) then Raise InvalidIndexError
  else
    let width := length (columns dataf) in
    Ok (mkDataFrame None (columns dataf)
          (map (fun t => (t, default (repeat None width) (row_at t (rows dataf))))
               (index_union labels (index dataf)))).

Definition weather_data_processing (self : WeatherData) (dataf : DataFrame V)
  : result (DataFrame V) :=
  let date_range := get_date_range self in
  let dataf := resample_and_fill_missing_data dataf 30 in
  dataf ← concat_on_index date_range dataf;
  Ok (fill_missing_data dataf).

(** The CSV files written so far, by path. *)
Definition save_weather_data (self : WeatherData) (dataf : DataFrame V)
           (csv : gmap string (DataFrame V))
  : result (gmap string (DataFrame V)) :=
  source_name ← tag_name (weather_data_source self);
  let filename :=
    "Weather_data_" +:+ lower source_name +:+ "_"
      +:+ pretty (simulation_year self) +:+ ".csv" in
  let path_saving_weather_data :=
    Extractor.path_join (saving_path self) "weather_data" in
  Ok (<[Extractor.path_join path_saving_weather_data filename := dataf]> csv).

(** The state the four strategies act on (network log and files), and
    what calling one of them does. *)
Variable S : Type.
Variable weather_funcs : Strategy -> WeatherData -> S -> S * result (DataFrame V).

Definition get_weather_data (self : WeatherData) (passed : option PyTag)
           (st : S) (csv : gmap string (DataFrame V))
  : S * gmap string (DataFrame V) * result (DataFrame V) :=
  let weather_func := select_weather_func self passed in
  match weather_funcs weather_func self st with
  | (st', Raise e) => (st', csv, Raise e)
  | (st', Ok dataf) =>
      match weather_data_processing self dataf with
      | Raise e => (st', csv, Raise e)
      | Ok dataf =>
          match save_weather_data self dataf csv with
          | Raise e => (st', csv, Raise e)
          | Ok csv' => (st', csv', Ok dataf)
          end
      end
  end.

End Processing.

Section Sarah.
Context {V : Type}.
Variable zero : V.
Variable add : V -> V -> V.

(** [Series.sum] with pandas' default [skipna=True]: missing entries
    are left out, and a row with nothing present sums to zero. *)
Definition sum_skipna (cells : list (option V)) : V :=
  fold_left (fun acc c => match c with Some x => add acc x | None => acc end)
            cells zero.

(** [dataf[cols]]: the positions of the requested labels. *)
Fixpoint column_positions (cols : list string) (dataf : DataFrame V)
  : result (list nat) :=
  match cols with
  | [] => Ok []
  | c :: cols' =>
      match column_position c (columns dataf) with
      | None => Raise (KeyError c)
      | Some n => ns ← column_positions cols' dataf; Ok (n :: ns)
      end
  end.

(** [dataf[name] = f(row)]: overwrite the column, or append it. *)
Definition assign_column (name : string) (f : list (option V) -> option V)
           (dataf : DataFrame V) : DataFrame V :=
  match column_position name (columns dataf) with
  | Some n =>
      with_rows dataf
        (map (fun r => (fst r, update_nth n (fun _ => f (snd r)) (snd r)))
             (rows dataf))
  | None =>
      mkDataFrame (index_name dataf) (columns dataf ++ [name])%list
        (map (fun r => (fst r, (snd r ++ [f (snd r)])%list)) (rows dataf))
  end.

Definition sum_columns (positions : list nat) (row : list (option V))
  : option V :=
  Some (sum_skipna (map (fun n => nth n row None) positions)).

Definition format_sarah_weather_data (self : WeatherData)
           (dataf : DataFrame V) : result (DataFrame V) :=
  let poa_global_cols :=
    [POAWeatherDataSchema.POA_DIRECT;
     POAWeatherDataSchema.POA_GROUND_DIFFUSE;
     POAWeatherDataSchema.POA_SKY_DIFFUSE] in
  positions ← column_positions poa_global_cols dataf;
  let dataf :=
    assign_column POAWeatherDataSchema.POA_GLOBAL (sum_columns positions) dataf in
  let poa_diffuse_cols :=
    [POAWeatherDataSchema.POA_GROUND_DIFFUSE;
     POAWeatherDataSchema.POA_SKY_DIFFUSE] in
  positions ← column_positions poa_diffuse_cols dataf;
  let dataf :=
    assign_column POAWeatherDataSchema.POA_DIFFUSE (sum_columns positions) dataf in
  (* tz_convert keeps every instant *)
  Ok (set_index_name dataf POAWeatherDataSchema.INDEX).

(** The value a row holds under a column label. *)
Definition cell_in (dataf : DataFrame V) (name : string)
           (row : list (option V)) : option V :=
  match column_position name (columns dataf) with
  | Some n => nth n row None
  | None => None
  end.

(** Every row is as wide as the header. *)
Definition well_formed (dataf : DataFrame V) : Prop :=
  Forall (fun r => length (snd r) = length (columns dataf)) (rows dataf).

(** [weather_data.loc[:, key] = values] for a one-dimensional array.
    A frame without rows takes its index from the values (0, 1, ...);
    otherwise the lengths must agree. *)
Definition loc_set_column (key : string) (values : list (option V))
           (dataf : DataFrame V) : result (DataFrame V) :=
  match column_position key (columns dataf) with
  | Some n =>
      if (length values =? length (rows dataf))%nat
      then Ok (with_rows dataf
                 (map (fun rv => (fst (fst rv),
                                  update_nth n (fun _ => snd rv) (snd (fst rv))))
                      (combine (rows dataf) values)))
      else Raise ValueError
  | None =>
      let cols := (columns dataf ++ [key])%list in
      match rows dataf with
      | [] =>
          Ok (mkDataFrame (index_name dataf) cols
                (map (fun kv => (Z.of_nat (fst kv),
                                 (repeat None (length (columns dataf))
                                    ++ [snd kv])%list))
                     (combine (seq 0 (length values)) values)))
      | _ =>
          if (length values =? length (rows dataf))%nat
          then Ok (mkDataFrame (index_name dataf) cols
                     (map (fun rv => (fst (fst rv),
                                      (snd (fst rv) ++ [snd rv])%list))
                          (combine (rows dataf) values)))
          else Raise ValueError
      end
  end.

(** [dataf.values.flatten()] *)
Definition values_flatten (dataf : DataFrame V) : list (option V) :=
  concat (map snd (rows dataf)).

End Sarah.

(** *** Solar geometry and the ERA5 strategy, over the reals *)

Record SolarPosition : Type := mkSolarPosition {
  zenith : R;
  apparent_zenith : R;
  azimuth : R
}.

Record DiscOutput : Type := mkDiscOutput {
  disc_dni : option R;
  disc_kt : option R;
  disc_airmass : option R
}.

Definition frame_of_Q (df : DataFrame Q) : DataFrame R :=
  mkDataFrame (index_name df) (columns df)
    (map (fun r => (fst r, map (option_map Q2R) (snd r))) (rows df)).

Definition cell_op (f : R -> R -> R) (a b : option R) : option R :=
  match a, b with
  | Some x, Some y => Some (f x y)
  | _, _ => None
  end.

Section Strategies.
(** pvlib, per timestamp: the solar position and relative airmass at a
    place, the DISC decomposition, and the plane-of-array transposition
    (which yields poa_global, poa_direct, poa_diffuse, poa_sky_diffuse
    and poa_ground_diffuse, in this order). *)
Variable get_solarposition : Q -> Q -> Z -> SolarPosition.
Variable get_airmass : Q -> Q -> Z -> option R.
Variable disc : option R -> R -> Z -> DiscOutput.
Variable get_total_irradiance :
  R -> R -> R -> R -> option R -> option R -> option R -> option R ->
  list (option R).
(** The providers reached over the network. *)
Variable get_clearsky : Q -> Q -> list Z -> DataFrame R.
Variable get_pvgis_tmy : Q -> Q -> result (DataFrame R).
Variable get_pvgis_hourly : Q -> Q -> Z -> Z -> result (DataFrame R).
(** What [cdsapi.Client(...)] does inside [create_api_client]: see
    [Extractor.post_init]. *)
Variable create_api_client : result (option Extractor.Client).
Variable utc_offset : string -> Z -> Z.

Definition poa_columns : list string :=
  [POAWeatherDataSchema.POA_GLOBAL; POAWeatherDataSchema.POA_DIRECT;
   POAWeatherDataSchema.POA_DIFFUSE; POAWeatherDataSchema.POA_SKY_DIFFUSE;
   POAWeatherDataSchema.POA_GROUND_DIFFUSE].

Definition convert_to_poa (self : WeatherData) (dataf : DataFrame R)
  : result (DataFrame R) :=
  let lat := latitude (geolocation self) in
  let lon := longitude (geolocation self) in
  match column_position "dni" (columns dataf),
        column_position "ghi" (columns dataf),
        column_position "dhi" (columns dataf) with
  | Some i_dni, Some i_ghi, Some i_dhi =>
      Ok (mkDataFrame (index_name dataf) poa_columns
            (map (fun r =>
                    let solar_position := get_solarposition lat lon (fst r) in
                    (fst r,
                     get_total_irradiance 0%R 180%R
                       (apparent_zenith solar_position)
                       (azimuth solar_position)
                       (nth i_dni (snd r) None)
                       (nth i_ghi (snd r) None)
                       (nth i_dhi (snd r) None)
                       (get_airmass lat lon (fst r))))
                 (rows dataf)))
  | None, _, _ => Raise (KeyError "dni")
  | _, None, _ => Raise (KeyError "ghi")
  | _, _, None => Raise (KeyError "dhi")
  end.

(** The table [add_solar_components_to_ghi_data] hands to
    [convert_to_poa]: DISC's three columns, then ghi, then dhi. *)
Definition horizontal_components (self : WeatherData) (ghi_data : DataFrame R)
  : DataFrame R :=
  let lat := latitude (geolocation self) in
  let lon := longitude (geolocation self) in
  mkDataFrame (index_name ghi_data) ["dni"; "kt"; "airmass"; "ghi"; "dhi"]
    (map (fun r =>
            let ghi := nth 0 (snd r) None in
            let solar_position := get_solarposition lat lon (fst r) in
            let dni_data := disc ghi (zenith solar_position) (fst r) in
            let dni := disc_dni dni_data in
            let dhi :=
              cell_op Rminus ghi
                (cell_op Rmult
                   (Some (cos (zenith solar_position * PI / 180)%R)) dni) in
            (fst r, [dni; disc_kt dni_data; disc_airmass dni_data; ghi; dhi]))
         (rows ghi_data)).

(** The labels of a frame are instants: a frame stands for one with a
    [DatetimeIndex], as every frame read from a file is.  (On the frame
    of a missing file, whose index is not one, pvlib's [disc] yields a
    dict and [pd.concat] raises; this frame and that of a file without
    samples are one and the same here.) *)
Definition add_solar_components_to_ghi_data (self : WeatherData)
           (ghi_data : DataFrame R) : result (DataFrame R) :=
  ghi_data ← set_columns ghi_data ["ghi"];
  convert_to_poa self (horizontal_components self ghi_data).

Definition get_weather_data_from_era5 (self : WeatherData) (w : Extractor.World)
  : Extractor.World * result (DataFrame R) :=
  match Extractor.post_init (geolocation self) None create_api_client
                            (saving_path self) with
  | Raise e => (w, Raise e)
  | Ok site_era5_extractor =>
      match Extractor.download_data site_era5_extractor (simulation_year self)
                                    None w with
      | (w', Raise e) => (w', Raise e)
      | (w', Ok _) =>
          (w',
           ghi_data ← Extractor.get_ghi_data site_era5_extractor w'
                        (simulation_year self);
           weather_data ←
             add_solar_components_to_ghi_data self (frame_of_Q ghi_data);
           temperature_data ←
             Extractor.get_temperature_data site_era5_extractor
               w' (simulation_year self);
           loc_set_column POAWeatherDataSchema.OUTDOOR_AIR_TEMPERATURE
             (values_flatten (frame_of_Q temperature_data)) weather_data)
      end
  end.

Definition get_clearsky_solar_data (self : WeatherData) : result (DataFrame R) :=
  let date_range := get_date_range utc_offset self in
  let solar_data :=
    get_clearsky (latitude (geolocation self)) (longitude (geolocation self))
                 date_range in
  convert_to_poa self solar_data.

Definition get_tmy_weather_data (self : WeatherData) : result (DataFrame R) :=
  weather_data ← get_pvgis_tmy (latitude (geolocation self))
                               (longitude (geolocation self));
  Ok (set_index_name weather_data POAWeatherDataSchema.INDEX).

Definition get_sarah2_weather_data (self : WeatherData) : result (DataFrame R) :=
  weather_data ← get_pvgis_hourly (latitude (geolocation self))
                   (longitude (geolocation self))
                   (start_date self) (end_date self);
  format_sarah_weather_data 0%R Rplus self weather_data.

(** Calling the bound method a [Strategy] stands for. *)
Definition weather_funcs (f : Strategy) (self : WeatherData)
           (w : Extractor.World) : Extractor.World * result (DataFrame R) :=
  match f with
  | F_clearsky_solar_data => (w, get_clearsky_solar_data self)
  | F_weather_data_from_era5 => get_weather_data_from_era5 self w
  | F_sarah2_weather_data => (w, get_sarah2_weather_data self)
  | F_tmy_weather_data => (w, get_tmy_weather_data self)
  end.

End Strategies.

End WeatherApi.

(** ** The statements of the specification, in its own words *)

Module Spec.
Import Enums Functions.

(** Differences of consecutive samples, the sample before the first one
    being [prev]. *)
Fixpoint differences_from (prev : Q) (xs : list Q) : list Q :=
  match xs with
  | [] => []
  | x :: xs' => (x - prev)%Q :: differences_from x xs'
  end.

Definition zero_if_negative (d : Q) : Q := if Qlt_bool d 0 then 0%Q else d.

(** "First-differencing consecutive samples, treating the first sample and
    any negative difference as zero, then divide by 3600." *)
Definition instantaneous_power (xs : list Q) : list Q :=
  match xs with
  | [] => []
  | x :: xs' =>
      map (fun d => (d / 3600)%Q)
          (0%Q :: map zero_if_negative (differences_from x xs'))
  end.

(** "The box shrinks toward zero if the coordinate is negative, grows if
    positive": the buffered coordinate is nearer to zero than a negative
    coordinate and farther from zero than a positive one. *)
Definition box_direction_as_worded (x : Q) : Prop :=
  (x < 0 -> Qabs (Extractor.buffer x) < Qabs x)%Q /\
  (0 < x -> Qabs x < Qabs (Extractor.buffer x))%Q.

(** "The half-hourly grid from Y-01-01 00:00 to Y-12-31 23:30 in the
    site's timezone": the instants half an hour apart, from the first to
    the last of these two. *)
Definition on_calendar_grid (utc_offset : string -> Z -> Z)
           (self : WeatherApi.WeatherData) (t : Z) : Prop :=
  let tz := timezone (WeatherApi.geolocation self) in
  exists k, 0 <= k /\
    t = WeatherApi.localize utc_offset tz (WeatherApi.start_date self) + 30 * k /\
    t <= WeatherApi.localize utc_offset tz (WeatherApi.end_date self).

(** "Equals exactly the grid, with no missing timestamps and no
    duplicates." *)
Definition calendar_complete (utc_offset : string -> Z -> Z)
           (self : WeatherApi.WeatherData) (labels : list Z) : Prop :=
  (forall t, In t labels <-> on_calendar_grid utc_offset self t) /\
  List.NoDup labels.

(** A tag is recognised when the dictionary of strategies has its key. *)
Definition recognized (tag : WeatherApi.PyTag) : Prop :=
  exists s, WeatherApi.tag_key tag = Some (source_value s).

(** The acquisition strategy of each of the four sources. *)
Definition strategy_for (s : WeatherDataSource) : WeatherApi.Strategy :=
  match s with
  | TMY => WeatherApi.F_tmy_weather_data
  | PVLIB_CLEARSKY => WeatherApi.F_clearsky_solar_data
  | ERA5 => WeatherApi.F_weather_data_from_era5
  | PVGISSARAH2 => WeatherApi.F_sarah2_weather_data
  end.

(** "For a tag that is not one of the four, or when no tag is passed and
    the stored source is unrecognised, it falls back to the typical-year
    strategy instead of raising": whenever that strategy and the calendar
    normaliser succeed, so does the call, with their table. *)
Definition falls_back_without_error {V S : Type}
           (utc_offset : string -> Z -> Z)
           (resample : DataFrame V -> Z -> DataFrame V)
           (fill : DataFrame V -> DataFrame V)
           (weather_funcs : WeatherApi.Strategy -> WeatherApi.WeatherData ->
                            S -> S * result (DataFrame V))
           (self : WeatherApi.WeatherData) (passed : option WeatherApi.PyTag)
           (st : S) (csv : gmap string (DataFrame V)) : Prop :=
  ~ recognized (default (WeatherApi.weather_data_source self) passed) ->
  forall st' raw out,
    weather_funcs WeatherApi.F_tmy_weather_data self st = (st', Ok raw) ->
    WeatherApi.weather_data_processing utc_offset resample fill self raw
      = Ok out ->
    exists csv',
      WeatherApi.get_weather_data utc_offset resample fill S weather_funcs
        self passed st csv = (st', csv', Ok out).

(** The value a version of the reanalysis holds at an instant: that of
    its first sample there, if it has one. *)
Fixpoint value_at (v t : Z) (samples : list (Z * Z * option Q))
  : option (option Q) :=
  match samples with
  | [] => None
  | s :: samples' =>
      if (fst (fst s) =? t) && (snd (fst s) =? v) then Some (snd s)
      else value_at v t samples'
  end.

(** "Prefer the first version, fall back to the second": the first
    version's value when it is present, else the second version's. *)
Definition prefer_first (first second : option (option Q))
  : option (option Q) :=
  match first with
  | Some (Some x) => Some (Some x)
  | Some None =>
      match second with
      | Some c => Some c
      | None => Some None
      end
  | None => second
  end.

(** pandas' [+] and [==] on cells: a missing operand makes the sum
    missing, and a missing value equals nothing. *)
Definition cell_add (a b : option Q) : option Q :=
  match a, b with
  | Some x, Some y => Some (x + y)%Q
  | _, _ => None
  end.

Definition cell_equal (a b : option Q) : bool :=
  match a, b with
  | Some x, Some y => Qeq_bool x y
  | _, _ => false
  end.

(** "poa_global == poa_direct + poa_ground_diffuse + poa_sky_diffuse and
    poa_diffuse == poa_ground_diffuse + poa_sky_diffuse", on one row. *)
Definition poa_sums_hold (out : DataFrame Q) (row : list (option Q)) : Prop :=
  let cell name := WeatherApi.cell_in out name row in
  cell_equal (cell POAWeatherDataSchema.POA_GLOBAL)
    (cell_add (cell_add (cell POAWeatherDataSchema.POA_DIRECT)
                        (cell POAWeatherDataSchema.POA_GROUND_DIFFUSE))
              (cell POAWeatherDataSchema.POA_SKY_DIFFUSE)) = true /\
  cell_equal (cell POAWeatherDataSchema.POA_DIFFUSE)
    (cell_add (cell POAWeatherDataSchema.POA_GROUND_DIFFUSE)
              (cell POAWeatherDataSchema.POA_SKY_DIFFUSE)) = true.

(** The three columns the satellite formatter adds up. *)
Definition poa_inputs : list string :=
  [POAWeatherDataSchema.POA_DIRECT; POAWeatherDataSchema.POA_GROUND_DIFFUSE;
   POAWeatherDataSchema.POA_SKY_DIFFUSE].

(** "GHI = DNI * cos(zenith) + DHI", the zenith angle in degrees taken
    to radians, on three cells: the three are present and the equality
    holds. *)
Definition closure_holds (zenith : R) (ghi dni dhi : option R) : Prop :=
  exists g d h : R,
    ghi = Some g /\ dni = Some d /\ dhi = Some h /\
    g = (d * cos (zenith * PI / 180) + h)%R.

(** "The decomposition holds for every row of the table produced": on a
    row of a table, read under the labels ghi, dni and dhi. *)
Definition closure_on_row (zenith : R) (out : DataFrame R)
           (row : list (option R)) : Prop :=
  closure_holds zenith
    (WeatherApi.cell_in out "ghi" row)
    (WeatherApi.cell_in out "dni" row)
    (WeatherApi.cell_in out "dhi" row).

(** "DHI = GHI - DNI * cos(zenith)": the difference where both are
    present; a missing operand leaves DHI missing. *)
Definition derived_diffuse (zenith : R) (ghi dni dhi : option R) : Prop :=
  match ghi, dni with
  | Some g, Some d => dhi = Some (g - d * cos (zenith * PI / 180))%R
  | _, _ => dhi = None
  end.

(** Every row holds exactly one cell. *)
Definition single_column {V : Type} (rs : list (Z * list (option V))) : Prop :=
  Forall (fun r => length (snd r) = 1%nat) rs.

(** A missing value counted as zero. *)
Definition or_zero (c : option Q) : Q := default 0%Q c.

(** "It returns a table only when the temperature table and the
    radiation-derived table have exactly the same number of rows." *)
Definition returns_only_on_equal_counts
           (get_solarposition : Q -> Q -> Z -> WeatherApi.SolarPosition)
           (get_airmass : Q -> Q -> Z -> option R)
           (disc : option R -> R -> Z -> WeatherApi.DiscOutput)
           (get_total_irradiance :
              R -> R -> R -> R -> option R -> option R -> option R ->
              option R -> list (option R))
           (create_api_client : option Extractor.Client)
           (self : WeatherApi.WeatherData) (w : Extractor.World) : Prop :=
  let site :=
    Extractor.new_extractor (WeatherApi.geolocation self) None
      create_api_client (WeatherApi.saving_path self) in
  let year := WeatherApi.simulation_year self in
  forall w' ghi_data weather_data temperature_data out,
    Extractor.download_data site year None w = (w', Ok tt) ->
    Extractor.get_ghi_data site w' year = Ok ghi_data ->
    WeatherApi.add_solar_components_to_ghi_data get_solarposition get_airmass
      disc get_total_irradiance self (WeatherApi.frame_of_Q ghi_data)
      = Ok weather_data ->
    Extractor.get_temperature_data site w' year = Ok temperature_data ->
    WeatherApi.get_weather_data_from_era5 get_solarposition get_airmass disc
      get_total_irradiance (Ok create_api_client) self w = (w', Ok out) ->
    length (rows temperature_data) = length (rows weather_data).

End Spec.

(** ** Sample sites, files and providers *)

Module Examples.
Import Enums Functions.

(** The site of [main.py]. *)
Definition demo_location : Location :=
  mkLocation "Demo_site" (52414 # 1000) (- 1143 # 1000) (906 # 10) "UTC".

Definition demo_weather (source : WeatherApi.PyTag) : WeatherApi.WeatherData :=
  WeatherApi.mkWeatherData demo_location 2020 source "data".

(** A file holding the cumulative series 0, 3600, 7200, 10800 J/m2, one
    sample an hour. *)
Definition hourly_ramp : list (Z * Q) :=
  [(0, 0%Q); (60, 3600%Q); (120, 7200%Q); (180, 10800%Q)].

(** A reanalysis file with both experiment versions at two instants: the
    first version is missing at the second instant. *)
Definition two_versions : list (Z * Z * option Q) :=
  [(0, 1, Some (10 # 1)); (0, 5, Some (99 # 1));
   (60, 1, None); (60, 5, Some (20 # 1))].

(** A satellite table whose only row lacks the direct component. *)
Definition sarah_row_without_direct : DataFrame Q :=
  mkDataFrame (Some "time") ["poa_direct"; "poa_sky_diffuse"; "poa_ground_diffuse"]
    [(0, [None; Some (2 # 1); Some (1 # 1)])].

Definition sarah_full_row : DataFrame Q :=
  mkDataFrame (Some "time") ["poa_direct"; "poa_sky_diffuse"; "poa_ground_diffuse"]
    [(0, [Some (4 # 1); Some (2 # 1); Some (1 # 1)])].

(** An archive client that always delivers a file with one sample, and an
    empty world. *)
Definition delivering_client : Extractor.Client :=
  fun history request => Ok (Some (Plain (Extractor.req_variable request)
                                         [(0, Some (1 # 1))])).

Definition empty_world : Extractor.World := Extractor.mkWorld ∅ [].

(** Stand-ins for pvlib: a sun fixed at 60 degrees from the zenith, no
    airmass, a DISC model that returns half of ghi as dni, and a
    transposition onto the horizontal plane. *)
Definition fixed_sun (lat lon : Q) (t : Z) : WeatherApi.SolarPosition :=
  WeatherApi.mkSolarPosition 60%R 60%R 180%R.

Definition no_airmass (lat lon : Q) (t : Z) : option R := None.

Definition half_direct (ghi : option R) (zenith : R) (t : Z)
  : WeatherApi.DiscOutput :=
  WeatherApi.mkDiscOutput (option_map (fun g => (g / 2)%R) ghi) None None.

Definition horizontal_plane
           (surface_tilt surface_azimuth solar_zenith solar_azimuth : R)
           (dni ghi dhi airmass : option R) : list (option R) :=
  [ghi; WeatherApi.cell_op Rminus ghi dhi; dhi; dhi; Some 0%R].

(** A table with one global-irradiance sample of 100 W/m2. *)
Definition one_ghi_sample : DataFrame R :=
  mkDataFrame (Some "Time") ["Global irradiance (W/m2)"] [(0, [Some 100%R])].

(** The extractor [get_weather_data_from_era5] builds for the demo site,
    and three states of its directory for 2020: a radiation file without
    any sample next to a temperature file with one; one sample in each, at
    different instants; a radiation sample and no temperature file, with a
    client that returns without leaving a file. *)
Definition era5_site : Extractor.Era5DataExtractor :=
  Extractor.new_extractor demo_location None None "data".

Definition site_files (radiation : list (Z * option Q))
           (temperature : list (Z * option Q)) : Extractor.World :=
  Extractor.mkWorld
    (<[Extractor.get_variable_file_path era5_site SOLARRADIATION 2020
         := Plain "ssr" radiation]>
       (<[Extractor.get_variable_file_path era5_site TEMPERATURE 2020
            := Plain "t2m" temperature]> ∅))
    [].

Definition radiation_without_samples : Extractor.World :=
  site_files [] [(0, Some (280 # 1))].

Definition samples_at_different_instants : Extractor.World :=
  site_files [(0, Some (3600 # 1))] [(90, Some (280 # 1))].

Definition idle_client : Extractor.Client :=
  fun history request => Ok None.

Definition radiation_only : Extractor.World :=
  Extractor.mkWorld
    {[ Extractor.get_variable_file_path era5_site SOLARRADIATION 2020
         := Plain "ssr" [(0, Some (3600 # 1))] ]}
    [].

Definition ramp_files : FileSystem :=
  {[ "site_surface_net_solar_radiation_2020.nc" :=
       Plain "ssr" (map (fun s => (fst s, Some (snd s))) hourly_ramp) ]}.

(** A zone that keeps UTC all year. *)
Definition utc_all_year (tz : string) (t : Z) : Z := 0.

(** A resampler and a filler that find nothing to do: the table is
    already half-hourly and complete. *)
Definition already_half_hourly (dataf : DataFrame Q) (freq : Z) : DataFrame Q :=
  dataf.

Definition nothing_to_fill (dataf : DataFrame Q) : DataFrame Q := dataf.

(** A provider table with one row stamped 2021-01-01 00:00 UTC, and one
    with a row stamped 2020-01-01 00:00 UTC. *)
Definition row_of_2021 : DataFrame Q :=
  mkDataFrame (Some "time(UTC)") ["temp_air"]
    [(WeatherApi.wall_clock 2021 1 1 0 0, [Some (5 # 1)])].

Definition row_of_2020 : DataFrame Q :=
  mkDataFrame (Some "time(UTC)") ["temp_air"]
    [(WeatherApi.wall_clock 2020 1 1 0 0, [Some (5 # 1)])].

Definition provider (table : DataFrame Q) (f : WeatherApi.Strategy)
           (self : WeatherApi.WeatherData) (st : unit)
  : unit * result (DataFrame Q) :=
  (st, Ok table).

End Examples.

(** ** weather/api/functions.py, the remaining functions *)

Module FunctionsRest.
Import Enums Functions.

(** [enums.WeatherDataFormat] *)
Inductive WeatherDataFormat : Type := POA | DEFAULT.

Definition get_weather_data_format (weather_data_columns : list string)
  : WeatherDataFormat :=
  if existsb (String.eqb "poa_global") weather_data_columns
  then POA else DEFAULT.

(** [pd.concat([a, b], axis=1)]: the columns of both, side by side on
    identical indexes, else on the sorted union of the labels, a table
    without a label standing as NaN; pandas refuses to reindex a table
    that repeats a label. *)
Definition concat_axis1 (a b : DataFrame Q) : result (DataFrame Q) :=
  let name :=
    if bool_decide (index_name a = index_name b) then index_name a else None in
  let cols := (columns a ++ columns b)%list in
  if index_equal (index a) (index b)
  then Ok (mkDataFrame name cols
             (map (fun p => (fst (fst p), (snd (fst p) ++ snd (snd p))%list))
                  (combine (rows a) (rows b))))
  else if has_duplicates (index a) || has_duplicates (index b)
  then Raise InvalidIndexError
  else
    Ok (mkDataFrame name cols
          (map (fun t =>
                  (t, (default (nan_row (length (columns a))) (row_at t (rows a))
                         ++ default (nan_row (length (columns b)))
                              (row_at t (rows b)))%list))
               (index_union (index a) (index b)))).

(** What a caller hands over as [target_area]: the annotation says [str],
    and the two functions it is passed on to call [.exists()] on it,
    which a [pathlib.Path] has and a [str] has not. *)
Inductive PathArgument : Type :=
| GivenStr (s : string)
| GivenPath (p : string).

Definition get_all_data (fs : FileSystem) (target_area : PathArgument)
  : result (DataFrame Q) :=
  match target_area with
  | GivenStr _ =>
      (* get_radiation_data, called first: str has no attribute exists *)
      Raise (AttributeError "exists")
  | GivenPath path =>
      radiation ← get_radiation_data fs path;
      temperature ← get_temperature_data fs path;
      concat_axis1 radiation temperature
  end.

End FunctionsRest.

(** ** Wording of the further properties *)

Module Wording.

(** A cell that holds a number, and not a negative one. *)
Definition present_not_negative (c : option Q) : Prop :=
  exists x, c = Some x /\ (0 <= x)%Q.

Definition is_leap (y : Z) : bool :=
  (y mod 4 =? 0) && (negb (y mod 100 =? 0) || (y mod 400 =? 0)).

Definition days_in_year (y : Z) : Z := if is_leap y then 366 else 365.

(** The path of the CSV file of a source and a year. *)
Definition csv_path (self : WeatherApi.WeatherData) (source : string) : string :=
  Extractor.path_join
    (Extractor.path_join (WeatherApi.saving_path self) "weather_data")
    ("Weather_data_" +:+ WeatherApi.lower source +:+ "_"
       +:+ pretty (WeatherApi.simulation_year self) +:+ ".csv").

End Wording.

(** ** More sample files and tables *)

Module MoreExamples.
Import Enums Functions Examples.

(** A radiation file with a gap and a drop. *)
Definition gap_and_drop : FileSystem :=
  {[ "site_surface_net_solar_radiation_2020.nc" :=
       Plain "ssr" [(0, Some (5 # 1)); (60, None); (120, Some (3 # 1));
                    (180, Some (1 # 1))] ]}.

(** A temperature file with one sample of 300 K. *)
Definition one_temperature : FileSystem :=
  {[ "site_2m_temperature_2020.nc" := Plain "t2m" [(0, Some (300 # 1))] ]}.

(** An archive client that fails on every request. *)
Definition refusing_client : Extractor.Client :=
  fun history request => Raise ValueError.

Definition site_with (client : option Extractor.Client)
  : Extractor.Era5DataExtractor :=
  Extractor.new_extractor demo_location client None "data".

(** A provider whose typical-year table is stamped 2020 and whose other
    tables are stamped 2021. *)
Definition provider_by_source (f : WeatherApi.Strategy)
           (self : WeatherApi.WeatherData) (st : unit)
  : unit * result (DataFrame Q) :=
  match f with
  | WeatherApi.F_tmy_weather_data => (st, Ok row_of_2020)
  | _ => (st, Ok row_of_2021)
  end.

(** The file the demo object writes when its stored source is ERA5. *)
Definition csv_path_of_demo : string :=
  Wording.csv_path (demo_weather (WeatherApi.Member ERA5)) "ERA5".

(** A satellite provider that answers every request with the same full
    row, and a clear-sky model that is dark at every requested instant. *)
Definition one_row_provider (lat lon : Q) (start stop : Z)
  : result (DataFrame R) :=
  Ok (WeatherApi.frame_of_Q sarah_full_row).

Definition dark_sky (lat lon : Q) (times : list Z) : DataFrame R :=
  mkDataFrame None ["ghi"; "dni"; "dhi"]
    (map (fun t => (t, [Some 0%R; Some 0%R; Some 0%R])) times).

Definition no_typical_year (lat lon : Q) : result (DataFrame R) :=
  Raise ValueError.

Definition keep_half_hourly (dataf : DataFrame R) (freq : Z) : DataFrame R :=
  dataf.

Definition fill_nothing (dataf : DataFrame R) : DataFrame R := dataf.

End MoreExamples.

(** ** Properties *)

(** One step of a computation whose first part has returned. *)
Ltac run_bind :=
  match goal with
  | |- context [Ok ?x ≫= ?f] => change (Ok x ≫= f) with (f x); cbv beta
  end.

Import Enums Functions Examples.
Import Spec (poa_inputs, single_column).

Section FunctionsFacts.

Lemma shifted_differences (prev : Q) (samples : list (Z * Q)) :
  map (fun r => (fst r, update_nth 0 (cell_div 3600) (snd r)))
    (map (fun r => (fst r, map clamp_negative (snd r)))
       (map (fun r => (fst r, map fillna0 (snd r)))
          (zip_rows cell_sub
             (map (fun s => (fst s, [Some (snd s)])) samples)
             (shift_from [Some prev]
                (map (fun s => (fst s, [Some (snd s)])) samples)))))
  = map (fun s => (fst s, [Some (snd s)]))
      (combine (map fst samples)
         (map (fun d => (d / 3600)%Q)
            (map Spec.zero_if_negative
               (Spec.differences_from prev (map snd samples))))).
Proof.
  revert prev.
  induction samples as [|[t x] samples IH]; intros prev; [reflexivity|].
  cbn [map zip_rows shift_from fst snd combine Spec.differences_from].
  rewrite IH. cbn. unfold Spec.zero_if_negative.
  destruct (Qlt_bool (x - prev) 0); reflexivity.
Qed.

Lemma radiation_rows (samples : list (Z * Q)) (name : option string) :
  let loaded :=
    mkDataFrame name [column_name SOLARRADIATION]
      (map (fun s => (fst s, [Some (snd s)])) samples) in
  (radiation_data ←
     map_column (column_name SOLARRADIATION) (cell_div 3600)
       (map_cells clamp_negative (map_cells fillna0 (diff_with_shift loaded)));
   apply_outputdataschema radiation_data SOLARRADIATION)
  = Ok (mkDataFrame (Some WeatherDataSchema.DATEINDEX)
          [WeatherDataSchema.SOLARIRRADIANCE]
          (map (fun s => (fst s, [Some (snd s)]))
             (combine (map fst samples)
                (Spec.instantaneous_power (map snd samples))))).
Proof.
  destruct samples as [|[t x] samples]; [reflexivity|].
  cbn -[Qdiv Qminus]. do 3 f_equal.
  pose proof (shifted_differences x samples) as H.
  cbn -[Qdiv Qminus] in H |- *. exact H.
Qed.

Lemma combine_fst_length {A B} (l : list (A * B)) (ys : list B) :
  length ys = length l -> map fst (combine (map fst l) ys) = map fst l.
Proof.
  revert ys. induction l as [|a l IH]; intros [|y ys] Hlen; try discriminate;
    [reflexivity|].
  cbn. f_equal. apply IH. injection Hlen as Hlen. exact Hlen.
Qed.

Lemma combine_snd_length {A B C} (l : list (A * C)) (ys : list B) :
  length ys = length l -> map snd (combine (map fst l) ys) = ys.
Proof.
  revert ys. induction l as [|a l IH]; intros [|y ys] Hlen; try discriminate;
    [reflexivity|].
  cbn. f_equal. apply IH. injection Hlen as Hlen. exact Hlen.
Qed.

Lemma differences_from_length (prev : Q) (xs : list Q) :
  length (Spec.differences_from prev xs) = length xs.
Proof.
  revert prev. induction xs as [|x xs IH]; intros prev; [reflexivity|].
  cbn. f_equal. apply IH.
Qed.

Lemma instantaneous_power_length (xs : list Q) :
  length (Spec.instantaneous_power xs) = length xs.
Proof.
  destruct xs as [|x xs]; [reflexivity|].
  unfold Spec.instantaneous_power.
  rewrite length_map. cbn. rewrite length_map, differences_from_length.
  reflexivity.
Qed.

End FunctionsFacts.

(** C2. Whatever series of samples the radiation file loads to,
    [get_radiation_data] returns, under the schema's column name and on
    the same timestamps, the differences of consecutive samples with the
    first one and every negative one replaced by zero, divided by 3600.
    For 0, 3600, 7200, 10800 this is 0, 1, 1, 1. *)
Theorem get_radiation_data_first_difference
  (fs : FileSystem) (path : string) (ds : Dataset) (name : option string)
  (samples : list (Z * Q)) :
  fs !! path = Some ds ->
  load_single_netcdf_file ds SOLARRADIATION
    = Ok (mkDataFrame name [column_name SOLARRADIATION]
            (map (fun s => (fst s, [Some (snd s)])) samples)) ->
  (exists out,
      get_radiation_data fs path = Ok out /\
      columns out = [WeatherDataSchema.SOLARIRRADIANCE] /\
      index out = map fst samples /\
      column_values WeatherDataSchema.SOLARIRRADIANCE out
        = Some (map Some (Spec.instantaneous_power (map snd samples)))) /\
  (exists out,
      get_radiation_data ramp_files "site_surface_net_solar_radiation_2020.nc"
        = Ok out /\
      option_map (map (option_map Qred))
        (column_values WeatherDataSchema.SOLARIRRADIANCE out)
      = Some [Some 0; Some 1; Some 1; Some 1]%Q).
Proof.
  intros Hfile Hload. split; [|eexists; split; reflexivity].
  unfold get_radiation_data. rewrite Hfile.
  cbv beta zeta. rewrite Hload.
  pose proof (radiation_rows samples name) as H. cbv zeta in H.
  eexists. split; [exact H|].
  pose proof (instantaneous_power_length (map snd samples)) as Hlen.
  rewrite length_map in Hlen.
  split; [reflexivity|]. split.
  - unfold index. cbn [rows]. rewrite map_map. cbn [fst].
    apply combine_fst_length. exact Hlen.
  - unfold column_values. cbn. f_equal. rewrite map_map. cbn.
    rewrite <- (combine_snd_length samples _ Hlen) at 2.
    rewrite map_map. reflexivity.
Qed.

Lemma get_radiation_data_first_difference_witness :
  exists out,
    get_radiation_data ramp_files "site_surface_net_solar_radiation_2020.nc"
      = Ok out /\
    index out = [0; 60; 120; 180] /\
    column_values WeatherDataSchema.SOLARIRRADIANCE out
      = Some (map Some (Spec.instantaneous_power [0; 3600; 7200; 10800]%Q)).
Proof.
  destruct (get_radiation_data_first_difference ramp_files
              "site_surface_net_solar_radiation_2020.nc"
              (Plain "ssr" (map (fun s => (fst s, Some (snd s))) hourly_ramp))
              (Some "time") hourly_ramp)
    as [[out (Hout & _ & Hindex & Hvalues)] _].
  - reflexivity.
  - reflexivity.
  - exists out. split; [exact Hout|]. split; [exact Hindex|exact Hvalues].
Defined.

(** C6. For a path with no file behind it, [get_radiation_data] and
    [get_temperature_data] return a table without rows whose only column
    carries the schema's name; nothing is raised. *)
Theorem missing_file_gives_empty_table (fs : FileSystem) (path : string) :
  fs !! path = None ->
  get_radiation_data fs path
    = Ok (mkDataFrame (Some "Time") ["Global irradiance (W/m2)"] []) /\
  get_temperature_data fs path
    = Ok (mkDataFrame (Some "Time") ["Air temperature (deg C)"] []).
Proof.
  intros Hmissing.
  unfold get_radiation_data, get_temperature_data.
  rewrite Hmissing. split; reflexivity.
Qed.

Lemma missing_file_gives_empty_table_witness :
  get_radiation_data ∅ "nowhere.nc"
    = Ok (mkDataFrame (Some "Time") ["Global irradiance (W/m2)"] []) /\
  get_temperature_data ∅ "nowhere.nc"
    = Ok (mkDataFrame (Some "Time") ["Air temperature (deg C)"] []).
Proof.
  apply (missing_file_gives_empty_table ∅ "nowhere.nc"). reflexivity.
Defined.

(** *** The bounding box *)

Lemma Qlt_bool_iff (x y : Q) : Qlt_bool x y = true <-> (x < y)%Q.
Proof.
  unfold Qlt_bool. rewrite negb_true_iff.
  split.
  - intros H. apply Qnot_le_lt. intros Hle.
    apply Qle_bool_iff in Hle. congruence.
  - intros H. destruct (Qle_bool y x) eqn:E; [|reflexivity].
    apply Qle_bool_iff in E. exfalso. apply (Qlt_not_le _ _ H E).
Qed.

Lemma buffer_positive (x : Q) : (0 < x)%Q -> Extractor.buffer x = (x - (1 # 100))%Q.
Proof.
  intros H. unfold Extractor.buffer.
  apply Qlt_bool_iff in H. rewrite H. reflexivity.
Qed.

Lemma buffer_not_positive (x : Q) :
  (x <= 0)%Q -> Extractor.buffer x = (x + (1 # 100))%Q.
Proof.
  intros H. unfold Extractor.buffer.
  destruct (Qlt_bool 0 x) eqn:E; [|reflexivity].
  apply Qlt_bool_iff in E. exfalso. apply (Qlt_not_le _ _ E H).
Qed.

(** C8, as worded, fails at the demo site's latitude 52.414: the buffered
    latitude 52.404 is nearer to zero, not farther. *)
Lemma box_does_not_grow_at_positive_latitude :
  ~ Spec.box_direction_as_worded (latitude demo_location).
Proof.
  intros [_ Hgrow].
  assert (Hpos : (0 < latitude demo_location)%Q) by reflexivity.
  specialize (Hgrow Hpos). vm_compute in Hgrow. discriminate Hgrow.
Qed.

(** C8, amended. [get_box_coordinates] returns latitude, longitude and
    their buffered values, where a positive coordinate is lowered by 0.01
    and any other raised by 0.01; so for either sign a coordinate at least
    0.01 away from zero is moved 0.01 toward zero. *)
Theorem get_box_coordinates_moves_toward_zero (self : Extractor.Era5DataExtractor) :
  Extractor.get_box_coordinates self
    = [latitude (Extractor.location self); longitude (Extractor.location self);
       Extractor.buffer (latitude (Extractor.location self));
       Extractor.buffer (longitude (Extractor.location self))] /\
  forall x : Q,
    ((0 < x)%Q -> Extractor.buffer x = (x - (1 # 100))%Q) /\
    ((x <= 0)%Q -> Extractor.buffer x = (x + (1 # 100))%Q) /\
    ((1 # 100 <= Qabs x)%Q ->
     (Qabs (Extractor.buffer x) == Qabs x - (1 # 100))%Q).
Proof.
  split; [reflexivity|].
  intros x. split; [apply buffer_positive|]. split; [apply buffer_not_positive|].
  intros Hfar.
  destruct (Qlt_le_dec 0 x) as [Hpos|Hneg].
  - rewrite (buffer_positive x Hpos).
    assert (Hx : (Qabs x == x)%Q) by (apply Qabs_pos, Qlt_le_weak, Hpos).
    rewrite Hx in Hfar. rewrite Hx.
    apply Qabs_pos. lra.
  - rewrite (buffer_not_positive x Hneg).
    assert (Hx : (Qabs x == - x)%Q) by (apply Qabs_neg, Hneg).
    rewrite Hx in Hfar. rewrite Hx.
    rewrite Qabs_neg by lra. lra.
Qed.

Lemma get_box_coordinates_moves_toward_zero_witness :
  (Qabs (Extractor.buffer (longitude demo_location))
   == Qabs (longitude demo_location) - (1 # 100))%Q.
Proof.
  pose proof (get_box_coordinates_moves_toward_zero
                (Extractor.new_extractor demo_location None None "data")) as H.
  destruct H as [_ H].
  destruct (H (longitude demo_location)) as (_ & _ & Hzero).
  apply Hzero. vm_compute. discriminate.
Defined.

(** *** Sorted unions and the calendar grid *)

Section IndexFacts.

Local Abbreviation sorted := (StronglySorted Z.lt).

Lemma insert_sorted_In (x y : Z) (l : list Z) :
  In y (insert_sorted x l) <-> y = x \/ In y l.
Proof.
  induction l as [|z l IH]; cbn.
  - intuition.
  - destruct (x <? z) eqn:Hlt; [cbn; intuition|].
    destruct (x =? z) eqn:Heq.
    + apply Z.eqb_eq in Heq. subst z. cbn. intuition.
    + cbn. rewrite IH. intuition.
Qed.

Lemma insert_sorted_sorted (x : Z) (l : list Z) :
  sorted l -> sorted (insert_sorted x l).
Proof.
  induction 1 as [|z l Hs IH Hall]; cbn.
  - repeat constructor.
  - destruct (x <? z) eqn:Hlt.
    + apply Z.ltb_lt in Hlt. constructor; [constructor; assumption|].
      constructor; [exact Hlt|].
      apply List.Forall_forall. intros y Hy.
      rewrite List.Forall_forall in Hall. specialize (Hall y Hy). lia.
    + destruct (x =? z) eqn:Heq; [constructor; assumption|].
      apply Z.ltb_ge in Hlt. apply Z.eqb_neq in Heq.
      constructor; [exact IH|].
      apply List.Forall_forall. intros y Hy.
      apply insert_sorted_In in Hy. destruct Hy as [->|Hy]; [lia|].
      rewrite List.Forall_forall in Hall. apply Hall, Hy.
Qed.

Lemma sort_unique_In (y : Z) (l : list Z) : In y (sort_unique l) <-> In y l.
Proof.
  induction l as [|x l IH]; cbn; [reflexivity|].
  rewrite insert_sorted_In, IH. intuition.
Qed.

Lemma sort_unique_sorted (l : list Z) : sorted (sort_unique l).
Proof.
  induction l as [|x l IH]; cbn; [constructor|].
  apply insert_sorted_sorted, IH.
Qed.

Lemma sorted_NoDup (l : list Z) : sorted l -> List.NoDup l.
Proof.
  induction 1 as [|z l Hs IH Hall]; constructor; [|exact IH].
  intros Hin. rewrite List.Forall_forall in Hall. specialize (Hall z Hin). lia.
Qed.

(** Two strictly increasing lists with the same elements are the same. *)
Lemma sorted_same_elements (l1 l2 : list Z) :
  sorted l1 -> sorted l2 -> (forall t, In t l1 <-> In t l2) -> l1 = l2.
Proof.
  intros H1. revert l2.
  induction H1 as [|x l1 Hs1 IH Hall1]; intros l2 H2 Hsame.
  - destruct l2 as [|y l2]; [reflexivity|].
    exfalso. apply (Hsame y). left; reflexivity.
  - destruct H2 as [|y l2 Hs2 Hall2].
    + exfalso. apply (Hsame x). left; reflexivity.
    + rewrite List.Forall_forall in Hall1, Hall2.
      assert (x = y) as ->.
      { destruct (proj1 (Hsame x) (or_introl eq_refl)) as [Hxy|Hxin];
          [congruence|].
        destruct (proj2 (Hsame y) (or_introl eq_refl)) as [Hyx|Hyin];
          [congruence|].
        specialize (Hall1 y Hyin). specialize (Hall2 x Hxin). lia. }
      f_equal. apply IH; [exact Hs2|].
      intros t. split; intros Ht.
      * destruct (proj1 (Hsame t) (or_intror Ht)) as [Hty|Htin]; [|exact Htin].
        specialize (Hall1 t Ht). lia.
      * destruct (proj2 (Hsame t) (or_intror Ht)) as [Hty|Htin]; [|exact Htin].
        specialize (Hall2 t Ht). lia.
Qed.

Lemma index_union_In (t : Z) (a b : list Z) :
  In t (index_union a b) <-> In t a \/ In t b.
Proof. unfold index_union. rewrite sort_unique_In. apply in_app_iff. Qed.

Lemma index_union_sorted (a b : list Z) : sorted (index_union a b).
Proof. apply sort_unique_sorted. Qed.

(** Joining a grid with labels it already holds changes nothing. *)
Lemma index_union_within (a b : list Z) :
  sorted a -> incl b a -> index_union a b = a.
Proof.
  intros Ha Hincl.
  apply sorted_same_elements; [apply index_union_sorted|exact Ha|].
  intros t. rewrite index_union_In. split; [|auto].
  intros [Ht|Ht]; [exact Ht|apply Hincl, Ht].
Qed.

Lemma steps_sorted (start freq : Z) (from n : nat) :
  0 < freq ->
  sorted (map (fun k => start + freq * Z.of_nat k) (seq from n)).
Proof.
  intros Hfreq. revert from.
  induction n as [|n IH]; intros from; cbn; constructor; [apply IH|].
  apply List.Forall_forall. intros t Ht.
  apply in_map_iff in Ht. destruct Ht as (k & <- & Hk).
  apply in_seq in Hk. nia.
Qed.

Lemma date_range_sorted (start stop freq : Z) :
  0 < freq -> sorted (WeatherApi.date_range start stop freq).
Proof.
  intros Hfreq. unfold WeatherApi.date_range.
  destruct (stop <? start); [constructor|].
  apply steps_sorted, Hfreq.
Qed.

(** The grid holds exactly the instants [start + freq * k] up to [stop]. *)
Lemma date_range_In (start stop freq t : Z) :
  0 < freq ->
  In t (WeatherApi.date_range start stop freq)
  <-> exists k, 0 <= k /\ t = start + freq * k /\ t <= stop.
Proof.
  intros Hfreq. unfold WeatherApi.date_range.
  destruct (stop <? start) eqn:Hempty.
  - apply Z.ltb_lt in Hempty. split; [intros []|].
    intros (k & Hk & -> & Hle).
    assert (0 <= freq * k) by (apply Z.mul_nonneg_nonneg; lia). lia.
  - apply Z.ltb_ge in Hempty. rewrite in_map_iff. split.
    + intros (k & <- & Hk). apply in_seq in Hk.
      exists (Z.of_nat k). split; [lia|]. split; [reflexivity|].
      assert (0 <= (stop - start) / freq) by (apply Z.div_pos; lia).
      assert (Z.of_nat k <= (stop - start) / freq) by lia.
      pose proof (Z.mul_div_le (stop - start) freq Hfreq). nia.
    + intros (k & Hk & -> & Hle).
      exists (Z.to_nat k). split; [f_equal; lia|].
      apply in_seq. split; [lia|]. cbn.
      assert (0 <= (stop - start) / freq) by (apply Z.div_pos; lia).
      assert (k <= (stop - start) / freq) by (apply Z.div_le_lower_bound; lia).
      lia.
Qed.

Lemma has_duplicates_false (l : list Z) :
  has_duplicates l = false <-> List.NoDup l.
Proof.
  induction l as [|x l IH]; cbn.
  - split; [constructor|reflexivity].
  - rewrite orb_false_iff, IH. split.
    + intros [Hx Hl]. constructor; [|exact Hl].
      intros Hin. apply not_true_iff_false in Hx. apply Hx.
      apply existsb_exists. exists x. split; [exact Hin|apply Z.eqb_refl].
    + intros Hnd. inversion Hnd as [|? ? Hnotin Hl]; subst. split; [|exact Hl].
      apply not_true_iff_false. intros Hex.
      apply existsb_exists in Hex. destruct Hex as (y & Hy & Heq).
      apply Z.eqb_eq in Heq. subst y. exact (Hnotin Hy).
Qed.

End IndexFacts.

(** *** The calendar normaliser *)

Section ProcessingFacts.
Context {V S : Type}.
Variable utc_offset : string -> Z -> Z.
Variable resample_and_fill_missing_data : DataFrame V -> Z -> DataFrame V.
Variable fill_missing_data : DataFrame V -> DataFrame V.
Variable weather_funcs :
  WeatherApi.Strategy -> WeatherApi.WeatherData -> S -> S * result (DataFrame V).

Lemma get_date_range_sorted (self : WeatherApi.WeatherData) :
  StronglySorted Z.lt (WeatherApi.get_date_range utc_offset self).
Proof. apply date_range_sorted. lia. Qed.

Lemma concat_on_index_union (labels : list Z) (dataf : DataFrame V) :
  StronglySorted Z.lt labels ->
  has_duplicates (index dataf) = false ->
  exists out,
    WeatherApi.concat_on_index labels dataf = Ok out /\
    index out = index_union labels (index dataf).
Proof.
  intros Hsorted Hunique. unfold WeatherApi.concat_on_index, index_equal.
  case_bool_decide as Hsame.
  - eexists. split; [reflexivity|].
    unfold index at 1. cbn [rows]. fold (index dataf).
    rewrite <- Hsame. symmetry.
    apply index_union_within; [exact Hsorted|apply incl_refl].
  - rewrite Hunique. eexists. split; [reflexivity|].
    unfold index at 1. cbn [rows]. rewrite map_map. cbn [fst].
    apply map_id.
Qed.

Lemma concat_on_index_duplicates (labels : list Z) (dataf : DataFrame V) :
  StronglySorted Z.lt labels ->
  has_duplicates (index dataf) = true ->
  WeatherApi.concat_on_index labels dataf = Raise InvalidIndexError.
Proof.
  intros Hsorted Hdup. unfold WeatherApi.concat_on_index, index_equal.
  case_bool_decide as Hsame; [|rewrite Hdup; reflexivity].
  exfalso. apply sorted_NoDup, has_duplicates_false in Hsorted.
  rewrite Hsame in Hsorted. congruence.
Qed.

(** What [get_weather_data] returns once the chosen strategy has returned
    [raw]: the labels of the output are the sorted union of the year's
    grid with the labels of the resampled table. *)
Lemma get_weather_data_returns
  (self : WeatherApi.WeatherData) (passed : option WeatherApi.PyTag)
  (st st' : S) (csv : gmap string (DataFrame V)) (raw : DataFrame V)
  (source : string) :
  (forall d, index (fill_missing_data d) = index d) ->
  weather_funcs (WeatherApi.select_weather_func self passed) self st
    = (st', Ok raw) ->
  has_duplicates (index (resample_and_fill_missing_data raw 30)) = false ->
  WeatherApi.tag_name (WeatherApi.weather_data_source self) = Ok source ->
  exists out csv',
    WeatherApi.get_weather_data utc_offset resample_and_fill_missing_data
      fill_missing_data S weather_funcs self passed st csv
      = (st', csv', Ok out) /\
    WeatherApi.weather_data_processing utc_offset
      resample_and_fill_missing_data fill_missing_data self raw = Ok out /\
    index out
      = index_union (WeatherApi.get_date_range utc_offset self)
          (index (resample_and_fill_missing_data raw 30)).
Proof.
  intros Hfill Hraw Hunique Hname.
  destruct (concat_on_index_union (WeatherApi.get_date_range utc_offset self)
              (resample_and_fill_missing_data raw 30)
              (get_date_range_sorted self) Hunique) as (joined & Hjoin & Hindex).
  assert (Hprocessing :
            WeatherApi.weather_data_processing utc_offset
              resample_and_fill_missing_data fill_missing_data self raw
            = Ok (fill_missing_data joined)).
  { unfold WeatherApi.weather_data_processing. cbv zeta. rewrite Hjoin.
    reflexivity. }
  unfold WeatherApi.get_weather_data. cbv zeta.
  rewrite Hraw, Hprocessing.
  unfold WeatherApi.save_weather_data. rewrite Hname.
  eexists. eexists. split; [reflexivity|]. split; [reflexivity|].
  rewrite Hfill. exact Hindex.
Qed.

End ProcessingFacts.

Section CalendarClaim.
Context {V S : Type}.
Variable utc_offset : string -> Z -> Z.
Variable resample_and_fill_missing_data : DataFrame V -> Z -> DataFrame V.
Variable fill_missing_data : DataFrame V -> DataFrame V.
Variable weather_funcs :
  WeatherApi.Strategy -> WeatherApi.WeatherData -> S -> S * result (DataFrame V).

Lemma on_calendar_grid_iff (self : WeatherApi.WeatherData) (t : Z) :
  In t (WeatherApi.get_date_range utc_offset self)
  <-> Spec.on_calendar_grid utc_offset self t.
Proof.
  unfold WeatherApi.get_date_range, Spec.on_calendar_grid. cbv zeta.
  apply date_range_In. lia.
Qed.

(** C1, amended. Once the chosen strategy has returned a table,
    [get_weather_data] returns one whose labels are, in increasing order
    and without repetition, those of the year's half-hourly grid together
    with those of the resampled provider table: no grid instant is
    missing, and the labels are exactly the grid whenever the resampled
    table has no label off the grid. *)
Theorem get_weather_data_index_covers_grid
  (self : WeatherApi.WeatherData) (passed : option WeatherApi.PyTag)
  (st st' : S) (csv : gmap string (DataFrame V)) (raw : DataFrame V)
  (source : string) :
  (forall d, index (fill_missing_data d) = index d) ->
  weather_funcs (WeatherApi.select_weather_func self passed) self st
    = (st', Ok raw) ->
  has_duplicates (index (resample_and_fill_missing_data raw 30)) = false ->
  WeatherApi.tag_name (WeatherApi.weather_data_source self) = Ok source ->
  exists out csv',
    WeatherApi.get_weather_data utc_offset resample_and_fill_missing_data
      fill_missing_data S weather_funcs self passed st csv
      = (st', csv', Ok out) /\
    (forall t, In t (index out) <->
               Spec.on_calendar_grid utc_offset self t \/
               In t (index (resample_and_fill_missing_data raw 30))) /\
    StronglySorted Z.lt (index out) /\
    List.NoDup (index out) /\
    ((forall t, In t (index (resample_and_fill_missing_data raw 30)) ->
                Spec.on_calendar_grid utc_offset self t) ->
     Spec.calendar_complete utc_offset self (index out) /\
     index out = WeatherApi.get_date_range utc_offset self).
Proof.
  intros Hfill Hraw Hunique Hname.
  destruct (get_weather_data_returns utc_offset resample_and_fill_missing_data
              fill_missing_data weather_funcs self passed st st' csv raw source
              Hfill Hraw Hunique Hname) as (out & csv' & Hcall & _ & Hindex).
  exists out, csv'. split; [exact Hcall|].
  assert (Hsorted : StronglySorted Z.lt (index out))
    by (rewrite Hindex; apply index_union_sorted).
  assert (Hmem : forall t, In t (index out) <->
                   Spec.on_calendar_grid utc_offset self t \/
                   In t (index (resample_and_fill_missing_data raw 30))).
  { intros t. rewrite Hindex, index_union_In, on_calendar_grid_iff.
    reflexivity. }
  split; [exact Hmem|]. split; [exact Hsorted|].
  split; [apply sorted_NoDup, Hsorted|].
  intros Hwithin. split.
  - split; [|apply sorted_NoDup, Hsorted].
    intros t. rewrite Hmem. split; [|auto].
    intros [Ht|Ht]; [exact Ht|apply Hwithin, Ht].
  - rewrite Hindex. apply index_union_within; [apply get_date_range_sorted|].
    intros t Ht. apply on_calendar_grid_iff, Hwithin, Ht.
Qed.

End CalendarClaim.

(** C1, as worded, fails: asked for 2020 at a site on UTC, with a provider
    whose table has a row stamped 2021-01-01 00:00, [get_weather_data]
    returns a table that still carries that label, which is not on the
    grid of 2020. *)
Lemma row_of_following_year_stays_in_index :
  exists out csv',
    WeatherApi.get_weather_data utc_all_year already_half_hourly
      nothing_to_fill unit (provider row_of_2021)
      (demo_weather (WeatherApi.Member TMY)) None tt ∅
      = (tt, csv', Ok out) /\
    ~ Spec.calendar_complete utc_all_year
        (demo_weather (WeatherApi.Member TMY)) (index out).
Proof.
  destruct (get_weather_data_returns utc_all_year already_half_hourly
              nothing_to_fill (provider row_of_2021)
              (demo_weather (WeatherApi.Member TMY)) None tt tt ∅
              row_of_2021 "TMY")
    as (out & csv' & Hcall & _ & Hindex); try reflexivity.
  exists out, csv'. split; [exact Hcall|].
  intros [Hgrid _].
  assert (Hin : In (WeatherApi.wall_clock 2021 1 1 0 0) (index out)).
  { rewrite Hindex. apply (proj2 (index_union_In _ _ _)).
    right. left. reflexivity. }
  apply Hgrid in Hin. destruct Hin as (k & _ & _ & Hle).
  vm_compute in Hle. apply Hle. reflexivity.
Qed.

Lemma get_weather_data_index_covers_grid_witness :
  exists out csv',
    WeatherApi.get_weather_data utc_all_year already_half_hourly
      nothing_to_fill unit (provider row_of_2020)
      (demo_weather (WeatherApi.Member TMY)) None tt ∅
      = (tt, csv', Ok out) /\
    Spec.calendar_complete utc_all_year
      (demo_weather (WeatherApi.Member TMY)) (index out).
Proof.
  destruct (get_weather_data_index_covers_grid utc_all_year
              already_half_hourly nothing_to_fill (provider row_of_2020)
              (demo_weather (WeatherApi.Member TMY)) None tt tt ∅
              row_of_2020 "TMY")
    as (out & csv' & Hcall & _ & _ & _ & Hwithin); try reflexivity.
  exists out, csv'. split; [exact Hcall|].
  apply Hwithin. intros t [<-|[]].
  exists 0. split; [lia|]. split; [reflexivity|]. vm_compute. discriminate.
Defined.

(** *** The source selector *)

Section SelectorFacts.

Lemma dict_get_recognized (tag : WeatherApi.PyTag) (s : WeatherDataSource) :
  WeatherApi.tag_key tag = Some (source_value s) ->
  WeatherApi.dict_get tag = Spec.strategy_for s.
Proof.
  intros Hkey. unfold WeatherApi.dict_get. rewrite Hkey.
  destruct s; reflexivity.
Qed.

Lemma dict_get_unrecognized (tag : WeatherApi.PyTag) :
  ~ Spec.recognized tag ->
  WeatherApi.dict_get tag = WeatherApi.F_tmy_weather_data.
Proof.
  intros Hnot. unfold WeatherApi.dict_get.
  destruct (WeatherApi.tag_key tag) as [key|] eqn:Hkey; [|reflexivity].
  change (Some key ≫= (WeatherApi.weather_func_dict !!.))
    with (WeatherApi.weather_func_dict !! key).
  unfold WeatherApi.weather_func_dict.
  assert (Hne : forall s, source_value s <> key).
  { intros s Hs. apply Hnot. exists s. rewrite Hkey, Hs. reflexivity. }
  rewrite !lookup_insert_ne by apply Hne.
  rewrite lookup_empty. reflexivity.
Qed.

End SelectorFacts.

Section SelectorClaim.
Context {V S : Type}.
Variable utc_offset : string -> Z -> Z.
Variable resample_and_fill_missing_data : DataFrame V -> Z -> DataFrame V.
Variable fill_missing_data : DataFrame V -> DataFrame V.
Variable weather_funcs :
  WeatherApi.Strategy -> WeatherApi.WeatherData -> S -> S * result (DataFrame V).

(** C10, amended. The tag in force (the one passed, else the stored one)
    selects exactly one of the four strategies: its own when it is one of
    the four sources, the typical-year strategy otherwise, and the
    selection itself never raises.  The call then completes when the
    stored source has a [name]; when it has none, the call raises that
    attribute error after the strategy and the normaliser have run,
    because the output file is named after the stored source. *)
Theorem get_weather_data_dispatch
  (self : WeatherApi.WeatherData) (passed : option WeatherApi.PyTag) :
  let tag := default (WeatherApi.weather_data_source self) passed in
  (forall s, WeatherApi.tag_key tag = Some (source_value s) ->
             WeatherApi.select_weather_func self passed = Spec.strategy_for s) /\
  (~ Spec.recognized tag ->
   WeatherApi.select_weather_func self passed = WeatherApi.F_tmy_weather_data) /\
  (forall st st' csv raw out,
      weather_funcs (WeatherApi.select_weather_func self passed) self st
        = (st', Ok raw) ->
      WeatherApi.weather_data_processing utc_offset
        resample_and_fill_missing_data fill_missing_data self raw = Ok out ->
      match WeatherApi.tag_name (WeatherApi.weather_data_source self) with
      | Ok source =>
          exists csv',
            WeatherApi.get_weather_data utc_offset
              resample_and_fill_missing_data fill_missing_data S weather_funcs
              self passed st csv = (st', csv', Ok out)
      | Raise e =>
          WeatherApi.get_weather_data utc_offset
            resample_and_fill_missing_data fill_missing_data S weather_funcs
            self passed st csv = (st', csv, Raise e)
      end).
Proof.
  cbv zeta. split; [|split].
  - intros s Hkey. apply dict_get_recognized, Hkey.
  - intros Hnot. apply dict_get_unrecognized, Hnot.
  - intros st st' csv raw out Hraw Hprocessing.
    unfold WeatherApi.get_weather_data. cbv zeta.
    rewrite Hraw, Hprocessing. unfold WeatherApi.save_weather_data.
    destruct (WeatherApi.tag_name (WeatherApi.weather_data_source self));
      [eexists|]; reflexivity.
Qed.

End SelectorClaim.

Lemma bogus_not_recognized : ~ Spec.recognized (WeatherApi.PyStr "bogus").
Proof. intros [[] Hs]; discriminate Hs. Qed.

(** C10, as worded, fails when no tag is passed and the stored source is
    the unrecognised string "bogus": the typical-year strategy is chosen
    and runs, the normaliser succeeds, and the call raises. *)
Lemma unrecognised_stored_source_raises :
  ~ Spec.falls_back_without_error utc_all_year already_half_hourly
      nothing_to_fill (provider row_of_2020)
      (demo_weather (WeatherApi.PyStr "bogus")) None tt ∅.
Proof.
  intros Hclaim.
  destruct (concat_on_index_union
              (WeatherApi.get_date_range utc_all_year
                 (demo_weather (WeatherApi.PyStr "bogus")))
              (already_half_hourly row_of_2020 30)
              (get_date_range_sorted utc_all_year _) eq_refl)
    as (joined & Hjoin & _).
  assert (Hprocessing :
            WeatherApi.weather_data_processing utc_all_year already_half_hourly
              nothing_to_fill (demo_weather (WeatherApi.PyStr "bogus"))
              row_of_2020 = Ok (nothing_to_fill joined)).
  { unfold WeatherApi.weather_data_processing. cbv zeta. rewrite Hjoin.
    reflexivity. }
  destruct (Hclaim bogus_not_recognized tt row_of_2020 _ eq_refl Hprocessing)
    as [csv' Hcall].
  unfold WeatherApi.get_weather_data in Hcall. cbv zeta in Hcall.
  rewrite (dict_get_unrecognized _ bogus_not_recognized
           : WeatherApi.select_weather_func
               (demo_weather (WeatherApi.PyStr "bogus")) None = _) in Hcall.
  change (provider row_of_2020 WeatherApi.F_tmy_weather_data
            (demo_weather (WeatherApi.PyStr "bogus")) tt)
    with (tt, Ok row_of_2020) in Hcall.
  cbv iota in Hcall. rewrite Hprocessing in Hcall.
  discriminate Hcall.
Qed.

Lemma get_weather_data_dispatch_witness :
  WeatherApi.select_weather_func (demo_weather (WeatherApi.PyStr "bogus")) None
    = WeatherApi.F_tmy_weather_data /\
  WeatherApi.select_weather_func (demo_weather (WeatherApi.Member TMY))
      (Some (WeatherApi.Member ERA5))
    = WeatherApi.F_weather_data_from_era5.
Proof.
  split.
  - destruct (get_weather_data_dispatch utc_all_year already_half_hourly
                nothing_to_fill (provider row_of_2020)
                (demo_weather (WeatherApi.PyStr "bogus")) None)
      as (_ & Hfallback & _).
    apply Hfallback. intros [[] Hs]; discriminate Hs.
  - destruct (get_weather_data_dispatch utc_all_year already_half_hourly
                nothing_to_fill (provider row_of_2020)
                (demo_weather (WeatherApi.Member TMY))
                (Some (WeatherApi.Member ERA5)))
      as (Hown & _ & _).
    apply (Hown ERA5). reflexivity.
Defined.

(** *** The merge of experiment versions *)

Section MergeFacts.

Lemma row_at_version_frame (col : string) (v t : Z)
      (samples : list (Z * Z * option Q)) :
  row_at t (rows (version_frame col v samples))
  = option_map (fun c => [c]) (Spec.value_at v t samples).
Proof.
  unfold version_frame. cbn [rows].
  induction samples as [|[[t' v'] c] samples IH]; [reflexivity|].
  cbn [List.filter map Spec.value_at fst snd].
  destruct (v' =? v) eqn:Hv.
  - cbn [map row_at fst snd]. destruct (t' =? t); [reflexivity|exact IH].
  - rewrite andb_false_r. exact IH.
Qed.

Lemma row_at_None {V : Type} (t : Z) (rs : list (Z * list (option V))) :
  row_at t rs = None <-> ~ In t (map fst rs).
Proof.
  induction rs as [|[t' r] rs IH]; cbn; [intuition|].
  destruct (t' =? t) eqn:Ht.
  - apply Z.eqb_eq in Ht. split; [discriminate|]. intros H. exfalso. auto.
  - apply Z.eqb_neq in Ht. rewrite IH. intuition.
Qed.

Lemma row_at_zip_rows {V : Type} (f : option V -> option V -> option V)
      (t : Z) (a b : list (Z * list (option V))) :
  map fst a = map fst b ->
  row_at t (zip_rows f a b)
  = match row_at t a, row_at t b with
    | Some x, Some y => Some (zip_cells f x y)
    | _, _ => None
    end.
Proof.
  revert b. induction a as [|[ta x] a IH]; intros [|[tb y] b] Hsame;
    try discriminate; [reflexivity|].
  cbn in Hsame. injection Hsame as -> Hsame.
  cbn. destruct (tb =? t); [reflexivity|]. apply IH, Hsame.
Qed.

End MergeFacts.

Section MergeClaim.

Lemma row_at_In {V : Type} (t : Z) (rs : list (Z * list (option V)))
      (r : list (option V)) :
  row_at t rs = Some r -> In t (map fst rs).
Proof.
  intros Hrow. destruct (in_dec Z.eq_dec t (map fst rs)) as [Hin|Hout];
    [exact Hin|].
  apply row_at_None in Hout. congruence.
Qed.

Lemma row_at_rows_labelled (t : Z) (rs : list (Z * list (option Q))) :
  row_at t rs = head (rows_labelled t rs).
Proof.
  unfold rows_labelled.
  induction rs as [|[t' r] rs IH]; [reflexivity|].
  cbn. destruct (t' =? t); [reflexivity|exact IH].
Qed.

Lemma head_join_label (width : nat) (t : Z)
      (left right : list (Z * list (option Q))) :
  head (join_label width t left right)
  = Some (zip_cells first_present
            (default (nan_row width) (row_at t left))
            (default (nan_row width) (row_at t right))).
Proof.
  unfold join_label. rewrite !row_at_rows_labelled.
  destruct (rows_labelled t left) as [|x xs],
           (rows_labelled t right) as [|y ys]; reflexivity.
Qed.

Lemma row_at_joined (g : Z -> list (list (option Q))) (t : Z)
      (labels : list Z) :
  (forall u, g u <> []) ->
  (In t labels ->
   row_at t (flat_map (fun u => map (fun r => (u, r)) (g u)) labels)
   = head (g t)) /\
  (~ In t labels ->
   row_at t (flat_map (fun u => map (fun r => (u, r)) (g u)) labels) = None).
Proof.
  intros Hfull.
  assert (Hskip : forall u rest,
             u <> t ->
             row_at t (map (fun r => (u, r)) (g u) ++ rest)%list = row_at t rest).
  { intros u rest Hu. induction (g u) as [|r rs IH]; [reflexivity|].
    cbn. apply Z.eqb_neq in Hu. rewrite Hu. exact IH. }
  induction labels as [|u labels [IHin IHout]]; cbn [flat_map].
  - split; [intros []|reflexivity].
  - destruct (Z.eq_dec u t) as [->|Hu].
    + split; [|intros H; exfalso; apply H; left; reflexivity].
      intros _. specialize (Hfull t).
      destruct (g t) as [|r rs]; [contradiction|].
      cbn. rewrite Z.eqb_refl. reflexivity.
    + rewrite (Hskip u _ Hu). split.
      * intros [Heq|Hin]; [contradiction|apply IHin, Hin].
      * intros H. apply IHout. intros Hin. apply H. right. exact Hin.
Qed.

Lemma join_label_nonempty (width : nat) (t : Z)
      (left right : list (Z * list (option Q))) :
  join_label width t left right <> [].
Proof.
  intros Hempty. pose proof (head_join_label width t left right) as Hhead.
  rewrite Hempty in Hhead. discriminate Hhead.
Qed.

Lemma combine_first_lookup (df1 df2 : DataFrame Q)
      (v1 v2 : Z -> option (option Q)) :
  length (columns df1) = 1%nat ->
  columns df2 = columns df1 ->
  (forall t, row_at t (rows df1) = option_map (fun c => [c]) (v1 t)) ->
  (forall t, row_at t (rows df2) = option_map (fun c => [c]) (v2 t)) ->
  columns (combine_first df1 df2) = columns df1 /\
  forall t, row_at t (rows (combine_first df1 df2))
            = option_map (fun c => [c]) (Spec.prefer_first (v1 t) (v2 t)).
Proof.
  destruct df1 as [n1 c1 r1], df2 as [n2 c2 r2]. unfold index. cbn [rows columns].
  intros Hwidth Hcols H1 H2. subst c2.
  unfold combine_first. cbn [rows columns index_name].
  destruct r2 as [|p2 r2].
  { split; [destruct r1; reflexivity|].
    intros t. replace (rows match r1 with [] | _ => mkDataFrame n1 c1 r1 end)
      with r1 by (destruct r1; reflexivity).
    rewrite H1. specialize (H2 t). cbn in H2.
    destruct (v2 t); [discriminate|].
    destruct (v1 t) as [[x|]|]; reflexivity. }
  destruct r1 as [|p1 r1].
  { split; [reflexivity|].
    intros t. cbn [rows]. rewrite H2.
    specialize (H1 t). cbn in H1.
    destruct (v1 t); [discriminate|]. reflexivity. }
  cbv beta iota.
  remember (p1 :: r1) as R1 eqn:HR1. remember (p2 :: r2) as R2 eqn:HR2.
  clear HR1 HR2.
  unfold index_equal, index. cbn [rows].
  case_bool_decide as Hsame.
  - split; [reflexivity|].
    intros t. cbn [rows with_rows]. rewrite (row_at_zip_rows _ _ _ _ Hsame).
    pose proof (row_at_In t R1) as Hin1. pose proof (row_at_In t R2) as Hin2.
    pose proof (row_at_None t R1) as Hnone1.
    pose proof (row_at_None t R2) as Hnone2.
    rewrite H1, H2 in *.
    destruct (v1 t) as [[x|]|], (v2 t) as [c|]; cbn in *; try reflexivity.
    + exfalso. apply (proj1 Hnone2 eq_refl). rewrite <- Hsame.
      eapply Hin1. reflexivity.
    + exfalso. apply (proj1 Hnone2 eq_refl). rewrite <- Hsame.
      eapply Hin1. reflexivity.
    + exfalso. apply (proj1 Hnone1 eq_refl). rewrite Hsame.
      eapply Hin2. reflexivity.
  - split; [reflexivity|].
    intros t. cbn [rows with_rows].
    destruct (row_at_joined (fun u => join_label (length c1) u R1 R2) t
                (index_union (map fst R1) (map fst R2))
                (fun u => join_label_nonempty _ u R1 R2)) as [Hin Hout].
    rewrite head_join_label in Hin.
    rewrite index_union_In in Hin, Hout.
    pose proof (row_at_In t R1) as Hin1. pose proof (row_at_In t R2) as Hin2.
    pose proof (row_at_None t R1) as Hnone1.
    pose proof (row_at_None t R2) as Hnone2.
    rewrite H1 in *. rewrite H2 in *. rewrite Hwidth in *.
    destruct (v1 t) as [[x|]|], (v2 t) as [c|]; cbn in *;
      try (rewrite Hin by eauto; reflexivity).
    rewrite Hout; [reflexivity|].
    intros [Ht|Ht]; [apply (proj1 Hnone1 eq_refl), Ht
                    |apply (proj1 Hnone2 eq_refl), Ht].
Qed.

(** C3. For a reanalysis file that carries experiment versions 1 and 5,
    [load_single_netcdf_file] returns a table that holds, at every
    instant, the value of version 1 when that is present and the value of
    version 5 otherwise (and no row where neither version has one). *)
Theorem load_single_netcdf_file_prefers_first_version
  (var : string) (samples : list (Z * Z * option Q))
  (target_variable : ExtractFile) :
  var = column_name target_variable ->
  exists out,
    load_single_netcdf_file (Versioned var samples) target_variable = Ok out /\
    columns out = [column_name target_variable] /\
    forall t,
      row_at t (rows out)
      = option_map (fun c => [c])
          (Spec.prefer_first (Spec.value_at 1 t samples)
                             (Spec.value_at 5 t samples)).
Proof.
  intros ->. unfold load_single_netcdf_file.
  rewrite String.eqb_refl. cbv zeta.
  eexists. split; [reflexivity|].
  apply (combine_first_lookup
           (version_frame (column_name target_variable) 1 samples)
           (version_frame (column_name target_variable) 5 samples)
           (fun t => Spec.value_at 1 t samples)
           (fun t => Spec.value_at 5 t samples)).
  - reflexivity.
  - reflexivity.
  - intros t. apply row_at_version_frame.
  - intros t. apply row_at_version_frame.
Qed.

Lemma load_single_netcdf_file_prefers_first_version_witness :
  exists out,
    load_single_netcdf_file (Versioned "ssr" two_versions) SOLARRADIATION
      = Ok out /\
    row_at 0 (rows out) = Some [Some (10 # 1)] /\
    row_at 60 (rows out) = Some [Some (20 # 1)].
Proof.
  destruct (load_single_netcdf_file_prefers_first_version "ssr" two_versions
              SOLARRADIATION eq_refl)
    as (out & Hload & _ & Hrows).
  exists out. split; [exact Hload|].
  split; [apply (Hrows 0)|apply (Hrows 60)].
Defined.

End MergeClaim.

(** *** Columns by label *)

Section ColumnFacts.
Context {V : Type}.
Implicit Types (cols : list string) (r : list (option V)) (df : DataFrame V).

Lemma column_position_lt (name : string) cols (n : nat) :
  column_position name cols = Some n -> (n < length cols)%nat.
Proof.
  revert n. induction cols as [|c cols IH]; intros n; cbn; [discriminate|].
  destruct (String.eqb c name).
  - intros [= <-]. lia.
  - destruct (column_position name cols) as [m|]; cbn; [|discriminate].
    intros [= <-]. specialize (IH m eq_refl). lia.
Qed.

Lemma column_position_same (a b : string) cols (n : nat) :
  column_position a cols = Some n -> column_position b cols = Some n -> a = b.
Proof.
  revert n. induction cols as [|c cols IH]; intros n; cbn; [discriminate|].
  destruct (String.eqb c a) eqn:Ha, (String.eqb c b) eqn:Hb.
  - apply String.eqb_eq in Ha, Hb. congruence.
  - intros [= <-]. destruct (column_position b cols); discriminate.
  - destruct (column_position a cols); cbn; [|discriminate].
    intros [= <-]. discriminate.
  - destruct (column_position a cols) as [i|], (column_position b cols) as [j|];
      cbn; try discriminate.
    intros [= <-] [= ->]. apply (IH i); reflexivity.
Qed.

Lemma column_position_app (name extra : string) cols :
  column_position name (cols ++ [extra])
  = match column_position name cols with
    | Some n => Some n
    | None => if String.eqb extra name then Some (length cols) else None
    end.
Proof.
  induction cols as [|c cols IH]; cbn.
  - destruct (String.eqb extra name); reflexivity.
  - destruct (String.eqb c name); [reflexivity|].
    rewrite IH. destruct (column_position name cols); cbn; [reflexivity|].
    destruct (String.eqb extra name); reflexivity.
Qed.

Lemma nth_update_nth (n m : nat) (f : option V -> option V) r :
  nth m (update_nth n f r) None
  = if (m =? n)%nat then
      if (m <? length r)%nat then f (nth m r None) else None
    else nth m r None.
Proof.
  revert n m. induction r as [|c r IH]; intros [|n] [|m]; cbn; try reflexivity.
  - destruct (m =? n)%nat; reflexivity.
  - rewrite IH. reflexivity.
Qed.

Lemma length_update_nth (n : nat) (f : option V -> option V) r :
  length (update_nth n f r) = length r.
Proof.
  revert n. induction r as [|c r IH]; intros [|n]; cbn; try reflexivity.
  rewrite IH. reflexivity.
Qed.

Lemma assign_column_well_formed (name : string)
      (f : list (option V) -> option V) df :
  WeatherApi.well_formed df ->
  WeatherApi.well_formed (WeatherApi.assign_column name f df).
Proof.
  unfold WeatherApi.well_formed, WeatherApi.assign_column.
  intros Hwf. rewrite List.Forall_forall in Hwf.
  destruct (column_position name (columns df)); cbn [rows columns with_rows];
    apply List.Forall_forall; intros row Hrow;
    apply in_map_iff in Hrow; destruct Hrow as (old & <- & Hold);
    specialize (Hwf old Hold); cbn [snd].
  - rewrite length_update_nth. exact Hwf.
  - rewrite !length_app. cbn. lia.
Qed.

(** After [df[name] = f(row)], each row holds [f] of the old row under
    [name] and its old values under every other label. *)
Lemma assign_column_rows (name : string) (f : list (option V) -> option V)
      df (t : Z) (r' : list (option V)) :
  WeatherApi.well_formed df ->
  In (t, r') (rows (WeatherApi.assign_column name f df)) ->
  exists r,
    In (t, r) (rows df) /\
    WeatherApi.cell_in (WeatherApi.assign_column name f df) name r' = f r /\
    forall other, other <> name ->
      WeatherApi.cell_in (WeatherApi.assign_column name f df) other r'
      = WeatherApi.cell_in df other r.
Proof.
  unfold WeatherApi.well_formed, WeatherApi.assign_column, WeatherApi.cell_in.
  intros Hwf Hrow. rewrite List.Forall_forall in Hwf.
  destruct (column_position name (columns df)) as [n|] eqn:Hname;
    cbn [rows columns with_rows] in *;
    apply in_map_iff in Hrow; destruct Hrow as ([t0 r] & [= -> <-] & Hold);
    specialize (Hwf _ Hold); cbn [fst snd] in *;
    exists r; (split; [exact Hold|]).
  - rewrite Hname. split.
    + rewrite nth_update_nth, Nat.eqb_refl.
      apply column_position_lt in Hname.
      destruct (Nat.ltb_spec n (length r)); [reflexivity|lia].
    + intros other Hother.
      destruct (column_position other (columns df)) as [m|] eqn:Hm;
        [|reflexivity].
      rewrite nth_update_nth.
      destruct (Nat.eqb_spec m n) as [->|]; [|reflexivity].
      exfalso. apply Hother. apply (column_position_same _ _ _ _ Hm Hname).
  - split.
    + rewrite column_position_app, Hname, String.eqb_refl.
      rewrite <- Hwf. rewrite app_nth2 by lia.
      rewrite Nat.sub_diag. reflexivity.
    + intros other Hother. rewrite column_position_app.
      destruct (column_position other (columns df)) as [m|] eqn:Hm.
      * apply column_position_lt in Hm. rewrite app_nth1 by lia. reflexivity.
      * destruct (String.eqb_spec name other); [congruence|reflexivity].
Qed.

Lemma column_positions_cells (names : list string) df (ps : list nat) r :
  WeatherApi.column_positions names df = Ok ps ->
  map (fun n => nth n r None) ps
  = map (fun name => WeatherApi.cell_in df name r) names.
Proof.
  revert ps. induction names as [|name names IH]; intros ps; cbn.
  - intros [= <-]. reflexivity.
  - unfold WeatherApi.cell_in.
    destruct (column_position name (columns df)) as [n|]; [|discriminate].
    destruct (WeatherApi.column_positions names df) as [qs|]; [|discriminate].
    cbn. intros [= <-]. cbn. f_equal. apply IH. reflexivity.
Qed.

Lemma column_positions_found (names : list string) df :
  Forall (fun name => column_position name (columns df) <> None) names ->
  exists ps, WeatherApi.column_positions names df = Ok ps.
Proof.
  induction 1 as [|name names Hname _ [ps IH]]; cbn; [eexists; reflexivity|].
  destruct (column_position name (columns df)); [|contradiction].
  rewrite IH. eexists. reflexivity.
Qed.

Lemma assign_column_keeps_position (name other : string)
      (f : list (option V) -> option V) df :
  column_position other (columns df) <> None ->
  column_position other (columns (WeatherApi.assign_column name f df)) <> None.
Proof.
  unfold WeatherApi.assign_column.
  destruct (column_position name (columns df)); cbn [columns with_rows];
    [auto|].
  rewrite column_position_app.
  destruct (column_position other (columns df)); [discriminate|contradiction].
Qed.

End ColumnFacts.

(** *** The satellite formatter *)

Section SarahClaim.

Lemma sum_skipna_three (a b c : option Q) :
  (WeatherApi.sum_skipna 0 Qplus [a; b; c]
   == Spec.or_zero a + Spec.or_zero b + Spec.or_zero c)%Q.
Proof.
  destruct a, b, c; cbn; ring.
Qed.

Lemma sum_skipna_two (b c : option Q) :
  (WeatherApi.sum_skipna 0 Qplus [b; c] == Spec.or_zero b + Spec.or_zero c)%Q.
Proof.
  destruct b, c; cbn; ring.
Qed.

(** C5, as worded, fails on a row whose direct component is missing: the
    sum leaves the missing entry out, so poa_global is 3 where
    poa_direct + poa_ground_diffuse + poa_sky_diffuse is missing. *)
Lemma missing_direct_component_breaks_sum :
  exists out,
    WeatherApi.format_sarah_weather_data 0%Q Qplus
      (demo_weather (WeatherApi.Member PVGISSARAH2)) sarah_row_without_direct
      = Ok out /\
    exists row, In row (rows out) /\ ~ Spec.poa_sums_hold out (snd row).
Proof.
  eexists. split; [reflexivity|].
  eexists. split; [left; reflexivity|].
  intros [Hglobal _]. vm_compute in Hglobal. discriminate Hglobal.
Qed.

(** C5, amended. For a table that has the three plane-of-array input
    columns, [format_sarah_weather_data] returns a table in which, on
    every row, poa_global is the sum of those of poa_direct,
    poa_ground_diffuse and poa_sky_diffuse that are present, and
    poa_diffuse the sum of those of the last two that are present; on a
    row where the three are present both equalities of the claim hold. *)
Theorem format_sarah_weather_data_sums
  (self : WeatherApi.WeatherData) (dataf : DataFrame Q) :
  WeatherApi.well_formed dataf ->
  Forall (fun name => column_position name (columns dataf) <> None)
         poa_inputs ->
  exists out,
    WeatherApi.format_sarah_weather_data 0%Q Qplus self dataf = Ok out /\
    length (rows out) = length (rows dataf) /\
    forall t row, In (t, row) (rows out) ->
      let cell name := WeatherApi.cell_in out name row in
      let direct := cell POAWeatherDataSchema.POA_DIRECT in
      let ground := cell POAWeatherDataSchema.POA_GROUND_DIFFUSE in
      let sky := cell POAWeatherDataSchema.POA_SKY_DIFFUSE in
      (exists g d,
          cell POAWeatherDataSchema.POA_GLOBAL = Some g /\
          cell POAWeatherDataSchema.POA_DIFFUSE = Some d /\
          (g == Spec.or_zero direct + Spec.or_zero ground + Spec.or_zero sky)%Q /\
          (d == Spec.or_zero ground + Spec.or_zero sky)%Q) /\
      (is_Some direct -> is_Some ground -> is_Some sky ->
       Spec.poa_sums_hold out row).
Proof.
  intros Hwf Hcols. unfold WeatherApi.format_sarah_weather_data. cbv zeta.
  destruct (column_positions_found poa_inputs dataf Hcols) as [ps Hps].
  unfold poa_inputs in Hps. rewrite Hps.
  run_bind.
  set (df1 := WeatherApi.assign_column POAWeatherDataSchema.POA_GLOBAL
                (WeatherApi.sum_columns 0%Q Qplus ps) dataf).
  assert (Hwf1 : WeatherApi.well_formed df1)
    by (apply assign_column_well_formed, Hwf).
  assert (Hcols1 :
            Forall (fun name => column_position name (columns df1) <> None)
              [POAWeatherDataSchema.POA_GROUND_DIFFUSE;
               POAWeatherDataSchema.POA_SKY_DIFFUSE]).
  { inversion Hcols as [|? ? _ Hrest]; subst.
    eapply List.Forall_impl; [|exact Hrest].
    intros name. apply assign_column_keeps_position. }
  destruct (column_positions_found _ df1 Hcols1) as [qs Hqs].
  rewrite Hqs. run_bind.
  eexists. split; [reflexivity|]. split.
  { unfold set_index_name, WeatherApi.assign_column, df1,
      WeatherApi.assign_column.
    repeat match goal with
           | |- context [match ?c with Some _ => _ | None => _ end] =>
               destruct c
           end; cbn [rows with_rows]; rewrite !length_map; reflexivity. }
  intros t row Hrow. cbv zeta.
  change (In (t, row)
            (rows (WeatherApi.assign_column POAWeatherDataSchema.POA_DIFFUSE
                     (WeatherApi.sum_columns 0%Q Qplus qs) df1))) in Hrow.
  destruct (assign_column_rows _ _ df1 t row Hwf1 Hrow)
    as (r1 & Hrow1 & Hdiffuse & Hkept2).
  destruct (assign_column_rows _ _ dataf t r1 Hwf Hrow1)
    as (r & _ & Hglobal & Hkept1).
  fold df1 in Hglobal, Hkept1.
  set (df2 := WeatherApi.assign_column POAWeatherDataSchema.POA_DIFFUSE
                (WeatherApi.sum_columns 0%Q Qplus qs) df1) in *.
  change (WeatherApi.cell_in (set_index_name df2 POAWeatherDataSchema.INDEX))
    with (WeatherApi.cell_in df2).
  assert (Hdirect :
            WeatherApi.cell_in df2 POAWeatherDataSchema.POA_DIRECT row
            = WeatherApi.cell_in dataf POAWeatherDataSchema.POA_DIRECT r)
    by (rewrite Hkept2, Hkept1 by discriminate; reflexivity).
  assert (Hground :
            WeatherApi.cell_in df2 POAWeatherDataSchema.POA_GROUND_DIFFUSE row
            = WeatherApi.cell_in dataf POAWeatherDataSchema.POA_GROUND_DIFFUSE r)
    by (rewrite Hkept2, Hkept1 by discriminate; reflexivity).
  assert (Hsky :
            WeatherApi.cell_in df2 POAWeatherDataSchema.POA_SKY_DIFFUSE row
            = WeatherApi.cell_in dataf POAWeatherDataSchema.POA_SKY_DIFFUSE r)
    by (rewrite Hkept2, Hkept1 by discriminate; reflexivity).
  rewrite Hdirect, Hground, Hsky.
  rewrite Hkept2, Hglobal, Hdiffuse by discriminate.
  unfold WeatherApi.sum_columns.
  rewrite (column_positions_cells _ _ _ r Hps).
  rewrite (column_positions_cells _ _ _ r1 Hqs).
  cbn [map]. rewrite !Hkept1 by discriminate.
  split.
  - eexists. eexists. split; [reflexivity|]. split; [reflexivity|].
    split; [apply sum_skipna_three|apply sum_skipna_two].
  - intros [x Hx] [y Hy] [z Hz]. unfold Spec.poa_sums_hold. cbv zeta.
    change (WeatherApi.cell_in (set_index_name df2 POAWeatherDataSchema.INDEX))
      with (WeatherApi.cell_in df2).
    rewrite Hdirect, Hground, Hsky.
    rewrite Hkept2, Hglobal, Hdiffuse by discriminate.
    unfold WeatherApi.sum_columns.
    rewrite (column_positions_cells _ _ _ r Hps).
    rewrite (column_positions_cells _ _ _ r1 Hqs).
    cbn [map]. rewrite !Hkept1 by discriminate.
    rewrite Hx, Hy, Hz. cbn.
    split; apply Qeq_bool_iff; ring.
Qed.

Lemma format_sarah_weather_data_sums_witness :
  exists out,
    WeatherApi.format_sarah_weather_data 0%Q Qplus
      (demo_weather (WeatherApi.Member PVGISSARAH2)) sarah_full_row = Ok out /\
    forall t row, In (t, row) (rows out) -> Spec.poa_sums_hold out row.
Proof.
  destruct (format_sarah_weather_data_sums
              (demo_weather (WeatherApi.Member PVGISSARAH2)) sarah_full_row)
    as (out & Hout & _ & Hrows).
  - repeat constructor.
  - repeat constructor; discriminate.
  - exists out. split; [exact Hout|].
    intros t row Hrow. apply (Hrows t row Hrow);
      injection Hout as <-; destruct Hrow as [[= <- <-]|[]];
      eexists; reflexivity.
Defined.

End SarahClaim.

(** *** The download step *)

Section DownloadClaim.
Import Extractor.

Lemma variable_paths_differ (self : Era5DataExtractor) (year : Z) :
  get_variable_file_path self SOLARRADIATION year
  <> get_variable_file_path self TEMPERATURE year.
Proof.
  unfold get_variable_file_path, path_join, variable_filename.
  intros Hsame.
  apply (inj (String.app (saving_path self))) in Hsame. cbn in Hsame.
  injection Hsame as Hsame.
  apply (inj (String.app (name (location self)))) in Hsame. cbn in Hsame.
  discriminate Hsame.
Qed.

(** When every target file is there, the loop calls nothing and changes
    nothing. *)
Lemma download_variables_skips (self : Era5DataExtractor) (year : Z)
      (months : list string) (variables : list string) (w : World) :
  Forall (fun variable =>
            is_Some (files w !! path_join (saving_path self)
                                   (variable_filename self variable year)))
         variables ->
  download_variables self year months variables w = (w, Ok tt).
Proof.
  induction 1 as [|variable variables [ds Hfile] _ IH]; cbn; [reflexivity|].
  rewrite Hfile. exact IH.
Qed.

Lemma calls_for_app (path : string) (log1 log2 : list Request) :
  calls_for path (log1 ++ log2) = (calls_for path log1 ++ calls_for path log2)%list.
Proof. unfold calls_for. apply List.filter_app. Qed.

Lemma calls_for_own (self : Era5DataExtractor) (variable : string) (year : Z)
      (months : list string) (target : string) :
  calls_for target [retrieve_request self variable year months target]
  = [retrieve_request self variable year months target].
Proof. unfold calls_for. cbn. rewrite String.eqb_refl. reflexivity. Qed.

Lemma calls_for_other (self : Era5DataExtractor) (variable : string) (year : Z)
      (months : list string) (target path : string) :
  target <> path ->
  calls_for path [retrieve_request self variable year months target] = [].
Proof.
  intros Hne. unfold calls_for. cbn.
  apply String.eqb_neq in Hne. rewrite Hne. reflexivity.
Qed.

(** What one run of the loop over the two variables adds to the log of
    calls, file by file. *)
Lemma download_data_calls (self : Era5DataExtractor) (year : Z)
      (months : option (list string)) (w0 w1 : World) :
  variables_to_extract self
    = [filename_key SOLARRADIATION; filename_key TEMPERATURE] ->
  download_data self year months w0 = (w1, Ok tt) ->
  forall v,
    let target := get_variable_file_path self v year in
    match files w0 !! target with
    | None =>
        exists request,
          req_target request = target /\
          req_variable request = filename_key v /\
          calls_for target (calls w1)
          = (calls_for target (calls w0) ++ [request])%list
    | Some _ => calls_for target (calls w1) = calls_for target (calls w0)
    end.
Proof.
  intros Hvars Hfirst.
  pose proof (variable_paths_differ self year) as Hne.
  unfold download_data in Hfirst. rewrite Hvars in Hfirst.
  cbn [download_variables] in Hfirst.
  change (path_join (saving_path self)
            (variable_filename self (filename_key SOLARRADIATION) year))
    with (get_variable_file_path self SOLARRADIATION year) in Hfirst.
  change (path_join (saving_path self)
            (variable_filename self (filename_key TEMPERATURE) year))
    with (get_variable_file_path self TEMPERATURE year) in Hfirst.
  set (p1 := get_variable_file_path self SOLARRADIATION year) in *.
  set (p2 := get_variable_file_path self TEMPERATURE year) in *.
  assert (Hne' : p2 <> p1) by congruence.
  destruct (files w0 !! p1) as [ds1|] eqn:E1.
  - destruct (files w0 !! p2) as [ds2|] eqn:E2.
    + injection Hfirst as <-.
      intros [|]; cbv zeta; fold p1 p2; rewrite ?E1, ?E2; reflexivity.
    + destruct (api_client self) as [client|]; [|discriminate].
      destruct (client (calls w0) _) as [[ds|]|] eqn:Hcall;
        try discriminate; injection Hfirst as <-;
        (intros [|]; cbv zeta; fold p1 p2; rewrite ?E1, ?E2; cbn [calls];
         rewrite calls_for_app;
         [eexists; split; [|split; [|rewrite calls_for_own; reflexivity]];
          reflexivity
         |rewrite (calls_for_other _ _ _ _ _ _ Hne'), app_nil_r; reflexivity]).
  - destruct (api_client self) as [client|]; [|discriminate].
    destruct (client (calls w0) _) as [[ds|]|] eqn:Hcall; try discriminate;
      cbn [files calls] in Hfirst;
      rewrite ?lookup_insert_ne in Hfirst by exact Hne;
      (destruct (files w0 !! p2) as [ds2|] eqn:E2;
       [injection Hfirst as <-
       |destruct (client (calls w0 ++ _)%list _) as [[ds'|]|] eqn:Hcall';
        try discriminate; injection Hfirst as <-]);
      (intros [|]; cbv zeta; fold p1 p2; rewrite ?E1, ?E2; cbn [calls];
       rewrite ?calls_for_app;
       rewrite ?calls_for_own, ?(calls_for_other _ _ _ _ _ _ Hne'),
         ?(calls_for_other _ _ _ _ _ _ Hne), ?app_nil_r;
       try reflexivity;
       eexists; (split; [|split; [|reflexivity]]); reflexivity).
Qed.

End DownloadClaim.

(** C9. Take an extractor as its constructor leaves it, and a first
    [download_data] that completes and leaves every target file on disk.
    Then a second [download_data] for the same year finds the files,
    makes no retrieve call and changes nothing; and over the two runs a
    file that was absent at the start has been retrieved exactly once (a
    file that was there, not at all). *)
Theorem download_data_twice_retrieves_once
  (loc : Location) (client created : option Extractor.Client) (path : string)
  (year : Z) (months : option (list string)) (w0 w1 : Extractor.World) :
  let self := Extractor.new_extractor loc client created path in
  Extractor.download_data self year months w0 = (w1, Ok tt) ->
  (forall v, is_Some (Extractor.files w1
                        !! Extractor.get_variable_file_path self v year)) ->
  Extractor.download_data self year months w1 = (w1, Ok tt) /\
  forall v,
    let target := Extractor.get_variable_file_path self v year in
    match Extractor.files w0 !! target with
    | None =>
        exists request,
          Extractor.req_target request = target /\
          Extractor.req_variable request = filename_key v /\
          Extractor.calls_for target (Extractor.calls w1)
          = (Extractor.calls_for target (Extractor.calls w0) ++ [request])%list
    | Some _ =>
        Extractor.calls_for target (Extractor.calls w1)
        = Extractor.calls_for target (Extractor.calls w0)
    end.
Proof.
  intros self Hfirst Hfiles. split.
  - unfold Extractor.download_data.
    apply download_variables_skips.
    repeat constructor;
      [apply (Hfiles SOLARRADIATION)|apply (Hfiles TEMPERATURE)].
  - apply (download_data_calls self year months w0 w1 eq_refl Hfirst).
Qed.

Lemma download_data_twice_retrieves_once_witness :
  exists w1,
    Extractor.download_data
      (Extractor.new_extractor demo_location (Some delivering_client) None "data")
      2020 None empty_world = (w1, Ok tt) /\
    Extractor.download_data
      (Extractor.new_extractor demo_location (Some delivering_client) None "data")
      2020 None w1 = (w1, Ok tt) /\
    length (Extractor.calls w1) = 2%nat.
Proof.
  eexists. split; [reflexivity|]. split; [|reflexivity].
  apply (download_data_twice_retrieves_once demo_location
           (Some delivering_client) None "data" 2020 None empty_world).
  - reflexivity.
  - intros [|]; eexists; reflexivity.
Defined.

(** *** The horizontal decomposition *)

Section SolarClaim.
Variable get_solarposition : Q -> Q -> Z -> WeatherApi.SolarPosition.
Variable get_airmass : Q -> Q -> Z -> option R.
Variable disc : option R -> R -> Z -> WeatherApi.DiscOutput.
Variable get_total_irradiance :
  R -> R -> R -> R -> option R -> option R -> option R -> option R ->
  list (option R).

Lemma add_solar_components_returns (self : WeatherApi.WeatherData)
      (ghi_data : DataFrame R) :
  length (columns ghi_data) = 1%nat ->
  exists out,
    WeatherApi.add_solar_components_to_ghi_data get_solarposition get_airmass
      disc get_total_irradiance self ghi_data = Ok out /\
    WeatherApi.convert_to_poa get_solarposition get_airmass
      get_total_irradiance self
      (WeatherApi.horizontal_components get_solarposition disc self
         (mkDataFrame (index_name ghi_data) ["ghi"] (rows ghi_data))) = Ok out /\
    columns out = WeatherApi.poa_columns /\
    index out = index ghi_data.
Proof.
  intros Hwidth. unfold WeatherApi.add_solar_components_to_ghi_data, set_columns.
  rewrite Hwidth. cbn [length Nat.eqb].
  run_bind.
  eexists. split; [reflexivity|]. split; [reflexivity|].
  split; [reflexivity|].
  unfold index. cbn [rows WeatherApi.horizontal_components].
  rewrite !map_map. reflexivity.
Qed.

Lemma Forall2_map_diag {A B : Type} (P : A -> B -> Prop) (f : A -> B)
      (l : list A) :
  Forall (fun x => P x (f x)) l -> Forall2 P l (map f l).
Proof. induction 1; cbn; constructor; assumption. Qed.

(** C4, amended. For a one-column table of global irradiance that has
    rows (its labels are then instants), [add_solar_components_to_ghi_data]
    returns a table on the same instants, in the same order, with the
    five plane-of-array columns only.  Each of its rows is the
    transposition, onto a horizontal plane (tilt 0, azimuth 180), of
    three values: the row's ghi, the dni that DISC gives for this ghi and
    the zenith angle, and the dhi derived as ghi less dni times the
    cosine of the zenith angle taken in radians (degrees times pi over
    180), missing where ghi or dni is.  So ghi = dni * cos(zenith) + dhi
    holds for the values handed to the transposition wherever ghi and dni
    are present.  (Over the reals: the equality is exact.) *)
Theorem add_solar_components_closure (self : WeatherApi.WeatherData)
        (ghi_data : DataFrame R) :
  let lat := latitude (WeatherApi.geolocation self) in
  let lon := longitude (WeatherApi.geolocation self) in
  length (columns ghi_data) = 1%nat ->
  single_column (rows ghi_data) ->
  rows ghi_data <> [] ->
  exists out,
    WeatherApi.add_solar_components_to_ghi_data get_solarposition get_airmass
      disc get_total_irradiance self ghi_data = Ok out /\
    columns out = WeatherApi.poa_columns /\
    Forall2
      (fun input output =>
         let t := fst input in
         let position := get_solarposition lat lon t in
         let zenith := WeatherApi.zenith position in
         fst output = t /\
         exists ghi dni dhi : option R,
           snd input = [ghi] /\
           dni = WeatherApi.disc_dni (disc ghi zenith t) /\
           Spec.derived_diffuse zenith ghi dni dhi /\
           (is_Some ghi -> is_Some dni ->
            Spec.closure_holds zenith ghi dni dhi) /\
           snd output
           = get_total_irradiance 0%R 180%R
               (WeatherApi.apparent_zenith position)
               (WeatherApi.azimuth position)
               dni ghi dhi (get_airmass lat lon t))
      (rows ghi_data) (rows out).
Proof.
  intros lat lon Hwidth Hsingle _.
  destruct (add_solar_components_returns self ghi_data Hwidth)
    as (out & Hout & Hpoa & Hcolumns & _).
  exists out. split; [exact Hout|]. split; [exact Hcolumns|].
  injection Hpoa as <-. cbn [rows WeatherApi.horizontal_components].
  rewrite map_map. cbn [fst snd].
  apply Forall2_map_diag.
  eapply List.Forall_impl; [|exact Hsingle].
  intros [t cells] Hcell. cbn [fst snd] in *.
  destruct cells as [|ghi [|? ?]]; try discriminate Hcell.
  split; [reflexivity|]. cbn [nth]. fold lat lon.
  set (zenith := WeatherApi.zenith (get_solarposition lat lon t)).
  set (dni := WeatherApi.disc_dni (disc ghi zenith t)).
  exists ghi, dni,
    (WeatherApi.cell_op Rminus ghi
       (WeatherApi.cell_op Rmult (Some (cos (zenith * PI / 180))) dni)).
  split; [reflexivity|]. split; [reflexivity|].
  split; [|split; [|reflexivity]].
  - destruct ghi as [g|], dni as [d|]; cbn; try reflexivity.
    f_equal. ring.
  - intros [g ->] [d ->]. exists g, d. eexists.
    split; [reflexivity|]. split; [reflexivity|]. split; [reflexivity|].
    ring.
Qed.

End SolarClaim.

(** C4, as worded, fails on the table the function produces: that table
    holds the five plane-of-array columns and none of ghi, dni and dhi,
    so no row of it carries the decomposition. *)
Lemma produced_table_has_no_horizontal_component :
  exists out,
    WeatherApi.add_solar_components_to_ghi_data fixed_sun no_airmass
      half_direct horizontal_plane
      (demo_weather (WeatherApi.Member ERA5)) one_ghi_sample = Ok out /\
    exists t row,
      In (t, row) (rows out) /\
      forall zenith, ~ Spec.closure_on_row zenith out row.
Proof.
  eexists. split; [reflexivity|].
  eexists. eexists. split; [left; reflexivity|].
  intros zenith (g & d & h & Hghi & _). discriminate Hghi.
Qed.

Lemma add_solar_components_closure_witness :
  exists out (dni dhi : R),
    WeatherApi.add_solar_components_to_ghi_data fixed_sun no_airmass
      half_direct horizontal_plane
      (demo_weather (WeatherApi.Member ERA5)) one_ghi_sample = Ok out /\
    rows out
    = [(0, horizontal_plane 0%R 180%R 60%R 180%R
             (Some dni) (Some 100%R) (Some dhi) None)] /\
    (100 = dni * cos (60 * PI / 180) + dhi)%R.
Proof.
  destruct (add_solar_components_closure fixed_sun no_airmass half_direct
              horizontal_plane (demo_weather (WeatherApi.Member ERA5))
              one_ghi_sample eq_refl)
    as (out & Hout & _ & Hrows).
  - repeat constructor.
  - discriminate.
  - cbn [rows one_ghi_sample] in Hrows.
    inversion Hrows as [|input [t row] inputs outputs Hrow Hrest Hin Hout'];
      subst.
    inversion Hrest; subst.
    cbn [fst snd] in Hrow.
    destruct Hrow as (-> & ghi & dni & dhi & [= <-] & -> & _ & Hclosure & ->).
    destruct Hclosure as (g & d & h & [= <-] & Hd & -> & Hsum);
      [eexists; reflexivity|eexists; reflexivity|].
    cbn in Hd. injection Hd as <-.
    exists out, (100 / 2)%R, h.
    split; [exact Hout|]. split; [|exact Hsum].
    rewrite <- Hout'. reflexivity.
Defined.

(** *** The reanalysis strategy *)

Section SingleColumn.

Lemma single_column_row_at {V : Type} (t : Z) (rs : list (Z * list (option V)))
      (r : list (option V)) :
  single_column rs -> row_at t rs = Some r -> length r = 1%nat.
Proof.
  induction 1 as [|[t' r'] rs Hr _ IH]; cbn; [discriminate|].
  destruct (t' =? t); [intros [= <-]; exact Hr|exact IH].
Qed.

Lemma single_column_zip_rows {V : Type} (f : option V -> option V -> option V)
      (a b : list (Z * list (option V))) :
  single_column a -> single_column b -> single_column (zip_rows f a b).
Proof.
  intros Ha. revert b.
  induction Ha as [|[ta x] a Hx _ IH]; intros b Hb; [constructor|].
  destruct Hb as [|[tb y] b Hy Hb]; [constructor|].
  cbn. constructor; [|apply IH, Hb].
  cbn in *. destruct x as [|x0 [|? ?]], y as [|y0 [|? ?]]; try discriminate.
  reflexivity.
Qed.

Lemma version_frame_single (col : string) (v : Z)
      (samples : list (Z * Z * option Q)) :
  single_column (rows (version_frame col v samples)).
Proof.
  unfold version_frame, single_column. cbn [rows].
  apply List.Forall_forall. intros r Hr.
  apply in_map_iff in Hr. destruct Hr as (s & <- & _). reflexivity.
Qed.

Lemma combine_first_single (df1 df2 : DataFrame Q) :
  length (columns df1) = 1%nat ->
  single_column (rows df1) -> single_column (rows df2) ->
  single_column (rows (combine_first df1 df2)).
Proof.
  destruct df1 as [n1 c1 r1], df2 as [n2 c2 r2].
  unfold combine_first, index. cbn [rows columns index_name with_rows].
  intros Hwidth H1 H2.
  destruct r2 as [|p2 r2]; [destruct r1; exact H1|].
  destruct r1 as [|p1 r1]; [exact H2|].
  cbv beta iota.
  remember (p1 :: r1) as R1 eqn:HR1. remember (p2 :: r2) as R2 eqn:HR2.
  clear HR1 HR2.
  destruct (index_equal (map fst R1) (map fst R2)); cbn [rows].
  { apply single_column_zip_rows; assumption. }
  rewrite Hwidth.
  assert (Hside : forall t rs x,
             single_column rs ->
             In x match rows_labelled t rs with
                  | [] => [nan_row 1]
                  | found => found
                  end ->
             length x = 1%nat).
  { intros t rs x Hrs Hx.
    assert (Hfound : forall y, In y (rows_labelled t rs) -> length y = 1%nat).
    { intros y Hy. unfold rows_labelled in Hy.
      apply in_map_iff in Hy. destruct Hy as (r & <- & Hr).
      apply filter_In in Hr. destruct Hr as [Hr _].
      unfold single_column in Hrs. rewrite List.Forall_forall in Hrs.
      apply Hrs, Hr. }
    destruct (rows_labelled t rs) as [|y ys].
    - destruct Hx as [<-|[]]. reflexivity.
    - apply Hfound, Hx. }
  apply List.Forall_forall. intros r Hr.
  apply in_flat_map in Hr. destruct Hr as (t & _ & Hr).
  apply in_map_iff in Hr. destruct Hr as (c & <- & Hc). cbn [snd].
  unfold join_label in Hc.
  apply in_flat_map in Hc. destruct Hc as (x & Hx & Hc).
  apply in_map_iff in Hc. destruct Hc as (y & <- & Hy).
  apply (Hside t R1 x H1) in Hx. apply (Hside t R2 y H2) in Hy.
  destruct x as [|? [|? ?]], y as [|? [|? ?]]; try discriminate. reflexivity.
Qed.

Lemma load_single_netcdf_file_single (ds : Dataset) (target : ExtractFile)
      (out : DataFrame Q) :
  load_single_netcdf_file ds target = Ok out -> single_column (rows out).
Proof.
  unfold load_single_netcdf_file.
  destruct ds as [var samples|var samples];
    destruct (String.eqb var (column_name target)); try discriminate.
  - intros [= <-]. cbn [rows]. apply List.Forall_forall. intros r Hr.
    apply in_map_iff in Hr. destruct Hr as (s & <- & _). reflexivity.
  - cbv zeta. intros [= <-]. apply combine_first_single;
      [reflexivity|apply version_frame_single|apply version_frame_single].
Qed.

Lemma map_column_single {V : Type} (name : string)
      (f : option V -> option V) (df out : DataFrame V) :
  single_column (rows df) -> map_column name f df = Ok out ->
  single_column (rows out).
Proof.
  intros Hsingle. unfold map_column.
  destruct (column_position name (columns df)); [|discriminate].
  intros [= <-]. cbn [rows with_rows].
  apply List.Forall_forall. intros r Hr.
  apply in_map_iff in Hr. destruct Hr as (old & <- & Hold). cbn [snd].
  rewrite length_update_nth.
  unfold single_column in Hsingle. rewrite List.Forall_forall in Hsingle.
  apply Hsingle, Hold.
Qed.

Lemma get_temperature_data_single (fs : FileSystem) (path : string)
      (out : DataFrame Q) :
  Functions.get_temperature_data fs path = Ok out -> single_column (rows out).
Proof.
  unfold Functions.get_temperature_data. cbv zeta.
  destruct (fs !! path) as [ds|].
  - destruct (load_single_netcdf_file ds TEMPERATURE) as [loaded|] eqn:Hload;
      [|discriminate].
    run_bind.
    destruct (map_column _ _ loaded) as [converted|] eqn:Hmap; [|discriminate].
    run_bind.
    unfold apply_outputdataschema, set_columns. cbn [columns set_index_name].
    destruct (_ =? _)%nat; [|discriminate].
    intros [= <-]. cbn [rows set_index_name].
    eapply map_column_single; [|exact Hmap].
    eapply load_single_netcdf_file_single, Hload.
  - intros [= <-]. constructor.
Qed.

Lemma values_flatten_single (df : DataFrame Q) :
  single_column (rows df) ->
  WeatherApi.values_flatten (WeatherApi.frame_of_Q df)
  = map (fun r => option_map Q2R (nth 0 (snd r) None)) (rows df).
Proof.
  unfold WeatherApi.values_flatten, WeatherApi.frame_of_Q. cbn [rows].
  induction 1 as [|[t r] rs Hr _ IH]; [reflexivity|].
  cbn in *. rewrite IH.
  destruct r as [|c [|? ?]]; try discriminate. reflexivity.
Qed.

End SingleColumn.

Section Era5Claim.
Variable get_solarposition : Q -> Q -> Z -> WeatherApi.SolarPosition.
Variable get_airmass : Q -> Q -> Z -> option R.
Variable disc : option R -> R -> Z -> WeatherApi.DiscOutput.
Variable get_total_irradiance :
  R -> R -> R -> R -> option R -> option R -> option R -> option R ->
  list (option R).
Variable create_api_client : option Extractor.Client.

Lemma add_solar_components_columns (self : WeatherApi.WeatherData)
      (ghi_data out : DataFrame R) :
  WeatherApi.add_solar_components_to_ghi_data get_solarposition get_airmass
    disc get_total_irradiance self ghi_data = Ok out ->
  columns out = WeatherApi.poa_columns /\ index out = index ghi_data.
Proof.
  unfold WeatherApi.add_solar_components_to_ghi_data, set_columns.
  destruct (_ =? _)%nat eqn:Hwidth; [|discriminate].
  apply Nat.eqb_eq in Hwidth. cbn [length] in Hwidth.
  destruct (add_solar_components_returns get_solarposition get_airmass disc
              get_total_irradiance self ghi_data Hwidth)
    as (out' & _ & Hpoa & Hcolumns & Hindex).
  run_bind.
  rewrite Hpoa. intros [= <-]. split; assumption.
Qed.

Lemma combine_map_right {A B C : Type} (f : B -> C) (l : list A) (l' : list B) :
  combine l (map f l') = map (fun p => (fst p, f (snd p))) (combine l l').
Proof.
  revert l'. induction l as [|a l IH]; intros [|b l']; cbn; try reflexivity.
  rewrite IH. reflexivity.
Qed.

(** C7, amended. Once the files are read, [get_weather_data_from_era5]
    attaches the temperatures to the radiation-derived table row by row,
    in order, whatever their timestamps.  When the derived table has rows,
    it returns exactly when the two tables have the same number of rows
    and raises a value error otherwise (so it raises when the temperature
    file is missing and the radiation file has samples).  When the derived
    table has no row, it returns a table with one row per temperature. *)
Theorem get_weather_data_from_era5_by_position
  (self : WeatherApi.WeatherData) (w w' : Extractor.World)
  (ghi_data temperature_data : DataFrame Q) (weather_data : DataFrame R) :
  let site :=
    Extractor.new_extractor (WeatherApi.geolocation self) None
      create_api_client (WeatherApi.saving_path self) in
  let year := WeatherApi.simulation_year self in
  let result :=
    WeatherApi.get_weather_data_from_era5 get_solarposition get_airmass disc
      get_total_irradiance (Ok create_api_client) self w in
  Extractor.download_data site year None w = (w', Ok tt) ->
  Extractor.get_ghi_data site w' year = Ok ghi_data ->
  WeatherApi.add_solar_components_to_ghi_data get_solarposition get_airmass
    disc get_total_irradiance self (WeatherApi.frame_of_Q ghi_data)
    = Ok weather_data ->
  Extractor.get_temperature_data site w' year = Ok temperature_data ->
  fst result = w' /\
  (rows weather_data <> [] ->
   length (rows temperature_data) = length (rows weather_data) ->
   exists out,
     snd result = Ok out /\
     columns out
     = (WeatherApi.poa_columns
          ++ [POAWeatherDataSchema.OUTDOOR_AIR_TEMPERATURE])%list /\
     rows out
     = map (fun rv => (fst (fst rv),
                       (snd (fst rv)
                          ++ [option_map Q2R (nth 0 (snd (snd rv)) None)])%list))
           (combine (rows weather_data) (rows temperature_data))) /\
  (rows weather_data <> [] ->
   length (rows temperature_data) <> length (rows weather_data) ->
   snd result = Raise ValueError) /\
  (rows weather_data = [] ->
   exists out,
     snd result = Ok out /\
     length (rows out) = length (rows temperature_data)).
Proof.
  intros site year result Hdownload Hghi Hderived Htemperature.
  pose proof (add_solar_components_columns _ _ _ Hderived) as [Hcolumns _].
  pose proof (get_temperature_data_single _ _ _ Htemperature) as Hsingle.
  assert (Hresult :
            result
            = (w', WeatherApi.loc_set_column
                     POAWeatherDataSchema.OUTDOOR_AIR_TEMPERATURE
                     (map (fun r => option_map Q2R (nth 0 (snd r) None))
                          (rows temperature_data))
                     weather_data)).
  { unfold result, WeatherApi.get_weather_data_from_era5, Extractor.post_init.
    run_bind. cbv iota. fold site. fold year. rewrite Hdownload, Hghi.
    run_bind.
    rewrite Hderived.
    run_bind.
    rewrite Htemperature.
    run_bind.
    rewrite (values_flatten_single _ Hsingle). reflexivity. }
  rewrite Hresult. cbn [fst snd]. split; [reflexivity|].
  unfold WeatherApi.loc_set_column. rewrite Hcolumns.
  change (column_position POAWeatherDataSchema.OUTDOOR_AIR_TEMPERATURE
            WeatherApi.poa_columns) with (@None nat).
  rewrite length_map.
  split; [|split].
  - intros Hrows Hsame. destruct (rows weather_data) as [|r0 rs] eqn:E;
      [contradiction|].
    rewrite Hsame, Nat.eqb_refl.
    eexists. split; [reflexivity|]. split; [reflexivity|].
    cbn [rows]. rewrite combine_map_right, map_map. reflexivity.
  - intros Hrows Hdiffer. destruct (rows weather_data) as [|r0 rs] eqn:E;
      [contradiction|].
    apply Nat.eqb_neq in Hdiffer. rewrite Hdiffer. reflexivity.
  - intros ->. eexists. split; [reflexivity|].
    cbn [rows]. rewrite length_map, length_combine, length_seq, length_map.
    apply Nat.min_id.
Qed.

End Era5Claim.

(** C7, as worded, fails for a radiation file that holds no sample next to
    a temperature file that holds one: the derived table has no rows, the
    temperature table has one, and the call returns a table. *)
Lemma derived_table_without_rows_still_returns :
  ~ Spec.returns_only_on_equal_counts fixed_sun no_airmass half_direct
      horizontal_plane None (demo_weather (WeatherApi.Member ERA5))
      radiation_without_samples.
Proof.
  intros Hclaim.
  specialize (Hclaim radiation_without_samples _ _ _ _
                eq_refl eq_refl eq_refl eq_refl eq_refl).
  cbn in Hclaim. discriminate Hclaim.
Qed.

Lemma get_weather_data_from_era5_by_position_witness :
  (exists out,
      snd (WeatherApi.get_weather_data_from_era5 fixed_sun no_airmass
             half_direct horizontal_plane (Ok None)
             (demo_weather (WeatherApi.Member ERA5))
             samples_at_different_instants) = Ok out /\
      index out = [0]) /\
  snd (WeatherApi.get_weather_data_from_era5 fixed_sun no_airmass
         half_direct horizontal_plane (Ok (Some idle_client))
         (demo_weather (WeatherApi.Member ERA5)) radiation_only)
  = Raise ValueError.
Proof.
  split.
  - destruct (get_weather_data_from_era5_by_position fixed_sun no_airmass
                half_direct horizontal_plane None
                (demo_weather (WeatherApi.Member ERA5))
                samples_at_different_instants samples_at_different_instants
                _ _ _ eq_refl eq_refl eq_refl eq_refl)
      as (_ & Hequal & _ & _).
    destruct Hequal as (out & Hout & _ & Hrows);
      [cbn; discriminate|reflexivity|].
    exists out. split; [exact Hout|].
    unfold index. rewrite Hrows. reflexivity.
  - destruct (get_weather_data_from_era5_by_position fixed_sun no_airmass
                half_direct horizontal_plane (Some idle_client)
                (demo_weather (WeatherApi.Member ERA5))
                radiation_only _
                _ _ _ eq_refl eq_refl eq_refl eq_refl)
      as (_ & _ & Hdiffer & _).
    apply Hdiffer; cbn; discriminate.
Defined.

Import MoreExamples.

(** ** Further properties *)

(** *** functions.py *)

Section ReadingFacts.
Import Wording.

Lemma load_single_netcdf_file_columns (ds : Dataset) (target : ExtractFile)
      (loaded : DataFrame Q) :
  load_single_netcdf_file ds target = Ok loaded ->
  columns loaded = [column_name target].
Proof.
  unfold load_single_netcdf_file.
  destruct ds as [var samples|var samples];
    destruct (String.eqb var (column_name target)); try discriminate;
    intros [= <-]; [reflexivity|].
  cbv zeta. unfold combine_first. cbn [rows version_frame].
  repeat match goal with
         | |- context [match ?l with [] => _ | _ :: _ => _ end] => destruct l
         | |- context [if ?b then _ else _] => destruct b
         end; reflexivity.
Qed.

Lemma shift_from_index {V : Type} (prev : list (option V))
      (rs : list (Z * list (option V))) :
  map fst (shift_from prev rs) = map fst rs.
Proof.
  revert prev. induction rs as [|[t r] rs IH]; intros prev; [reflexivity|].
  cbn. f_equal. apply IH.
Qed.

Lemma zip_rows_index {V : Type} (f : option V -> option V -> option V)
      (a b : list (Z * list (option V))) :
  length a = length b -> map fst (zip_rows f a b) = map fst a.
Proof.
  revert b. induction a as [|[ta x] a IH]; intros [|[tb y] b] Hlen;
    try discriminate; [reflexivity|].
  cbn. f_equal. apply IH. injection Hlen as Hlen. exact Hlen.
Qed.

Lemma diff_with_shift_index (df : DataFrame Q) :
  index (diff_with_shift df) = index df.
Proof.
  unfold diff_with_shift, index, shift. cbn [rows with_rows].
  destruct (rows df) as [|[t r] rs] eqn:E; [reflexivity|].
  cbn [rows with_rows]. apply zip_rows_index.
  rewrite <- (length_map fst), <- (length_map fst (shift_from _ _)).
  rewrite shift_from_index. reflexivity.
Qed.

Lemma update_nth_Forall {V : Type} (P : option V -> Prop) (n : nat)
      (f : option V -> option V) (r : list (option V)) :
  (forall c, P c -> P (f c)) -> List.Forall P r ->
  List.Forall P (update_nth n f r).
Proof.
  intros Hf Hr. revert n.
  induction Hr as [|c r Hc Hr IH]; intros [|n]; cbn; constructor; auto.
Qed.

Lemma cleaned_cells (r : list (option Q)) :
  List.Forall present_not_negative (map clamp_negative (map fillna0 r)).
Proof.
  apply List.Forall_forall. intros c Hc.
  apply in_map_iff in Hc. destruct Hc as (c1 & <- & Hc1).
  apply in_map_iff in Hc1. destruct Hc1 as (c0 & <- & _).
  unfold present_not_negative.
  destruct c0 as [x|]; cbn.
  - destruct (Qlt_bool x 0) eqn:Hneg.
    + eexists. split; [reflexivity|]. apply Qle_refl.
    + eexists. split; [reflexivity|].
      apply Qnot_lt_le. intros Hlt. apply Qlt_bool_iff in Hlt. congruence.
  - eexists. split; [reflexivity|]. apply Qle_refl.
Qed.

Lemma cell_div_not_negative (c : option Q) :
  present_not_negative c -> present_not_negative (cell_div 3600 c).
Proof.
  intros (x & -> & Hx). cbn. eexists. split; [reflexivity|].
  apply Qle_shift_div_l; [reflexivity|]. rewrite Qmult_0_l. exact Hx.
Qed.

End ReadingFacts.

Section ReadingClaims.
Import Wording.

Lemma get_radiation_data_steps (fs : FileSystem) (path : string) (ds : Dataset)
      (loaded : DataFrame Q) :
  fs !! path = Some ds ->
  load_single_netcdf_file ds SOLARRADIATION = Ok loaded ->
  get_radiation_data fs path
  = Ok (mkDataFrame (Some WeatherDataSchema.DATEINDEX)
          [WeatherDataSchema.SOLARIRRADIANCE]
          (map (fun r => (fst r, update_nth 0 (cell_div 3600) (snd r)))
             (rows (map_cells clamp_negative
                      (map_cells fillna0 (diff_with_shift loaded)))))).
Proof.
  intros Hfile Hload.
  pose proof (load_single_netcdf_file_columns _ _ _ Hload) as Hcolumns.
  unfold get_radiation_data. rewrite Hfile. cbv zeta. rewrite Hload.
  run_bind. unfold map_column.
  cbn [columns map_cells diff_with_shift with_rows]. rewrite Hcolumns.
  cbn [column_name column_position String.eqb Ascii.eqb Bool.eqb].
  run_bind. unfold apply_outputdataschema, set_columns.
  cbn [columns set_index_name with_rows map_cells diff_with_shift].
  rewrite Hcolumns. reflexivity.
Qed.

(** X1. Whatever a radiation file holds (gaps, drops, two experiment
    versions), [get_radiation_data] returns a table on the timestamps of
    the loaded one in which every cell is a number and none is negative. *)
Theorem get_radiation_data_never_negative (fs : FileSystem) (path : string)
        (ds : Dataset) (loaded : DataFrame Q) :
  fs !! path = Some ds ->
  load_single_netcdf_file ds SOLARRADIATION = Ok loaded ->
  exists out,
    get_radiation_data fs path = Ok out /\
    index out = index loaded /\
    Forall (fun r => Forall present_not_negative (snd r)) (rows out).
Proof.
  intros Hfile Hload.
  eexists. split; [apply (get_radiation_data_steps _ _ _ _ Hfile Hload)|].
  split.
  - unfold index. cbn [rows map_cells with_rows]. rewrite !map_map. cbn [fst].
    apply diff_with_shift_index.
  - cbn [rows map_cells with_rows]. rewrite !map_map. cbn [fst snd].
    apply List.Forall_forall. intros r Hr.
    apply in_map_iff in Hr. destruct Hr as (r0 & <- & _). cbn [snd].
    apply update_nth_Forall; [apply cell_div_not_negative|apply cleaned_cells].
Qed.

Lemma get_radiation_data_never_negative_witness :
  exists out,
    get_radiation_data gap_and_drop "site_surface_net_solar_radiation_2020.nc"
      = Ok out /\
    index out = [0; 60; 120; 180] /\
    Forall (fun r => Forall present_not_negative (snd r)) (rows out).
Proof.
  destruct (get_radiation_data_never_negative gap_and_drop
              "site_surface_net_solar_radiation_2020.nc" _ _ eq_refl eq_refl)
    as (out & Hout & Hindex & Hcells).
  exists out. split; [exact Hout|]. split; [exact Hindex|exact Hcells].
Defined.

(** X2. Whatever a temperature file holds, [get_temperature_data] returns
    a table on the timestamps of the loaded one whose column, renamed to
    the schema's, holds every sample less 273.15 and leaves a missing
    sample missing. *)
Theorem get_temperature_data_celsius (fs : FileSystem) (path : string)
        (ds : Dataset) (loaded : DataFrame Q) :
  fs !! path = Some ds ->
  load_single_netcdf_file ds TEMPERATURE = Ok loaded ->
  exists out,
    Functions.get_temperature_data fs path = Ok out /\
    index out = index loaded /\
    column_values WeatherDataSchema.OAT out
    = Some (map (fun r => option_map (fun x => (x - (27315 # 100))%Q)
                            (nth 0 (snd r) None))
                (rows loaded)).
Proof.
  intros Hfile Hload.
  pose proof (load_single_netcdf_file_columns _ _ _ Hload) as Hcolumns.
  unfold Functions.get_temperature_data. rewrite Hfile. cbv zeta.
  rewrite Hload. run_bind. unfold map_column. rewrite Hcolumns.
  cbn [column_name column_position String.eqb Ascii.eqb Bool.eqb].
  run_bind. unfold apply_outputdataschema, set_columns.
  cbn [columns set_index_name with_rows]. rewrite Hcolumns. cbn [length Nat.eqb].
  eexists. split; [reflexivity|]. split.
  - unfold index. cbn [rows with_rows set_index_name]. rewrite map_map.
    reflexivity.
  - unfold column_values. cbn. f_equal. rewrite map_map.
    apply map_ext. intros [t r]. cbn [snd].
    destruct r as [|c r]; [reflexivity|]. reflexivity.
Qed.

Lemma get_temperature_data_celsius_witness :
  exists out,
    Functions.get_temperature_data one_temperature "site_2m_temperature_2020.nc"
      = Ok out /\
    option_map (map (option_map Qred))
      (column_values WeatherDataSchema.OAT out)
    = Some [Some (537 # 20)].
Proof.
  destruct (get_temperature_data_celsius one_temperature
              "site_2m_temperature_2020.nc" _ _ eq_refl eq_refl)
    as (out & Hout & _ & Hvalues).
  exists out. split; [exact Hout|]. rewrite Hvalues. reflexivity.
Defined.

Lemma filter_twice {A : Type} (p q : A -> bool) (l : list A) :
  (forall x, p x = true -> q x = true) ->
  List.filter p (List.filter q l) = List.filter p l.
Proof.
  intros Himp. induction l as [|x l IH]; [reflexivity|].
  cbn. destruct (q x) eqn:Hq.
  - cbn. rewrite IH. reflexivity.
  - destruct (p x) eqn:Hp; [|exact IH].
    apply Himp in Hp. congruence.
Qed.

(** X3. [load_single_netcdf_file] reads experiment versions 1 and 5 only:
    samples of any other version have no effect on the result. *)
Theorem load_single_netcdf_file_other_versions
        (var : string) (samples : list (Z * Z * option Q))
        (target_variable : ExtractFile) :
  load_single_netcdf_file (Versioned var samples) target_variable
  = load_single_netcdf_file
      (Versioned var
         (List.filter (fun s => (snd (fst s) =? 1) || (snd (fst s) =? 5))
                      samples))
      target_variable.
Proof.
  unfold load_single_netcdf_file, version_frame.
  destruct (String.eqb var (column_name target_variable)); [|reflexivity].
  cbv zeta.
  rewrite !(filter_twice _ (fun s => (snd (fst s) =? 1) || (snd (fst s) =? 5)));
    [reflexivity| |]; intros s Hs; rewrite Hs; auto using orb_true_r.
Qed.

(** X4. [get_all_data] cannot be called as it is annotated: handed a
    [str], it raises the attribute error of [.exists()] before any file
    is looked at.  Handed a [Path], it asks the one file for both
    variables: without a file there it returns the empty table with the
    two schema columns; for a file with one data variable, as the archive
    delivers them, it raises the key error of the variable the file does
    not hold. *)
Theorem get_all_data_one_file (fs : FileSystem)
        (target_area : FunctionsRest.PathArgument) :
  match target_area with
  | FunctionsRest.GivenStr _ =>
      FunctionsRest.get_all_data fs target_area
      = Raise (AttributeError "exists")
  | FunctionsRest.GivenPath path =>
      match fs !! path with
      | None =>
          FunctionsRest.get_all_data fs target_area
          = Ok (mkDataFrame (Some "Time")
                  ["Global irradiance (W/m2)"; "Air temperature (deg C)"] [])
      | Some (Plain var _) | Some (Versioned var _) =>
          FunctionsRest.get_all_data fs target_area
          = Raise (KeyError (if String.eqb var "ssr" then "t2m" else "ssr"))
      end
  end.
Proof.
  destruct target_area as [s|target_area]; [reflexivity|].
  unfold FunctionsRest.get_all_data.
  destruct (fs !! target_area) as [ds|] eqn:Hfile.
  - assert (Hcases :
              forall var,
                (ds = Plain var (match ds with Plain _ l => l | _ => [] end) \/
                 ds = Versioned var (match ds with Versioned _ l => l | _ => [] end)) ->
                get_radiation_data fs target_area
                  ≫= (fun radiation =>
                        Functions.get_temperature_data fs target_area
                          ≫= (fun temperature =>
                                FunctionsRest.concat_axis1 radiation temperature))
                = Raise (KeyError (if String.eqb var "ssr" then "t2m" else "ssr"))).
    { intros var Hds.
      destruct (String.eqb var "ssr") eqn:Hvar.
      - apply String.eqb_eq in Hvar. subst var.
        assert (Hload : exists loaded,
                   load_single_netcdf_file ds SOLARRADIATION = Ok loaded)
          by (destruct Hds as [-> | ->]; eexists; reflexivity).
        destruct Hload as [loaded Hload].
        rewrite (get_radiation_data_steps _ _ _ _ Hfile Hload). run_bind.
        unfold Functions.get_temperature_data. rewrite Hfile.
        destruct Hds as [-> | ->]; reflexivity.
      - unfold get_radiation_data. rewrite Hfile.
        destruct Hds as [-> | ->]; cbn [load_single_netcdf_file column_name];
          rewrite Hvar; reflexivity. }
    destruct ds as [var samples|var samples]; apply Hcases; auto.
  - unfold get_radiation_data, Functions.get_temperature_data.
    rewrite Hfile. reflexivity.
Qed.

End ReadingClaims.

(** *** extractor.py *)

Section DownloadFacts.
Import Extractor.

Lemma download_variables_grows (self : Era5DataExtractor) (year : Z)
      (months : list string) (variables : list string) :
  forall (w w' : World) (r : result unit),
    download_variables self year months variables w = (w', r) ->
    files w ⊆ files w' /\
    exists new,
      calls w' = (calls w ++ new)%list /\
      (length new <= length variables)%nat /\
      Forall (fun request => files w !! req_target request = None) new.
Proof.
  induction variables as [|variable variables IH]; intros w w' r; cbn.
  - intros [= <- <-]. split; [reflexivity|].
    exists []. rewrite app_nil_r.
    split; [reflexivity|]. split; [cbn; lia|constructor].
  - set (target := path_join (saving_path self)
                             (variable_filename self variable year)).
    destruct (files w !! target) as [ds|] eqn:Hfile.
    + intros Hrest. destruct (IH _ _ _ Hrest) as (Hsub & new & Hcalls & Hlen & Hnew).
      split; [exact Hsub|]. exists new.
      split; [exact Hcalls|]. split; [cbn; lia|exact Hnew].
    + destruct (api_client self) as [client|].
      2:{ intros [= <- <-]. split; [reflexivity|].
          exists []. rewrite app_nil_r.
          split; [reflexivity|]. split; [cbn; lia|constructor]. }
      destruct (client (calls w) _) as [[ds|]|e] eqn:Hcall.
      * intros Hrest.
        destruct (IH _ _ _ Hrest) as (Hsub & new & Hcalls & Hlen & Hnew).
        cbn [files calls] in *.
        assert (Hgrow : files w ⊆ <[target:=ds]> (files w))
          by (apply insert_subseteq, Hfile).
        split; [etransitivity; eassumption|].
        eexists (_ :: new). split; [rewrite Hcalls, <- app_assoc; reflexivity|].
        split; [cbn; lia|]. constructor; [exact Hfile|].
        eapply List.Forall_impl; [|exact Hnew]. cbn. intros request Habsent.
        destruct (files w !! req_target request) as [old|] eqn:Hold;
          [|reflexivity].
        eapply lookup_weaken in Hold; [|exact Hgrow]. congruence.
      * intros Hrest.
        destruct (IH _ _ _ Hrest) as (Hsub & new & Hcalls & Hlen & Hnew).
        cbn [files calls] in *.
        split; [exact Hsub|].
        eexists (_ :: new). split; [rewrite Hcalls, <- app_assoc; reflexivity|].
        split; [cbn; lia|]. constructor; [exact Hfile|exact Hnew].
      * intros [= <- <-]. cbn [files calls]. split; [reflexivity|].
        eexists [_]. split; [reflexivity|]. split; [cbn; lia|].
        constructor; [exact Hfile|constructor].
Qed.

Lemma download_variables_requests (self : Era5DataExtractor) (year : Z)
      (months : list string) (variables : list string) :
  forall (w w' : World) (r : result unit),
    download_variables self year months variables w = (w', r) ->
    exists asked,
      sublist asked variables /\
      calls w'
      = (calls w
           ++ map (fun variable =>
                     retrieve_request self variable year months
                       (path_join (saving_path self)
                                  (variable_filename self variable year)))
                  asked)%list /\
      Forall (fun variable =>
                files w !! path_join (saving_path self)
                             (variable_filename self variable year) = None)
             asked.
Proof.
  induction variables as [|variable variables IH]; intros w w' r; cbn.
  - intros [= <- <-]. exists []. split; [constructor|].
    split; [cbn; rewrite app_nil_r; reflexivity|constructor].
  - set (target := path_join (saving_path self)
                             (variable_filename self variable year)).
    assert (Hlater : forall w1,
               files w ⊆ files w1 ->
               forall asked,
                 Forall (fun v => files w1 !! path_join (saving_path self)
                                              (variable_filename self v year)
                                  = None) asked ->
                 Forall (fun v => files w !! path_join (saving_path self)
                                             (variable_filename self v year)
                                  = None) asked).
    { intros w1 Hsub asked. apply List.Forall_impl. intros v Habsent.
      destruct (files w !! _) as [old|] eqn:Hold; [|reflexivity].
      eapply lookup_weaken in Hold; [|exact Hsub]. congruence. }
    destruct (files w !! target) as [ds|] eqn:Hfile.
    + intros Hrest. destruct (IH _ _ _ Hrest) as (asked & Hsub & Hcalls & Habsent).
      exists asked. split; [apply sublist_cons, Hsub|].
      split; [exact Hcalls|exact Habsent].
    + destruct (api_client self) as [client|].
      2:{ intros [= <- <-]. exists []. split; [apply sublist_nil_l|].
          split; [cbn; rewrite app_nil_r; reflexivity|constructor]. }
      destruct (client (calls w) _) as [[ds|]|e] eqn:Hcall.
      * intros Hrest.
        destruct (IH _ _ _ Hrest) as (asked & Hsub & Hcalls & Habsent).
        cbn [files calls] in *.
        exists (variable :: asked). split; [apply sublist_skip, Hsub|].
        split; [rewrite Hcalls, <- app_assoc; reflexivity|].
        constructor; [exact Hfile|].
        apply (Hlater (mkWorld (<[target:=ds]> (files w))
                               (calls w ++ [retrieve_request self variable year
                                              months target])));
          [apply insert_subseteq, Hfile|exact Habsent].
      * intros Hrest.
        destruct (IH _ _ _ Hrest) as (asked & Hsub & Hcalls & Habsent).
        cbn [files calls] in *.
        exists (variable :: asked). split; [apply sublist_skip, Hsub|].
        split; [rewrite Hcalls, <- app_assoc; reflexivity|].
        constructor; [exact Hfile|exact Habsent].
      * intros [= <- <-]. cbn [files calls].
        exists [variable]. split; [apply sublist_skip, sublist_nil_l|].
        split; [reflexivity|]. constructor; [exact Hfile|constructor].
Qed.

(** X5. Whatever the outcome, [download_data] never removes or replaces a
    file that was there, and only appends to the log of retrieve calls.
    The calls it adds are the requests of some of the extractor's
    variables, taken in the order of [variables_to_extract] with no entry
    of that list asked for twice (so each variable at most once, the
    entries being distinct), and only of variables whose target was
    absent when it started. *)
Theorem download_data_only_adds (self : Era5DataExtractor) (year : Z)
        (months : option (list string)) (w w' : World) (r : result unit) :
  download_data self year months w = (w', r) ->
  (forall path ds, files w !! path = Some ds -> files w' !! path = Some ds) /\
  exists asked,
    sublist asked (variables_to_extract self) /\
    (List.NoDup (variables_to_extract self) -> List.NoDup asked) /\
    calls w'
    = (calls w
         ++ map (fun variable =>
                   retrieve_request self variable year
                     (default all_monhts months)
                     (path_join (saving_path self)
                                (variable_filename self variable year)))
                asked)%list /\
    Forall (fun variable =>
              files w !! path_join (saving_path self)
                           (variable_filename self variable year) = None)
           asked.
Proof.
  unfold download_data. intros Hrun.
  destruct (download_variables_grows _ _ _ _ _ _ _ Hrun) as [Hsub _].
  destruct (download_variables_requests _ _ _ _ _ _ _ Hrun)
    as (asked & Hasked & Hcalls & Habsent).
  split; [intros path ds Hfile; eapply lookup_weaken; eassumption|].
  exists asked. split; [exact Hasked|]. split; [|split; assumption].
  intros Hdistinct. apply NoDup_ListNoDup.
  eapply sublist_NoDup; [|exact Hasked].
  apply NoDup_ListNoDup, Hdistinct.
Qed.

Lemma download_variables_without_client (self : Era5DataExtractor) (year : Z)
      (months : list string) (variables : list string) (w : World) :
  api_client self = None ->
  Exists (fun variable =>
            files w !! path_join (saving_path self)
                         (variable_filename self variable year) = None)
         variables ->
  download_variables self year months variables w
  = (w, Raise (AttributeError "retrieve")).
Proof.
  intros Hclient. induction variables as [|variable variables IH];
    intros Hmissing; [inversion Hmissing|].
  cbn. destruct (files w !! _) as [ds|] eqn:Hfile.
  - apply IH. inversion Hmissing as [? ? Hhere|? ? Hlater]; subst;
      [congruence|exact Hlater].
  - rewrite Hclient. reflexivity.
Qed.

(** X6. An extractor whose client could not be created changes nothing:
    [download_data] returns normally when every target file is already
    there, and raises the attribute error, leaving files and log as they
    were, as soon as one is missing. *)
Theorem download_data_without_client (self : Era5DataExtractor) (year : Z)
        (months : option (list string)) (w : World) :
  api_client self = None ->
  (Forall (fun variable =>
             is_Some (files w !! path_join (saving_path self)
                                   (variable_filename self variable year)))
          (variables_to_extract self) ->
   download_data self year months w = (w, Ok tt)) /\
  (Exists (fun variable =>
             files w !! path_join (saving_path self)
                          (variable_filename self variable year) = None)
          (variables_to_extract self) ->
   download_data self year months w = (w, Raise (AttributeError "retrieve"))).
Proof.
  intros Hclient. unfold download_data. split.
  - apply download_variables_skips.
  - apply download_variables_without_client, Hclient.
Qed.

Lemma download_variables_provenance (self : Era5DataExtractor) (year : Z)
      (months : list string) (variables : list string) :
  forall (w w' : World) (r : result unit),
    download_variables self year months variables w = (w', r) ->
    forall path ds,
      files w !! path = None -> files w' !! path = Some ds ->
      exists variable client history,
        In variable variables /\
        path = path_join (saving_path self)
                         (variable_filename self variable year) /\
        api_client self = Some client /\
        client history (retrieve_request self variable year months path)
        = Ok (Some ds).
Proof.
  induction variables as [|variable variables IH]; intros w w' r; cbn.
  - intros [= <- <-] path ds Hbefore Hafter. congruence.
  - set (target := path_join (saving_path self)
                             (variable_filename self variable year)).
    assert (Hlater : forall w1 path ds,
               download_variables self year months variables w1 = (w', r) ->
               files w1 !! path = None -> files w' !! path = Some ds ->
               exists variable0 client history,
                 (variable = variable0 \/ In variable0 variables) /\
                 path = path_join (saving_path self)
                                  (variable_filename self variable0 year) /\
                 api_client self = Some client /\
                 client history
                   (retrieve_request self variable0 year months path)
                 = Ok (Some ds)).
    { intros w1 path ds Hrest Hbefore Hafter.
      destruct (IH _ _ _ Hrest path ds Hbefore Hafter)
        as (v & client & history & Hin & Hpath & Hclient & Hcall).
      exists v, client, history. auto. }
    destruct (files w !! target) as [ds0|] eqn:Hfile; [intros; eauto|].
    destruct (api_client self) as [client|] eqn:Hclient.
    2:{ intros [= <- <-] path ds Hbefore Hafter. congruence. }
    destruct (client (calls w) _) as [[ds0|]|e] eqn:Hcall.
    + intros Hrest path ds Hbefore Hafter.
      destruct (decide (path = target)) as [->|Hother].
      * destruct (download_variables_grows _ _ _ _ _ _ _ Hrest) as [Hsub _].
        cbn [files] in Hsub.
        assert (Hkept : files w' !! target = Some ds0)
          by (eapply lookup_weaken; [apply lookup_insert_eq|exact Hsub]).
        assert (ds = ds0) as -> by congruence.
        exists variable, client, (calls w). auto.
      * apply (Hlater _ path ds Hrest); [|exact Hafter].
        cbn [files]. rewrite lookup_insert_ne by auto. exact Hbefore.
    + intros Hrest path ds Hbefore Hafter.
      apply (Hlater _ path ds Hrest); [exact Hbefore|exact Hafter].
    + intros [= <- <-] path ds Hbefore Hafter. cbn [files] in Hafter. congruence.
Qed.

(** X7. Every file that [download_data] adds holds exactly what the client
    delivered for a request of one of the extractor's variables, for that
    year and months, targeted at that path. *)
Theorem download_data_writes_what_was_delivered
        (self : Era5DataExtractor) (year : Z) (months : option (list string))
        (w w' : World) (r : result unit) (path : string) (ds : Dataset) :
  download_data self year months w = (w', r) ->
  files w !! path = None ->
  files w' !! path = Some ds ->
  exists variable client history,
    In variable (variables_to_extract self) /\
    path = path_join (saving_path self) (variable_filename self variable year) /\
    api_client self = Some client /\
    client history
      (retrieve_request self variable year (default all_monhts months) path)
    = Ok (Some ds).
Proof.
  unfold download_data. intros Hrun.
  apply (download_variables_provenance _ _ _ _ _ _ _ Hrun).
Qed.

Lemma download_data_only_adds_witness :
  exists asked,
    sublist asked ["surface_net_solar_radiation"; "2m_temperature"] /\
    List.NoDup asked /\
    length (calls (fst (download_data (site_with (Some delivering_client)) 2020
                          None empty_world))) = length asked.
Proof.
  destruct (download_data_only_adds (site_with (Some delivering_client)) 2020
              None empty_world _ _ (surjective_pairing _))
    as (_ & asked & Hasked & Hdistinct & Hcalls & _).
  exists asked. split; [exact Hasked|]. split.
  - apply Hdistinct. repeat constructor; cbn; intuition discriminate.
  - rewrite Hcalls. cbn [calls empty_world app]. apply length_map.
Defined.

Lemma download_data_without_client_witness :
  download_data (site_with None) 2020 None empty_world
  = (empty_world, Raise (AttributeError "retrieve")).
Proof.
  apply (download_data_without_client (site_with None) 2020 None empty_world
           eq_refl).
  apply Exists_cons_hd. reflexivity.
Defined.

Lemma download_data_writes_what_was_delivered_witness :
  exists variable,
    In variable (variables_to_extract (site_with (Some delivering_client))) /\
    get_variable_file_path (site_with (Some delivering_client)) TEMPERATURE 2020
    = path_join (saving_path (site_with (Some delivering_client)))
        (variable_filename (site_with (Some delivering_client)) variable 2020).
Proof.
  destruct (download_data_writes_what_was_delivered
              (site_with (Some delivering_client)) 2020 None empty_world _ _
              (get_variable_file_path (site_with (Some delivering_client))
                 TEMPERATURE 2020)
              (Plain "2m_temperature" [(0, Some (1 # 1))])
              (surjective_pairing _))
    as (variable & _ & _ & Hin & Hpath & _).
  - reflexivity.
  - vm_compute. reflexivity.
  - exists variable. split; [exact Hin|exact Hpath].
Defined.

(** X8. The loop has no error handling: when the files of the variables
    before one are there, that one's file is missing and its retrieve
    raises, [download_data] raises the same exception with that single
    call logged and no file written; the variables after it are not asked
    for. *)
Theorem download_data_stops_at_first_failure
        (self : Era5DataExtractor) (year : Z) (months : option (list string))
        (w : World) (before after : list string) (variable : string)
        (client : Client) (e : exn) :
  let target :=
    path_join (saving_path self) (variable_filename self variable year) in
  let request :=
    retrieve_request self variable year (default all_monhts months) target in
  variables_to_extract self = (before ++ variable :: after)%list ->
  Forall (fun v => is_Some (files w !! path_join (saving_path self)
                                      (variable_filename self v year)))
         before ->
  files w !! target = None ->
  api_client self = Some client ->
  client (calls w) request = Raise e ->
  download_data self year months w
  = (mkWorld (files w) (calls w ++ [request]), Raise e).
Proof.
  intros target request Hvariables Hbefore Hmissing Hclient Hfails.
  unfold download_data. cbv zeta. rewrite Hvariables.
  unfold request, target in *. clear request target Hvariables.
  induction Hbefore as [|v before [ds Hfile] _ IH]; cbn [app download_variables].
  - rewrite Hmissing, Hclient, Hfails. reflexivity.
  - rewrite Hfile. exact IH.
Qed.

Lemma download_data_stops_at_first_failure_witness :
  download_data (site_with (Some refusing_client)) 2020 None empty_world
  = (mkWorld ∅
       [retrieve_request (site_with (Some refusing_client))
          "surface_net_solar_radiation" 2020 all_monhts
          (get_variable_file_path (site_with (Some refusing_client))
             SOLARRADIATION 2020)],
     Raise ValueError).
Proof.
  apply (download_data_stops_at_first_failure
           (site_with (Some refusing_client)) 2020 None empty_world
           [] ["2m_temperature"] "surface_net_solar_radiation"
           refusing_client ValueError);
    try reflexivity.
  constructor.
Defined.

Lemma append_length (s t : string) :
  String.length (s +:+ t) = (String.length s + String.length t)%nat.
Proof.
  induction s as [|a s IH]; [reflexivity|].
  change (S (String.length (s +:+ t)) = S (String.length s + String.length t)).
  f_equal. exact IH.
Qed.

Lemma append_cancel_right (s1 s2 t : string) : s1 +:+ t = s2 +:+ t -> s1 = s2.
Proof.
  revert s2. induction s1 as [|a s1 IH]; intros [|b s2] Hsame.
  - reflexivity.
  - exfalso. apply (f_equal String.length) in Hsame.
    rewrite !append_length in Hsame. cbn [String.length] in Hsame. lia.
  - exfalso. apply (f_equal String.length) in Hsame.
    rewrite !append_length in Hsame. cbn [String.length] in Hsame. lia.
  - change (String a (s1 +:+ t) = String b (s2 +:+ t)) in Hsame.
    injection Hsame as -> Hsame. f_equal. apply IH, Hsame.
Qed.

(** X9. The file name is a faithful cache key for an extractor: two
    different variables, or two different years, never share a target
    path. *)
Theorem get_variable_file_path_distinct
        (self : Era5DataExtractor) (v v' : ExtractFile) (year year' : Z) :
  get_variable_file_path self v year = get_variable_file_path self v' year' ->
  v = v' /\ year = year'.
Proof.
  unfold get_variable_file_path, path_join, variable_filename.
  intros Hsame.
  apply (inj (String.app (saving_path self))) in Hsame. cbn in Hsame.
  injection Hsame as Hsame.
  apply (inj (String.app (name (location self)))) in Hsame. cbn in Hsame.
  injection Hsame as Hsame.
  destruct v, v'; cbn in Hsame; try discriminate Hsame; (split; [reflexivity|]).
  - apply (inj (String.app "2m_temperature_")) in Hsame.
    apply append_cancel_right in Hsame. apply (inj pretty) in Hsame. exact Hsame.
  - apply (inj (String.app "surface_net_solar_radiation_")) in Hsame.
    apply append_cancel_right in Hsame. apply (inj pretty) in Hsame. exact Hsame.
Qed.

Lemma get_variable_file_path_distinct_witness :
  TEMPERATURE = TEMPERATURE /\ 2020 = 2020.
Proof.
  apply (get_variable_file_path_distinct (site_with None)). reflexivity.
Defined.

End DownloadFacts.

(** *** weather_api.py: the calendar *)

Section CalendarFacts.
Import Wording.

Lemma next_day_after_year (y : Z) :
  WeatherApi.days_from_civil (y + 1) 1 1
  = WeatherApi.days_from_civil y 12 31 + 1.
Proof.
  unfold WeatherApi.days_from_civil. cbn -[Z.div Z.mul Z.add Z.sub].
  replace (y + 1 - 1) with y by lia.
  Z.div_mod_to_equations; lia.
Qed.

Lemma days_between_ends (y : Z) :
  WeatherApi.days_from_civil y 12 31 - WeatherApi.days_from_civil y 1 1
  = days_in_year y - 1.
Proof.
  unfold WeatherApi.days_from_civil, days_in_year, is_leap.
  cbn -[Z.div Z.mul Z.add Z.sub Z.modulo Z.eqb].
  destruct (y mod 4 =? 0) eqn:H4; destruct (y mod 100 =? 0) eqn:H100;
    destruct (y mod 400 =? 0) eqn:H400; cbn [andb orb negb];
    rewrite ?Z.eqb_eq, ?Z.eqb_neq in *; Z.div_mod_to_equations; lia.
Qed.

Lemma date_range_length (start stop freq : Z) :
  0 < freq -> start <= stop ->
  Z.of_nat (length (WeatherApi.date_range start stop freq))
  = (stop - start) / freq + 1.
Proof.
  intros Hfreq Horder. unfold WeatherApi.date_range.
  destruct (stop <? start) eqn:Hempty; [apply Z.ltb_lt in Hempty; lia|].
  rewrite length_map, length_seq.
  assert (0 <= (stop - start) / freq) by (apply Z.div_pos; lia). lia.
Qed.

(** X10. In a zone whose offset from UTC is the same at both ends of the
    year, the grid of [get_date_range] has 48 instants for each day of the
    year: 17520 in a common year, 17568 in a leap year. *)
Theorem get_date_range_length (utc_offset : string -> Z -> Z)
        (self : WeatherApi.WeatherData) :
  let tz := timezone (WeatherApi.geolocation self) in
  utc_offset tz (WeatherApi.start_date self)
    = utc_offset tz (WeatherApi.end_date self) ->
  Z.of_nat (length (WeatherApi.get_date_range utc_offset self))
  = 48 * days_in_year (WeatherApi.simulation_year self).
Proof.
  intros tz Hoffset. unfold WeatherApi.get_date_range. fold tz.
  pose proof (days_between_ends (WeatherApi.simulation_year self)) as Hdays.
  assert (Hspan :
            WeatherApi.localize utc_offset tz (WeatherApi.end_date self)
            - WeatherApi.localize utc_offset tz (WeatherApi.start_date self)
            = (days_in_year (WeatherApi.simulation_year self) - 1) * 1440 + 1410).
  { unfold WeatherApi.localize. rewrite Hoffset.
    unfold WeatherApi.end_date, WeatherApi.start_date, WeatherApi.wall_clock.
    lia. }
  assert (1 <= days_in_year (WeatherApi.simulation_year self))
    by (unfold days_in_year; destruct (is_leap _); lia).
  rewrite date_range_length by lia. rewrite Hspan.
  replace ((days_in_year (WeatherApi.simulation_year self) - 1) * 1440 + 1410)
    with (17 + (48 * days_in_year (WeatherApi.simulation_year self) - 1) * 30 - 17 + 0)
    by lia.
  replace (17 + (48 * days_in_year (WeatherApi.simulation_year self) - 1) * 30 - 17 + 0)
    with ((48 * days_in_year (WeatherApi.simulation_year self) - 1) * 30) by lia.
  rewrite Z.div_mul by lia. lia.
Qed.

Lemma get_date_range_length_witness :
  Z.of_nat (length (WeatherApi.get_date_range utc_all_year
                      (demo_weather (WeatherApi.Member ERA5)))) = 17568.
Proof.
  rewrite (get_date_range_length utc_all_year
             (demo_weather (WeatherApi.Member ERA5)) eq_refl).
  reflexivity.
Defined.

(** X11. The years tile the clock: the first instant of the grid of year
    Y + 1 comes half an hour after the last instant of the grid of year
    Y, on the wall clock. *)
Theorem start_date_follows_end_date (self next : WeatherApi.WeatherData) :
  WeatherApi.simulation_year next = WeatherApi.simulation_year self + 1 ->
  WeatherApi.start_date next = WeatherApi.end_date self + 30.
Proof.
  intros Hnext.
  unfold WeatherApi.start_date, WeatherApi.end_date, WeatherApi.wall_clock.
  rewrite Hnext, next_day_after_year. lia.
Qed.

Lemma start_date_follows_end_date_witness :
  WeatherApi.start_date
    (WeatherApi.mkWeatherData demo_location 2021 (WeatherApi.Member ERA5) "data")
  = WeatherApi.end_date (demo_weather (WeatherApi.Member ERA5)) + 30.
Proof.
  apply start_date_follows_end_date. reflexivity.
Defined.

End CalendarFacts.

(** *** weather_api.py: processing and saving *)

Section SavingFacts.
Import Wording.
Context {V S : Type}.
Variable utc_offset : string -> Z -> Z.
Variable resample_and_fill_missing_data : DataFrame V -> Z -> DataFrame V.
Variable fill_missing_data : DataFrame V -> DataFrame V.
Variable weather_funcs :
  WeatherApi.Strategy -> WeatherApi.WeatherData -> S -> S * result (DataFrame V).

Local Abbreviation get_weather_data :=
  (WeatherApi.get_weather_data utc_offset resample_and_fill_missing_data
     fill_missing_data S weather_funcs).

Lemma save_weather_data_path (self : WeatherApi.WeatherData)
      (dataf : DataFrame V) (csv csv' : gmap string (DataFrame V)) :
  WeatherApi.save_weather_data self dataf csv = Ok csv' ->
  exists source,
    WeatherApi.tag_name (WeatherApi.weather_data_source self) = Ok source /\
    csv' = <[csv_path self source := dataf]> csv.
Proof.
  unfold WeatherApi.save_weather_data.
  destruct (WeatherApi.tag_name (WeatherApi.weather_data_source self))
    as [source|e]; [|discriminate].
  intros Hsaved. injection Hsaved as <-. exists source. split; reflexivity.
Qed.

Lemma get_weather_data_saved (self : WeatherApi.WeatherData)
      (passed : option WeatherApi.PyTag) (st st' : S)
      (csv csv' : gmap string (DataFrame V)) (out : DataFrame V) :
  get_weather_data self passed st csv = (st', csv', Ok out) ->
  exists source,
    WeatherApi.tag_name (WeatherApi.weather_data_source self) = Ok source /\
    csv' = <[csv_path self source := out]> csv.
Proof.
  unfold WeatherApi.get_weather_data. cbv zeta.
  destruct (weather_funcs _ self st) as [st1 [raw|e]]; [|discriminate].
  destruct (WeatherApi.weather_data_processing _ _ _ self raw) as [dataf|e];
    [|discriminate].
  destruct (WeatherApi.save_weather_data self dataf csv) as [saved|e] eqn:Hsaved;
    [|discriminate].
  intros [= _ <- <-]. apply save_weather_data_path, Hsaved.
Qed.

(** X12. The CSV file [get_weather_data] writes is named after the source
    stored in the object and the simulation year, whatever source was
    passed to the call: a returned table is stored under
    [saving_path/weather_data/Weather_data_<stored source name, lower
    case>_<year>.csv], and a call that raises leaves the files as they
    were. *)
Theorem get_weather_data_saves_under_stored_source
        (self : WeatherApi.WeatherData) (passed : option WeatherApi.PyTag)
        (st : S) (csv : gmap string (DataFrame V)) :
  match get_weather_data self passed st csv with
  | (_, csv', Ok out) =>
      exists source,
        WeatherApi.tag_name (WeatherApi.weather_data_source self) = Ok source /\
        csv' = <[csv_path self source := out]> csv
  | (_, csv', Raise _) => csv' = csv
  end.
Proof.
  destruct (get_weather_data self passed st csv) as [[st' csv'] [out|e]] eqn:Hrun.
  - apply (get_weather_data_saved _ _ _ _ _ _ _ Hrun).
  - revert Hrun. unfold WeatherApi.get_weather_data. cbv zeta.
    destruct (weather_funcs _ self st) as [st1 [raw|e1]]; [|congruence].
    destruct (WeatherApi.weather_data_processing _ _ _ self raw) as [dataf|e2];
      [|congruence].
    destruct (WeatherApi.save_weather_data self dataf csv) as [saved|e3];
      [discriminate|congruence].
Qed.

(** X13. Two calls on the same object share one file: when both return,
    with whatever sources passed, the table of the second call replaces
    the table of the first, and nothing else has changed among the
    files. *)
Theorem get_weather_data_second_call_replaces_first
        (self : WeatherApi.WeatherData) (first second : option WeatherApi.PyTag)
        (st st1 st2 : S) (csv csv1 csv2 : gmap string (DataFrame V))
        (out1 out2 : DataFrame V) :
  get_weather_data self first st csv = (st1, csv1, Ok out1) ->
  get_weather_data self second st1 csv1 = (st2, csv2, Ok out2) ->
  exists source,
    WeatherApi.tag_name (WeatherApi.weather_data_source self) = Ok source /\
    csv1 !! csv_path self source = Some out1 /\
    csv2 = <[csv_path self source := out2]> csv.
Proof.
  intros Hfirst Hsecond.
  destruct (get_weather_data_saved _ _ _ _ _ _ _ Hfirst) as (source & Hname & ->).
  destruct (get_weather_data_saved _ _ _ _ _ _ _ Hsecond)
    as (source' & Hname' & ->).
  assert (source' = source) by congruence. subst source'.
  exists source. split; [exact Hname|]. split.
  - apply lookup_insert_eq.
  - apply insert_insert_eq.
Qed.

Lemma row_at_map_labels (g : Z -> list (option V)) (t : Z) (labels : list Z) :
  In t labels -> row_at t (map (fun u => (u, g u)) labels) = Some (g t).
Proof.
  induction labels as [|u labels IH]; intros Hin; [destruct Hin|].
  cbn [map row_at]. destruct (u =? t) eqn:Hu.
  - apply Z.eqb_eq in Hu. subst u. reflexivity.
  - apply Z.eqb_neq in Hu. destruct Hin as [Heq|Hin]; [contradiction|].
    apply IH, Hin.
Qed.

Lemma row_at_found (t : Z) (rs : list (Z * list (option V))) :
  In t (map fst rs) -> exists r, row_at t rs = Some r.
Proof.
  intros Hin. destruct (row_at t rs) as [r|] eqn:Hrow; [exists r; reflexivity|].
  apply row_at_None in Hrow. contradiction.
Qed.

Lemma concat_on_index_rows (labels : list Z) (dataf : DataFrame V) :
  StronglySorted Z.lt labels ->
  has_duplicates (index dataf) = false ->
  exists joined,
    WeatherApi.concat_on_index labels dataf = Ok joined /\
    columns joined = columns dataf /\
    index joined = index_union labels (index dataf) /\
    forall t, In t (index joined) ->
      row_at t (rows joined)
      = Some (default (repeat None (length (columns dataf)))
                      (row_at t (rows dataf))).
Proof.
  intros Hsorted Hunique.
  destruct (concat_on_index_union labels dataf Hsorted Hunique)
    as (joined & Hjoin & Hindex).
  exists joined. split; [exact Hjoin|].
  revert Hjoin. unfold WeatherApi.concat_on_index, index_equal.
  case_bool_decide as Hsame.
  - intros Hjoin. injection Hjoin as <-. split; [reflexivity|].
    split; [exact Hindex|].
    unfold index. cbn [rows]. intros t Hin.
    destruct (row_at_found t (rows dataf) Hin) as (r & ->). reflexivity.
  - rewrite Hunique. intros Hjoin. injection Hjoin as <-.
    split; [reflexivity|]. split; [exact Hindex|].
    unfold index at 1. cbn [rows]. rewrite map_map. cbn [fst]. rewrite map_id.
    intros t Hin.
    apply (row_at_map_labels
             (fun u => default (repeat None (length (columns dataf)))
                               (row_at u (rows dataf)))).
    exact Hin.
Qed.

(** X14. What [weather_data_processing] hands to [fill_missing_data]:
    the resampled table laid over the year's grid.  When the resampled
    table repeats no label, the table keeps its columns, carries every
    grid instant and every label of the resampled table, each once and
    no other, holds at every label of the resampled table that table's
    row unchanged, and holds a row of missing values at every grid
    instant the resampled table lacks. *)
Theorem weather_data_processing_lays_table_over_grid
        (self : WeatherApi.WeatherData) (raw : DataFrame V) :
  let resampled := resample_and_fill_missing_data raw 30 in
  let grid := WeatherApi.get_date_range utc_offset self in
  has_duplicates (index resampled) = false ->
  exists joined,
    WeatherApi.weather_data_processing utc_offset
      resample_and_fill_missing_data fill_missing_data self raw
      = Ok (fill_missing_data joined) /\
    columns joined = columns resampled /\
    (forall t, In t (index joined) <-> In t grid \/ In t (index resampled)) /\
    List.NoDup (index joined) /\
    (forall t r, row_at t (rows resampled) = Some r ->
                 row_at t (rows joined) = Some r) /\
    (forall t, In t grid -> ~ In t (index resampled) ->
               row_at t (rows joined)
               = Some (repeat None (length (columns resampled)))).
Proof.
  intros resampled grid Hunique.
  destruct (concat_on_index_rows grid resampled
              (get_date_range_sorted utc_offset self) Hunique)
    as (joined & Hjoin & Hcolumns & Hindex & Hrows).
  exists joined. split.
  { unfold WeatherApi.weather_data_processing. cbv zeta.
    fold grid resampled. rewrite Hjoin. reflexivity. }
  split; [exact Hcolumns|]. split.
  { intros t. rewrite Hindex. apply index_union_In. }
  split.
  { rewrite Hindex. apply sorted_NoDup, index_union_sorted. }
  split.
  - intros t r Hrow. rewrite Hrows.
    + rewrite Hrow. reflexivity.
    + rewrite Hindex. apply (proj2 (index_union_In _ _ _)). right.
      apply (row_at_In t _ r), Hrow.
  - intros t Hgrid Hout. rewrite Hrows.
    + apply row_at_None in Hout. rewrite Hout. reflexivity.
    + rewrite Hindex. apply (proj2 (index_union_In _ _ _)). left. exact Hgrid.
Qed.

End SavingFacts.

Lemma get_weather_data_second_call_replaces_first_witness :
  exists out1 out2 csv1,
    csv1 !! csv_path_of_demo = Some out1 /\
    (WeatherApi.get_weather_data utc_all_year already_half_hourly
       nothing_to_fill unit provider_by_source
       (demo_weather (WeatherApi.Member ERA5))
       (Some (WeatherApi.Member PVGISSARAH2)) tt csv1).1.2
    = <[csv_path_of_demo := out2]> ∅.
Proof.
  destruct (get_weather_data_returns utc_all_year already_half_hourly
              nothing_to_fill provider_by_source
              (demo_weather (WeatherApi.Member ERA5))
              (Some (WeatherApi.Member TMY)) tt tt ∅ row_of_2020 "ERA5"
              (fun d => eq_refl) eq_refl eq_refl eq_refl)
    as (out1 & csv1 & Hfirst & _ & _).
  destruct (get_weather_data_returns utc_all_year already_half_hourly
              nothing_to_fill provider_by_source
              (demo_weather (WeatherApi.Member ERA5))
              (Some (WeatherApi.Member PVGISSARAH2)) tt tt csv1 row_of_2021 "ERA5"
              (fun d => eq_refl) eq_refl eq_refl eq_refl)
    as (out2 & csv2 & Hsecond & _ & _).
  destruct (get_weather_data_second_call_replaces_first
              utc_all_year already_half_hourly nothing_to_fill provider_by_source
              (demo_weather (WeatherApi.Member ERA5))
              (Some (WeatherApi.Member TMY))
              (Some (WeatherApi.Member PVGISSARAH2))
              tt tt tt ∅ csv1 csv2 out1 out2 Hfirst Hsecond)
    as (source & Hname & Hstored & Hfinal).
  injection Hname as <-.
  exists out1, out2, csv1. split; [exact Hstored|].
  rewrite Hsecond. exact Hfinal.
Defined.

Lemma weather_data_processing_lays_table_over_grid_witness :
  exists joined,
    WeatherApi.weather_data_processing utc_all_year already_half_hourly
      nothing_to_fill (demo_weather (WeatherApi.Member ERA5)) row_of_2021
      = Ok (nothing_to_fill joined) /\
    row_at (WeatherApi.wall_clock 2021 1 1 0 0) (rows joined)
      = Some [Some (5 # 1)] /\
    row_at (WeatherApi.wall_clock 2020 1 1 0 0) (rows joined) = Some [None].
Proof.
  destruct (weather_data_processing_lays_table_over_grid
              utc_all_year already_half_hourly nothing_to_fill
              (demo_weather (WeatherApi.Member ERA5)) row_of_2021 eq_refl)
    as (joined & Hrun & _ & _ & _ & Hkept & Hmissing).
  exists joined. split; [exact Hrun|]. split.
  - apply Hkept. reflexivity.
  - apply (Hmissing (WeatherApi.wall_clock 2020 1 1 0 0)).
    + apply (proj2 (date_range_In _ _ 30 _ ltac:(lia))).
      exists 0. split; [lia|]. split; [reflexivity|]. vm_compute. discriminate.
    + cbn. intros [Heq|[]]. vm_compute in Heq. discriminate.
Defined.

(** *** weather_api.py: the satellite formatter *)

Section SarahFacts.
Context {V : Type}.
Variable zero : V.
Variable add : V -> V -> V.
Implicit Types (df : DataFrame V).

Lemma assign_column_index (name : string) (f : list (option V) -> option V) df :
  index (WeatherApi.assign_column name f df) = index df.
Proof.
  unfold WeatherApi.assign_column, index.
  destruct (column_position name (columns df)); cbn [rows with_rows];
    rewrite map_map; reflexivity.
Qed.

Lemma assign_column_index_name (name : string)
      (f : list (option V) -> option V) df :
  index_name (WeatherApi.assign_column name f df) = index_name df.
Proof.
  unfold WeatherApi.assign_column.
  destruct (column_position name (columns df)); reflexivity.
Qed.

Lemma assign_column_has_column (name : string)
      (f : list (option V) -> option V) df :
  column_position name (columns (WeatherApi.assign_column name f df)) <> None.
Proof.
  unfold WeatherApi.assign_column.
  destruct (column_position name (columns df)) eqn:Hname;
    cbn [columns with_rows].
  - rewrite Hname. discriminate.
  - rewrite column_position_app, Hname, String.eqb_refl. discriminate.
Qed.

(** Assigning one column leaves every other column as it was. *)
Lemma assign_column_column_values (name other : string)
      (f : list (option V) -> option V) df :
  WeatherApi.well_formed df ->
  other <> name ->
  column_values other (WeatherApi.assign_column name f df)
  = column_values other df.
Proof.
  unfold WeatherApi.well_formed, WeatherApi.assign_column, column_values.
  intros Hwf Hother. rewrite List.Forall_forall in Hwf.
  destruct (column_position name (columns df)) as [n|] eqn:Hname;
    cbn [rows columns with_rows].
  - destruct (column_position other (columns df)) as [m|] eqn:Hm;
      [|reflexivity].
    f_equal. rewrite map_map. apply map_ext. intros r. cbn [snd].
    rewrite nth_update_nth.
    destruct (Nat.eqb_spec m n) as [->|]; [|reflexivity].
    exfalso. apply Hother. apply (column_position_same _ _ _ _ Hm Hname).
  - rewrite column_position_app.
    destruct (column_position other (columns df)) as [m|] eqn:Hm.
    + f_equal. rewrite map_map. apply map_ext_in. intros r Hr. cbn [snd].
      apply column_position_lt in Hm. specialize (Hwf r Hr).
      rewrite app_nth1 by lia. reflexivity.
    + destruct (String.eqb_spec name other); [congruence|reflexivity].
Qed.

Lemma column_positions_missing (names : list string) df (e : exn) :
  WeatherApi.column_positions names df = Raise e ->
  (exists key, e = KeyError key) /\
  ~ Forall (fun name => column_position name (columns df) <> None) names.
Proof.
  induction names as [|name names IH]; cbn; [discriminate|].
  destruct (column_position name (columns df)) eqn:Hname.
  - destruct (WeatherApi.column_positions names df) as [ps|e'];
      cbv [mbind result_bind]; [discriminate|].
    intros [= <-]. destruct (IH eq_refl) as [Hkey Hnot].
    split; [exact Hkey|]. intros Hall. apply Hnot.
    inversion Hall; assumption.
  - intros [= <-]. split; [eexists; reflexivity|].
    intros Hall. inversion Hall; contradiction.
Qed.

Lemma column_positions_present (names : list string) df (ps : list nat) :
  WeatherApi.column_positions names df = Ok ps ->
  Forall (fun name => column_position name (columns df) <> None) names.
Proof.
  revert ps. induction names as [|name names IH]; intros ps; cbn;
    [constructor|].
  destruct (column_position name (columns df)) eqn:Hname; [|discriminate].
  destruct (WeatherApi.column_positions names df) as [qs|e];
    cbv [mbind result_bind]; [|discriminate].
  intros _. constructor; [rewrite Hname; discriminate|].
  apply (IH qs). reflexivity.
Qed.

(** The steps of [format_sarah_weather_data] when it returns. *)
Lemma format_sarah_weather_data_steps (self : WeatherApi.WeatherData) df
      (out : DataFrame V) :
  WeatherApi.format_sarah_weather_data zero add self df = Ok out ->
  exists f g,
    out = set_index_name
            (WeatherApi.assign_column POAWeatherDataSchema.POA_DIFFUSE g
               (WeatherApi.assign_column POAWeatherDataSchema.POA_GLOBAL f df))
            POAWeatherDataSchema.INDEX.
Proof.
  unfold WeatherApi.format_sarah_weather_data. cbv zeta.
  destruct (WeatherApi.column_positions _ df) as [ps|e]; [|discriminate].
  run_bind.
  destruct (WeatherApi.column_positions _ _) as [qs|e]; [|discriminate].
  run_bind. intros [= <-]. eexists. eexists. reflexivity.
Qed.

(** X15. [format_sarah_weather_data] returns a table exactly when the
    input has the three columns poa_direct, poa_ground_diffuse and
    poa_sky_diffuse; when one of them is missing it raises a KeyError,
    whatever else the table holds. *)
Theorem format_sarah_weather_data_needs_three_inputs
        (self : WeatherApi.WeatherData) df :
  match WeatherApi.format_sarah_weather_data zero add self df with
  | Ok _ =>
      Forall (fun name => column_position name (columns df) <> None) poa_inputs
  | Raise e =>
      (exists key, e = KeyError key) /\
      ~ Forall (fun name => column_position name (columns df) <> None)
               poa_inputs
  end.
Proof.
  unfold WeatherApi.format_sarah_weather_data. cbv zeta.
  destruct (WeatherApi.column_positions _ df) as [ps|e] eqn:Hps.
  - apply column_positions_present in Hps. run_bind.
    set (df1 := WeatherApi.assign_column POAWeatherDataSchema.POA_GLOBAL _ df).
    assert (Hcols1 :
              Forall (fun name => column_position name (columns df1) <> None)
                [POAWeatherDataSchema.POA_GROUND_DIFFUSE;
                 POAWeatherDataSchema.POA_SKY_DIFFUSE]).
    { inversion Hps as [|? ? _ Hrest]; subst.
      eapply List.Forall_impl; [|exact Hrest].
      intros name. apply assign_column_keeps_position. }
    destruct (column_positions_found _ df1 Hcols1) as [qs Hqs].
    rewrite Hqs. run_bind. exact Hps.
  - cbv [mbind result_bind]. apply (column_positions_missing _ _ _ Hps).
Qed.

(** X16. A table returned by [format_sarah_weather_data] carries the
    instants of its input in their order under the index name utc_time,
    and every column other than poa_global and poa_diffuse holds the
    values it held in the input. *)
Theorem format_sarah_weather_data_keeps_other_columns
        (self : WeatherApi.WeatherData) df (out : DataFrame V) :
  WeatherApi.well_formed df ->
  WeatherApi.format_sarah_weather_data zero add self df = Ok out ->
  index out = index df /\
  index_name out = Some "utc_time" /\
  forall other,
    other <> "poa_global" -> other <> "poa_diffuse" ->
    column_values other out = column_values other df.
Proof.
  intros Hwf Hout.
  destruct (format_sarah_weather_data_steps self df out Hout) as (f & g & ->).
  split; [|split; [reflexivity|]].
  - unfold index. cbn [rows set_index_name]. fold (index
      (WeatherApi.assign_column POAWeatherDataSchema.POA_DIFFUSE g
         (WeatherApi.assign_column POAWeatherDataSchema.POA_GLOBAL f df))).
    rewrite !assign_column_index. reflexivity.
  - intros other Hglobal Hdiffuse.
    change (column_values other (set_index_name ?d _))
      with (column_values other d).
    rewrite assign_column_column_values;
      [|apply assign_column_well_formed, Hwf|exact Hdiffuse].
    apply assign_column_column_values; [exact Hwf|exact Hglobal].
Qed.

End SarahFacts.

Lemma format_sarah_weather_data_keeps_other_columns_witness :
  exists out,
    WeatherApi.format_sarah_weather_data 0%Q Qplus
      (demo_weather (WeatherApi.Member PVGISSARAH2)) sarah_full_row = Ok out /\
    index out = [0] /\
    column_values "poa_direct" out = Some [Some (4 # 1)].
Proof.
  eexists. split; [reflexivity|].
  destruct (format_sarah_weather_data_keeps_other_columns 0%Q Qplus
              (demo_weather (WeatherApi.Member PVGISSARAH2)) sarah_full_row _
              ltac:(repeat constructor) eq_refl)
    as (Hindex & _ & Hkept).
  split; [exact Hindex|].
  rewrite Hkept by discriminate. reflexivity.
Defined.

(** *** weather_api.py: the four strategies *)

Section StrategyFacts.
Import FunctionsRest.
Variable get_solarposition : Q -> Q -> Z -> WeatherApi.SolarPosition.
Variable get_airmass : Q -> Q -> Z -> option R.
Variable disc : option R -> R -> Z -> WeatherApi.DiscOutput.
Variable get_total_irradiance :
  R -> R -> R -> R -> option R -> option R -> option R -> option R ->
  list (option R).
Variable get_clearsky : Q -> Q -> list Z -> DataFrame R.
Variable get_pvgis_tmy : Q -> Q -> result (DataFrame R).
Variable get_pvgis_hourly : Q -> Q -> Z -> Z -> result (DataFrame R).
Variable utc_offset : string -> Z -> Z.

Local Abbreviation weather_funcs attempt :=
  (WeatherApi.weather_funcs get_solarposition get_airmass disc
     get_total_irradiance get_clearsky get_pvgis_tmy get_pvgis_hourly
     attempt utc_offset).

Local Abbreviation get_weather_data_from_era5 attempt :=
  (WeatherApi.get_weather_data_from_era5 get_solarposition get_airmass disc
     get_total_irradiance attempt).

Lemma convert_to_poa_shape (self : WeatherApi.WeatherData)
      (dataf out : DataFrame R) :
  WeatherApi.convert_to_poa get_solarposition get_airmass get_total_irradiance
    self dataf = Ok out ->
  columns out = WeatherApi.poa_columns /\ index out = index dataf.
Proof.
  unfold WeatherApi.convert_to_poa. cbv zeta.
  destruct (column_position "dni" (columns dataf)); [|discriminate].
  destruct (column_position "ghi" (columns dataf)); [|discriminate].
  destruct (column_position "dhi" (columns dataf)); [|discriminate].
  intros [= <-]. split; [reflexivity|].
  unfold index. cbn [rows]. rewrite map_map. reflexivity.
Qed.

Lemma convert_to_poa_returns (self : WeatherApi.WeatherData)
      (dataf : DataFrame R) :
  Forall (fun name => column_position name (columns dataf) <> None)
         ["dni"; "ghi"; "dhi"] ->
  exists out,
    WeatherApi.convert_to_poa get_solarposition get_airmass
      get_total_irradiance self dataf = Ok out.
Proof.
  intros Hcols. unfold WeatherApi.convert_to_poa. cbv zeta.
  inversion Hcols as [|? ? Hdni Hrest]; subst.
  inversion Hrest as [|? ? Hghi Hrest']; subst.
  inversion Hrest' as [|? ? Hdhi _]; subst.
  destruct (column_position "dni" (columns dataf)); [|contradiction].
  destruct (column_position "ghi" (columns dataf)); [|contradiction].
  destruct (column_position "dhi" (columns dataf)); [|contradiction].
  eexists. reflexivity.
Qed.

Lemma loc_set_column_columns {V : Type} (key : string)
      (values : list (option V)) (dataf out : DataFrame V) :
  WeatherApi.loc_set_column key values dataf = Ok out ->
  columns out = columns dataf \/ columns out = (columns dataf ++ [key])%list.
Proof.
  unfold WeatherApi.loc_set_column.
  destruct (column_position key (columns dataf)).
  - destruct (_ =? _)%nat; [|discriminate]. intros [= <-]. left. reflexivity.
  - destruct (rows dataf).
    + intros [= <-]. right. reflexivity.
    + destruct (_ =? _)%nat; [|discriminate]. intros [= <-]. right. reflexivity.
Qed.

Lemma get_weather_data_format_poa (cols : list string) :
  column_position "poa_global" cols <> None ->
  get_weather_data_format cols = POA.
Proof.
  unfold get_weather_data_format.
  induction cols as [|c cols IH]; cbn [column_position existsb];
    [contradiction|].
  rewrite (String.eqb_sym "poa_global" c).
  destruct (String.eqb c "poa_global"); [reflexivity|].
  cbn [orb]. intros Hfound. apply IH.
  destruct (column_position "poa_global" cols); [discriminate|contradiction].
Qed.

Lemma era5_download_skipped (created : option Extractor.Client)
      (self : WeatherApi.WeatherData) (w : Extractor.World) :
  let site :=
    Extractor.new_extractor (WeatherApi.geolocation self) None created
      (WeatherApi.saving_path self) in
  let year := WeatherApi.simulation_year self in
  is_Some (Extractor.files w
             !! Extractor.get_variable_file_path site SOLARRADIATION year) ->
  is_Some (Extractor.files w
             !! Extractor.get_variable_file_path site TEMPERATURE year) ->
  Extractor.download_data site year None w = (w, Ok tt).
Proof.
  intros site year Hradiation Htemperature.
  unfold Extractor.download_data.
  apply download_variables_skips.
  repeat constructor; assumption.
Qed.

(** X17. Every table returned by the clear-sky, the reanalysis or the
    satellite strategy has a poa_global column, so that
    [get_weather_data_format] classifies it as plane-of-array. *)
Theorem strategy_tables_are_plane_of_array
        (attempt : result (option Extractor.Client)) (f : WeatherApi.Strategy)
        (self : WeatherApi.WeatherData) (w w' : Extractor.World)
        (table : DataFrame R) :
  f <> WeatherApi.F_tmy_weather_data ->
  weather_funcs attempt f self w = (w', Ok table) ->
  get_weather_data_format (columns table) = POA.
Proof.
  intros Hf Hrun. destruct f; cbn [WeatherApi.weather_funcs] in Hrun;
    [| | |contradiction].
  - injection Hrun as _ Hrun. unfold WeatherApi.get_clearsky_solar_data in Hrun.
    apply convert_to_poa_shape in Hrun. destruct Hrun as [-> _]. reflexivity.
  - unfold WeatherApi.get_weather_data_from_era5 in Hrun. cbv zeta in Hrun.
    destruct (Extractor.post_init _ None attempt _) as [site|e];
      [|discriminate].
    destruct (Extractor.download_data _ _ None w) as [w1 [[]|e]];
      [|discriminate].
    injection Hrun as _ Hrun.
    destruct (Extractor.get_ghi_data _ w1 _) as [ghi_data|e]; [|discriminate].
    change (Ok ghi_data ≫= ?k) with (k ghi_data) in Hrun. cbv beta in Hrun.
    destruct (WeatherApi.add_solar_components_to_ghi_data _ _ _ _ self _)
      as [weather_data|e] eqn:Hsolar; [|discriminate].
    change (Ok weather_data ≫= ?k) with (k weather_data) in Hrun.
    cbv beta in Hrun.
    destruct (Extractor.get_temperature_data _ w1 _) as [temperature_data|e];
      [|discriminate].
    change (Ok temperature_data ≫= ?k) with (k temperature_data) in Hrun.
    cbv beta in Hrun.
    apply add_solar_components_columns in Hsolar. destruct Hsolar as [Hcols _].
    apply loc_set_column_columns in Hrun. rewrite Hcols in Hrun.
    destruct Hrun as [-> | ->]; reflexivity.
  - injection Hrun as _ Hrun. unfold WeatherApi.get_sarah2_weather_data in Hrun.
    destruct (get_pvgis_hourly _ _ _ _) as [weather_data|e]; [|discriminate].
    change (Ok weather_data ≫= ?k) with (k weather_data) in Hrun.
    cbv beta in Hrun.
    apply format_sarah_weather_data_steps in Hrun.
    destruct Hrun as (g & h & ->).
    apply get_weather_data_format_poa. cbn [columns set_index_name].
    apply assign_column_keeps_position, assign_column_has_column.
Qed.

(** X18. With the two files of the year on disk, the reanalysis strategy
    needs no network, but it still needs the client's constructor not to
    raise.  When [cdsapi.Client] returns a client, or fails the assertion
    that [create_api_client] catches, the call makes no retrieve call and
    leaves the files as they are, and it returns the same in both cases.
    When the constructor raises anything else, the call raises it, and
    nothing is read or changed. *)
Theorem get_weather_data_from_era5_with_files_on_disk
        (attempt : result (option Extractor.Client))
        (self : WeatherApi.WeatherData) (w : Extractor.World) :
  let site :=
    Extractor.new_extractor (WeatherApi.geolocation self) None None
      (WeatherApi.saving_path self) in
  let year := WeatherApi.simulation_year self in
  is_Some (Extractor.files w
             !! Extractor.get_variable_file_path site SOLARRADIATION year) ->
  is_Some (Extractor.files w
             !! Extractor.get_variable_file_path site TEMPERATURE year) ->
  match attempt with
  | Ok created =>
      fst (get_weather_data_from_era5 (Ok created) self w) = w /\
      snd (get_weather_data_from_era5 (Ok created) self w)
      = snd (get_weather_data_from_era5 (Ok None) self w)
  | Raise e => get_weather_data_from_era5 (Raise e) self w = (w, Raise e)
  end.
Proof.
  intros site year Hradiation Htemperature.
  destruct attempt as [created|e]; [|reflexivity].
  unfold WeatherApi.get_weather_data_from_era5, Extractor.post_init.
  cbv zeta. run_bind. run_bind. cbv iota.
  rewrite (era5_download_skipped created self w Hradiation Htemperature).
  rewrite (era5_download_skipped None self w Hradiation Htemperature).
  split; reflexivity.
Qed.

Section ClearSky.
Variable resample_and_fill_missing_data : DataFrame R -> Z -> DataFrame R.
Variable fill_missing_data : DataFrame R -> DataFrame R.

(** X19. For the clear-sky source the output lies exactly on the year's
    grid.  Provided the clear-sky model answers at the instants it is
    asked for with dni, ghi and dhi columns, the resampler keeps the
    labels of a table that is already on the grid, the filler keeps the
    labels, and the stored source has a name, [get_weather_data] returns
    a table whose labels are the half-hourly grid of the year, each
    once and in order, and touches neither the network nor the files. *)
Theorem get_weather_data_clearsky_on_grid
        (attempt : result (option Extractor.Client))
        (self : WeatherApi.WeatherData) (w : Extractor.World)
        (csv : gmap string (DataFrame R)) (source : string) :
  let grid := WeatherApi.get_date_range utc_offset self in
  (forall lat lon times, index (get_clearsky lat lon times) = times) ->
  (forall lat lon times,
      Forall (fun name =>
                column_position name (columns (get_clearsky lat lon times))
                <> None)
             ["dni"; "ghi"; "dhi"]) ->
  (forall dataf, index dataf = grid ->
                 index (resample_and_fill_missing_data dataf 30) = grid) ->
  (forall dataf, index (fill_missing_data dataf) = index dataf) ->
  WeatherApi.tag_name (WeatherApi.weather_data_source self) = Ok source ->
  exists out csv',
    WeatherApi.get_weather_data utc_offset resample_and_fill_missing_data
      fill_missing_data Extractor.World (weather_funcs attempt) self
      (Some (WeatherApi.Member PVLIB_CLEARSKY)) w csv
    = (w, csv', Ok out) /\
    index out = grid.
Proof.
  intros grid Hasked Hcolumns Hresample Hfill Hname.
  destruct (convert_to_poa_returns self
              (get_clearsky (latitude (WeatherApi.geolocation self))
                            (longitude (WeatherApi.geolocation self)) grid)
              (Hcolumns _ _ _)) as (raw & Hraw).
  destruct (convert_to_poa_shape _ _ _ Hraw) as [_ Hindex].
  rewrite Hasked in Hindex.
  specialize (Hresample raw Hindex).
  assert (Hsorted : StronglySorted Z.lt grid)
    by apply get_date_range_sorted.
  destruct (get_weather_data_returns utc_offset resample_and_fill_missing_data
              fill_missing_data (weather_funcs attempt) self
              (Some (WeatherApi.Member PVLIB_CLEARSKY)) w w csv raw source
              Hfill)
    as (out & csv' & Hrun & _ & Hout).
  - change (WeatherApi.select_weather_func self
              (Some (WeatherApi.Member PVLIB_CLEARSKY)))
      with (WeatherApi.dict_get (WeatherApi.Member PVLIB_CLEARSKY)).
    rewrite (dict_get_recognized (WeatherApi.Member PVLIB_CLEARSKY)
               PVLIB_CLEARSKY eq_refl).
    cbn [Spec.strategy_for WeatherApi.weather_funcs].
    unfold WeatherApi.get_clearsky_solar_data. cbv zeta. fold grid.
    rewrite Hraw. reflexivity.
  - rewrite Hresample. apply has_duplicates_false, sorted_NoDup, Hsorted.
  - exact Hname.
  - exists out, csv'. split; [exact Hrun|].
    rewrite Hout, Hresample. fold grid.
    apply index_union_within; [exact Hsorted|apply incl_refl].
Qed.

End ClearSky.

End StrategyFacts.

Lemma strategy_tables_are_plane_of_array_witness :
  exists table,
    WeatherApi.weather_funcs fixed_sun no_airmass half_direct horizontal_plane
      dark_sky no_typical_year one_row_provider (Ok None) utc_all_year
      WeatherApi.F_sarah2_weather_data
      (demo_weather (WeatherApi.Member PVGISSARAH2)) empty_world
    = (empty_world, Ok table) /\
    FunctionsRest.get_weather_data_format (columns table) = FunctionsRest.POA.
Proof.
  eexists. split; [reflexivity|].
  apply (strategy_tables_are_plane_of_array fixed_sun no_airmass half_direct
           horizontal_plane dark_sky no_typical_year one_row_provider
           utc_all_year (Ok None) WeatherApi.F_sarah2_weather_data
           (demo_weather (WeatherApi.Member PVGISSARAH2))
           empty_world empty_world);
    [discriminate|reflexivity].
Defined.

Lemma get_weather_data_from_era5_with_files_on_disk_witness :
  fst (WeatherApi.get_weather_data_from_era5 fixed_sun no_airmass half_direct
         horizontal_plane (Ok (Some refusing_client))
         (demo_weather (WeatherApi.Member ERA5)) samples_at_different_instants)
  = samples_at_different_instants /\
  WeatherApi.get_weather_data_from_era5 fixed_sun no_airmass half_direct
    horizontal_plane (Raise ValueError)
    (demo_weather (WeatherApi.Member ERA5)) samples_at_different_instants
  = (samples_at_different_instants, Raise ValueError).
Proof.
  assert (Hradiation :
            is_Some (Extractor.files samples_at_different_instants
                       !! Extractor.get_variable_file_path era5_site
                            SOLARRADIATION 2020))
    by (eexists; apply lookup_insert_eq).
  assert (Htemperature :
            is_Some (Extractor.files samples_at_different_instants
                       !! Extractor.get_variable_file_path era5_site
                            TEMPERATURE 2020)).
  { eexists. unfold samples_at_different_instants, site_files.
    cbn [Extractor.files].
    rewrite lookup_insert_ne by apply variable_paths_differ.
    apply lookup_insert_eq. }
  split.
  - apply (get_weather_data_from_era5_with_files_on_disk fixed_sun no_airmass
             half_direct horizontal_plane (Ok (Some refusing_client))
             (demo_weather (WeatherApi.Member ERA5))
             samples_at_different_instants Hradiation Htemperature).
  - apply (get_weather_data_from_era5_with_files_on_disk fixed_sun no_airmass
             half_direct horizontal_plane (Raise ValueError)
             (demo_weather (WeatherApi.Member ERA5))
             samples_at_different_instants Hradiation Htemperature).
Defined.

Lemma get_weather_data_clearsky_on_grid_witness :
  exists out csv',
    WeatherApi.get_weather_data utc_all_year keep_half_hourly fill_nothing
      Extractor.World
      (WeatherApi.weather_funcs fixed_sun no_airmass half_direct
         horizontal_plane dark_sky no_typical_year one_row_provider (Ok None)
         utc_all_year)
      (demo_weather (WeatherApi.Member ERA5))
      (Some (WeatherApi.Member PVLIB_CLEARSKY)) empty_world ∅
    = (empty_world, csv', Ok out) /\
    index out
    = WeatherApi.get_date_range utc_all_year
        (demo_weather (WeatherApi.Member ERA5)).
Proof.
  apply (get_weather_data_clearsky_on_grid fixed_sun no_airmass half_direct
           horizontal_plane dark_sky no_typical_year one_row_provider
           utc_all_year keep_half_hourly fill_nothing (Ok None)
           (demo_weather (WeatherApi.Member ERA5)) empty_world ∅ "ERA5").
  - intros lat lon times. unfold dark_sky, index. cbn [rows].
    rewrite map_map. apply map_id.
  - intros lat lon times. repeat constructor; discriminate.
  - intros dataf Hgrid. exact Hgrid.
  - intros dataf. reflexivity.
  - reflexivity.
Defined.

Section Era5WithoutClient.
Variable get_solarposition : Q -> Q -> Z -> WeatherApi.SolarPosition.
Variable get_airmass : Q -> Q -> Z -> option R.
Variable disc : option R -> R -> Z -> WeatherApi.DiscOutput.
Variable get_total_irradiance :
  R -> R -> R -> R -> option R -> option R -> option R -> option R ->
  list (option R).

(** X20. When [create_api_client] has left the extractor without a client
    and one of the two files of the year is not on disk, the reanalysis
    strategy raises the attribute error of calling [retrieve] on nothing;
    files and log stay as they were, and the file that may be there is
    not read. *)
Theorem get_weather_data_from_era5_without_client
        (self : WeatherApi.WeatherData) (w : Extractor.World) (v : ExtractFile) :
  let site :=
    Extractor.new_extractor (WeatherApi.geolocation self) None None
      (WeatherApi.saving_path self) in
  Extractor.files w
    !! Extractor.get_variable_file_path site v (WeatherApi.simulation_year self)
  = None ->
  WeatherApi.get_weather_data_from_era5 get_solarposition get_airmass disc
    get_total_irradiance (Ok None) self w
  = (w, Raise (AttributeError "retrieve")).
Proof.
  intros site Hmissing.
  unfold WeatherApi.get_weather_data_from_era5, Extractor.post_init.
  cbv zeta. run_bind. cbv iota.
  unfold Extractor.download_data.
  rewrite download_variables_without_client; [reflexivity|reflexivity|].
  destruct v.
  - apply Exists_cons_tl, Exists_cons_hd. exact Hmissing.
  - apply Exists_cons_hd. exact Hmissing.
Qed.

End Era5WithoutClient.

Lemma get_weather_data_from_era5_without_client_witness :
  WeatherApi.get_weather_data_from_era5 fixed_sun no_airmass half_direct
    horizontal_plane (Ok None) (demo_weather (WeatherApi.Member ERA5))
    radiation_only
  = (radiation_only, Raise (AttributeError "retrieve")).
Proof.
  apply (get_weather_data_from_era5_without_client fixed_sun no_airmass
           half_direct horizontal_plane
           (demo_weather (WeatherApi.Member ERA5)) radiation_only TEMPERATURE).
  apply lookup_singleton_ne. apply variable_paths_differ.
Defined.
